(** * PDF-Maker: the flow and pagination engine of [pdfmaker.Document]

    A shallow embedding of [src/pdfmaker.py].  A [Document] is a record,
    every method is a function that takes the document and returns a
    [result]: the new document, a raised exception together with the
    document as it was when the exception was raised, or [Timeout] when the
    method does not return (an endless [while] loop, or a recursion that
    Python ends with [RecursionError]).

    Lengths are Python floats in the source; they are exact rationals here.
    The canvas of reportlab is the list of drawing commands sent to it. *)

From Stdlib Require Import QArith ZArith List String Ascii Bool Lia Lra Lqa.
From Stdlib Require Import PeanoNat DecimalString.
Import ListNotations.

Local Open Scope string_scope.
Local Open Scope Q_scope.
Local Open Scope list_scope.

(** ** Numbers *)

(** Python's [a > b] and [a <= b] on lengths. *)
Definition Qgt_bool (a b : Q) : bool := negb (Qle_bool a b).

(** Python's [str] of an integer. *)
Definition str_of_Z (n : Z) : string := NilZero.string_of_int (Z.to_int n).

(** ** Strings: [str.split(' ')] and [' '.join] *)

Definition space : ascii := " "%char.

Fixpoint split_space (s : string) : list string :=
  match s with
  | EmptyString => [EmptyString]
  | String c rest =>
      if Ascii.eqb c space then EmptyString :: split_space rest
      else match split_space rest with
           | w :: ws => String c w :: ws
           | [] => [String c EmptyString]
           end
  end.

Fixpoint join_space (ws : list string) : string :=
  match ws with
  | [] => EmptyString
  | [w] => w
  | w :: ws' => (w ++ String space (join_space ws'))%string
  end.

(** ** Styles *)

Definition color : Type := Q * Q * Q.

Record ParagraphStyle : Type := mkParagraphStyle {
  ps_name : string;
  ps_fontName : string;
  ps_fontSize : Q;
  ps_alignment : Z;
  ps_leading : Q;
  ps_textColor : color
}.

Definition black : color := (0, 0, 0).
Definition white : color := (1, 1, 1).

(** The entries of a table style dictionary. *)
Record TableStyleDict : Type := mkTableStyleDict {
  header : bool;
  fontName : string;
  fontSize : Q;
  textColor : color;
  backgroundColor : color;
  gridColor : color;
  gridSize : Q;
  headerColor : color;
  headerTextColor : color
}.

(** One command of a reportlab [TableStyle]: name, first cell, last cell,
    arguments. *)
Inductive cmd_arg : Type :=
| ArgName (s : string)
| ArgNum (q : Q)
| ArgColor (c : color)
| ArgGrid (size : Q) (c : color).

Definition table_cmd : Type := string * (Z * Z) * (Z * Z) * cmd_arg.

Definition generate_table (style : TableStyleDict) : list table_cmd :=
  let base_styles :=
    [ ("ALIGN", (0, 0), (-1, -1), ArgName "CENTER");
      ("VALIGN", (0, 0), (-1, -1), ArgName "MIDDLE");
      ("GRID", (0, 0), (-1, -1), ArgGrid (gridSize style) (gridColor style));
      ("FONTNAME", (0, 0), (-1, -1), ArgName (fontName style));
      ("FONTSIZE", (0, 0), (-1, -1), ArgNum (fontSize style));
      ("BACKGROUND", (0, 0), (-1, -1), ArgColor (backgroundColor style));
      ("TEXTCOLOR", (0, 0), (-1, -1), ArgColor (textColor style)) ]%Z in
  if header style then
    base_styles ++
    [ ("BACKGROUND", (0, 0), (-1, -1), ArgColor (headerColor style));
      ("TEXTCOLOR", (0, 0), (-1, -1), ArgColor (headerTextColor style));
      ("BACKGROUND", (0, 1), (-1, -1), ArgColor (backgroundColor style));
      ("TEXTCOLOR", (0, 1), (-1, -1), ArgColor (textColor style)) ]%Z
  else base_styles.

(** ** Dictionaries

    A Python [dict] keeps its keys in insertion order; assigning to a key
    that is present keeps the key where it is.  [new_page] iterates over
    [template_images], so the order is part of the model. *)

Section Dict.
Context {V : Type}.

Definition dict : Type := list (string * V).

Fixpoint dict_get (k : string) (m : dict) : option V :=
  match m with
  | [] => None
  | (k', v) :: m' => if String.eqb k k' then Some v else dict_get k m'
  end.

Fixpoint dict_set (k : string) (v : V) (m : dict) : dict :=
  match m with
  | [] => [(k, v)]
  | (k', v') :: m' =>
      if String.eqb k k' then (k', v) :: m' else (k', v') :: dict_set k v m'
  end.

Fixpoint dict_pop (k : string) (m : dict) : option dict :=
  match m with
  | [] => None
  | (k', v') :: m' =>
      if String.eqb k k' then Some m'
      else match dict_pop k m' with
           | Some m'' => Some ((k', v') :: m'')
           | None => None
           end
  end.
End Dict.
Arguments dict V : clear implicits.

(** ** Table cells, canvas commands *)

(** A cell of a table is a raw value, stood for by its [str()], or a
    [Paragraph] built by [add_table]. *)
Inductive cell : Type :=
| Raw (s : string)
| Wrapped (text : string) (style : ParagraphStyle).

(** The address of a row object, and the store of the row objects. *)
Abbreviation loc := nat (only parsing).
Abbreviation store := (list (list cell)) (only parsing).

(** The [colWidths] argument of a reportlab [Table]: [None], the string
    ['uniform'], one number for every column, or a list. *)
Inductive col_widths_t : Type :=
| WidthsNone
| WidthsUniform
| WidthsScalar (w : Q)
| WidthsList (ws : list Q).

Inductive canvas_op : Type :=
| DrawParagraph (text : string) (style : ParagraphStyle) (x y : Q)
| DrawImage (file : string) (x y w h : Q)
| DrawTable (rows : list (list cell)) (widths : col_widths_t)
            (style : list table_cmd) (x y : Q)
| SaveState
| ShowPage
| SaveFile.

(** ** The document *)

Record TemplateImage : Type := mkTemplateImage {
  ti_file : string;
  ti_size_proportions : Q;
  ti_width : Q;
  ti_height : Q;
  ti_posx : Q;
  ti_posy : Q;
  ti_axisx : string;
  ti_axisy : string
}.

Record Document : Type := mkDocument {
  name : string;
  width : Q;
  height : Q;
  page : list canvas_op;
  margin_top : Q;
  margin_left : Q;
  margin_right : Q;
  margin_bottom : Q;
  current_height : Q;
  page_count : bool;
  page_number : Z;
  style_list : dict ParagraphStyle;
  table_style_list : dict TableStyleDict;
  template_images : dict TemplateImage
}.

Definition set_page (ops : list canvas_op) (d : Document) : Document :=
  mkDocument (name d) (width d) (height d) ops (margin_top d) (margin_left d)
    (margin_right d) (margin_bottom d) (current_height d) (page_count d)
    (page_number d) (style_list d) (table_style_list d) (template_images d).

Definition set_current_height (h : Q) (d : Document) : Document :=
  mkDocument (name d) (width d) (height d) (page d) (margin_top d) (margin_left d)
    (margin_right d) (margin_bottom d) h (page_count d)
    (page_number d) (style_list d) (table_style_list d) (template_images d).

Definition set_page_count (b : bool) (d : Document) : Document :=
  mkDocument (name d) (width d) (height d) (page d) (margin_top d) (margin_left d)
    (margin_right d) (margin_bottom d) (current_height d) b
    (page_number d) (style_list d) (table_style_list d) (template_images d).

Definition set_page_number (n : Z) (d : Document) : Document :=
  mkDocument (name d) (width d) (height d) (page d) (margin_top d) (margin_left d)
    (margin_right d) (margin_bottom d) (current_height d) (page_count d)
    n (style_list d) (table_style_list d) (template_images d).

Definition set_style_list (s : dict ParagraphStyle) (d : Document) : Document :=
  mkDocument (name d) (width d) (height d) (page d) (margin_top d) (margin_left d)
    (margin_right d) (margin_bottom d) (current_height d) (page_count d)
    (page_number d) s (table_style_list d) (template_images d).

Definition set_table_style_list (s : dict TableStyleDict) (d : Document) : Document :=
  mkDocument (name d) (width d) (height d) (page d) (margin_top d) (margin_left d)
    (margin_right d) (margin_bottom d) (current_height d) (page_count d)
    (page_number d) (style_list d) s (template_images d).

Definition set_template_images (t : dict TemplateImage) (d : Document) : Document :=
  mkDocument (name d) (width d) (height d) (page d) (margin_top d) (margin_left d)
    (margin_right d) (margin_bottom d) (current_height d) (page_count d)
    (page_number d) (style_list d) (table_style_list d) t.

(** [canvas.drawX(...)]: one more command on the canvas. *)
Definition draw (op : canvas_op) (d : Document) : Document :=
  set_page (page d ++ [op]) d.

(** ** Results *)

Inductive exn : Type :=
| ValueError (msg : string)
| KeyError (key : string)
| FileNotFoundError (file : string)
| IndexError
| ZeroDivisionError.

Inductive result : Type :=
| Ok (d : Document)
| Raise (e : exn) (d : Document)
| Timeout (d : Document).

Definition bind (r : result) (k : Document -> result) : result :=
  match r with
  | Ok d => k d
  | Raise e d => Raise e d
  | Timeout d => Timeout d
  end.

Notation "x <- r ;; k" := (bind r (fun x => k))
  (at level 100, r at next level, right associativity).

(** The document a call leaves behind, whatever its outcome. *)
Definition state_of (r : result) : Document :=
  match r with
  | Ok d => d
  | Raise _ d => d
  | Timeout d => d
  end.

(** ** Document.__init__ and the default styles *)

Definition inch : Q := 72.
Definition letter : Q * Q := (612, 792).

Definition _initialize_styles (d : Document) : Document :=
  let s1 := dict_set "title"
              (mkParagraphStyle "Title" "Helvetica-Bold" 14 0 14 black) (style_list d) in
  let s2 := dict_set "paragraph"
              (mkParagraphStyle "Paragraph" "Helvetica" 12 4 12 black) s1 in
  let s3 := dict_set "page_number"
              (mkParagraphStyle "Page Number" "Helvetica" 12 1 12 black) s2 in
  set_style_list s3 d.

Definition _initialize_table_styles (d : Document) : Document :=
  let t1 := dict_set "table"
              (mkTableStyleDict true "Helvetica-Bold" 8 black white black 1
                 (1 # 2, 1 # 2, 1 # 2) white) (table_style_list d) in
  let t2 := dict_set "no_header"
              (mkTableStyleDict false "Helvetica-Bold" 8 black white black 1
                 white black) t1 in
  set_table_style_list t2 d.

Definition init (name : string) (width height margin_top margin_left
                 margin_right margin_bottom : Q) : Document :=
  _initialize_table_styles
    (_initialize_styles
       (mkDocument name width height [] margin_top margin_left margin_right
          margin_bottom 0 false 1 [] [] [])).

Definition default_document : Document :=
  init "document.pdf" (fst letter) (snd letter) inch inch inch inch.

(** ** Measurements for the examples

    A column so narrow that every word takes a line of its own, a table
    whose rows are all 18 points high, and one image file that exists. *)

Definition count_words (text : string) : nat :=
  List.length (filter (fun w => negb (String.eqb w "")) (split_space text)).

Definition one_word_per_line (text : string) (st : ParagraphStyle)
           (availWidth availHeight : Q) : Q * Q :=
  (availWidth, ps_leading st * inject_Z (Z.of_nat (count_words text))).

Definition fixed_row_height (rows : list (list cell)) (widths : col_widths_t)
           (style : list table_cmd) : Q * Q :=
  (200, 18 * inject_Z (Z.of_nat (List.length rows))).

Definition example_png (file : string) : option (Z * Z) :=
  if String.eqb file "Example.png" then Some (100, 50)%Z else None.

Definition plain_repr (text : string) (st : ParagraphStyle) : string :=
  ("Paragraph(" ++ text ++ ")")%string.

(** A markup parser that takes every ["<"] for the start of a tag that is
    never closed, and a table constructor that wants a row and a column. *)
Fixpoint has_char (c : ascii) (s : string) : bool :=
  match s with
  | EmptyString => false
  | String c' s' => Ascii.eqb c' c || has_char c s'
  end.

Definition markup_error (text : string) (st : ParagraphStyle) : option string :=
  if has_char "<"%char text then Some "Parse error: saw </para> instead of expected </y>"
  else None.

Definition empty_table_error (rows : list (list cell)) (widths : col_widths_t)
  : option string :=
  if (List.length rows =? 0)%nat
     || (fold_right Nat.max 0%nat (map (@List.length cell) rows) =? 0)%nat
  then Some "Table must have at least a row and column"
  else None.

(** ** The engine

    The measurements come from outside the repository: reportlab's
    [Paragraph.wrap] and [Table.wrapOn], Pillow's [Image.open(...).size],
    and the [str] of a [Paragraph] object; so do the [ValueError]s that the
    constructors [Paragraph(...)] and [Table(...)] raise for a text or a
    table that reportlab does not take.  They are the parameters of the
    section.  [_add_page_number] builds its paragraph from the decimal
    digits of the page number, which are no markup: it has no such error. *)

Section Engine.

(** [Paragraph(text, style).wrap(availWidth, availHeight)]. *)
Variable wrap_paragraph : string -> ParagraphStyle -> Q -> Q -> Q * Q.

(** [Table(rows, colWidths=widths)] with [setStyle(style)], then
    [wrapOn(canvas, 0, 0)]. *)
Variable wrap_table : list (list cell) -> col_widths_t -> list table_cmd -> Q * Q.

(** [Image.open(file).size], [None] when the file cannot be opened. *)
Variable image_size : string -> option (Z * Z).

(** [str(p)] of a [Paragraph]. *)
Variable paragraph_repr : string -> ParagraphStyle -> string.

(** [Paragraph(text, style)]: the message of the [ValueError] that
    reportlab's markup parser raises for [text], [None] when the paragraph
    is built. *)
Variable paragraph_error : string -> ParagraphStyle -> option string.

(** [Table(rows, colWidths=widths)]: the message of the [ValueError] that
    reportlab raises (a table without rows or without columns, widths that
    do not match the columns), [None] when the table is built. *)
Variable table_error : list (list cell) -> col_widths_t -> option string.

Definition py_str (c : cell) : string :=
  match c with
  | Raw s => s
  | Wrapped t st => paragraph_repr t st
  end.

(** *** Page lifecycle *)

Definition _add_page_number (d : Document) : result :=
  if page_count d then
    match dict_get "page_number" (style_list d) with
    | None => Raise (KeyError "page_number") d
    | Some st =>
        let text := str_of_Z (page_number d) in
        let '(w_title, h_title) := wrap_paragraph text st (width d) (height d) in
        let x_position := (width d - w_title) / 2 in
        let y_position := margin_bottom d / 2 in
        Ok (draw (DrawParagraph text st x_position y_position) d)
    end
  else Ok d.

Definition toggle_page_count (page_number' : option Z) (set : option bool)
           (d : Document) : Document :=
  let d1 := set_page_count
              (match set with None => negb (page_count d) | Some b => b end) d in
  set_page_number
    (match page_number' with Some n => n | None => page_number d1 end) d1.

(** The test of [verify_page_break]. *)
Definition overflows (d : Document) : bool :=
  Qgt_bool (current_height d + margin_top d + margin_bottom d) (height d).

(** [verify_page_break], [add_image] and [new_page] call each other;
    [new_page] is the one that is defined by recursion on the fuel, the
    other two take the [new_page] they call as [np]. *)
Definition verify_page_break_with (np : Document -> result) (d : Document) : result :=
  if overflows d then np d else Ok d.

Definition _set_absolute_positions (d : Document) (axisx axisy : string)
           (img_width img_height posx posy : Q) : Q * Q :=
  let left_margin :=
    if String.eqb axisx "right" then width d - img_width - posx
    else if String.eqb axisx "center" then (width d - img_width) / 2 + posx
    else posx in
  let bottom_margin :=
    if String.eqb axisy "bottom" then posy
    else if String.eqb axisy "center" then (height d - img_height) / 2 - posy
    else height d - img_height - posy in
  (left_margin, bottom_margin).

Definition valid_position (position : string) : bool :=
  String.eqb position "center" || String.eqb position "absolute"
  || String.eqb position "default".

Definition add_image_with (np : Document -> result) (file : string)
           (size_proportions width' height' : Q) (position : string)
           (posx posy : Q) (axisx axisy : string) (d0 : Document) : result :=
  d <- verify_page_break_with np d0 ;;
  if Qle_bool size_proportions 0 || Qle_bool width' 0 || Qle_bool height' 0 then
    Raise (ValueError "Size proportions, width, and height must be positive values.") d
  else if negb (valid_position position) then
    Raise (ValueError "Position must be 'center', 'absolute', or 'default'.") d
  else
    match image_size file with
    | None => Raise (FileNotFoundError file) d
    | Some (iw, ih) =>
        let img_width := inject_Z iw * (size_proportions * width') in
        let img_height := inject_Z ih * (size_proportions * height') in
        let '(left_margin, bottom_margin) :=
          if String.eqb position "center" then
            (width d / 2 - img_width / 2,
             height d - margin_top d - current_height d - img_height)
          else if String.eqb position "absolute" then
            _set_absolute_positions d axisx axisy img_width img_height posx posy
          else
            (margin_left d,
             height d - margin_top d - current_height d - img_height) in
        let d1 := draw (DrawImage file left_margin bottom_margin img_width img_height) d in
        Ok (set_current_height (current_height d1 + img_height) d1)
    end.

(** The call of [add_image] in the loop of [new_page]. *)
Definition add_template_with (np : Document -> result) (img : TemplateImage)
           (d : Document) : result :=
  add_image_with np (ti_file img) (ti_size_proportions img) (ti_width img)
    (ti_height img) "absolute" (ti_posx img) (ti_posy img) (ti_axisx img)
    (ti_axisy img) d.

(** [for i in self.template_images: img = self.template_images[i]; ...]:
    the keys in insertion order, each with its entry; nothing in the loop
    changes the dictionary. *)
Fixpoint replay_with (np : Document -> result) (imgs : dict TemplateImage)
         (d : Document) : result :=
  match imgs with
  | [] => Ok d
  | (_, img) :: rest =>
      d1 <- add_template_with np img d ;;
      replay_with np rest d1
  end.

(** [saveState], [showPage], then the cursor and the page number. *)
Definition commit_page (d : Document) : Document :=
  let d1 := draw ShowPage (draw SaveState d) in
  let d2 := set_current_height 0 d1 in
  if page_count d2 then set_page_number (page_number d2 + 1)%Z d2 else d2.

Fixpoint new_page (fuel : nat) (d0 : Document) : result :=
  match fuel with
  | O => Timeout d0
  | S fuel' =>
      d1 <- _add_page_number d0 ;;
      d2 <- replay_with (new_page fuel') (template_images d1) d1 ;;
      Ok (commit_page d2)
  end.

Definition verify_page_break (fuel : nat) : Document -> result :=
  verify_page_break_with (new_page fuel).

Definition add_image (fuel : nat) := add_image_with (new_page fuel).

Definition save (fuel : nat) (d : Document) : result :=
  d1 <- new_page fuel d ;;
  Ok (draw SaveFile d1).

Definition add_space (height' : Q) (d : Document) : Document :=
  set_current_height (current_height d + height') d.

Definition add_template_image (name' file : string)
           (size_proportions width' height' posx posy : Q)
           (axisx axisy : string) (d : Document) : Document :=
  set_template_images
    (dict_set name'
       (mkTemplateImage file size_proportions width' height' posx posy axisx axisy)
       (template_images d)) d.

Definition remove_template_image (name' : string) (d : Document) : result :=
  match dict_pop name' (template_images d) with
  | Some t => Ok (set_template_images t d)
  | None => Raise (KeyError name') d
  end.

Definition style_config (name' fontName' : string) (fontSize' : Q)
           (alignment : Z) (leading : option Q) (textColor' : color)
           (d : Document) : Document :=
  set_style_list
    (dict_set name'
       (mkParagraphStyle name' fontName' fontSize' alignment
          (match leading with None => fontSize' | Some l => l end) textColor')
       (style_list d)) d.

Definition title_config (fontName' : string) (fontSize' : Q) (alignment : Z)
           (leading : option Q) (textColor' : color) (d : Document) : Document :=
  set_style_list
    (dict_set "title"
       (mkParagraphStyle "Title" fontName' fontSize' alignment
          (match leading with None => fontSize' | Some l => l end) textColor')
       (style_list d)) d.

Definition paragraph_config (fontName' : string) (fontSize' : Q) (alignment : Z)
           (leading : option Q) (textColor' : color) (d : Document) : Document :=
  set_style_list
    (dict_set "paragraph"
       (mkParagraphStyle "Paragraph" fontName' fontSize' alignment
          (match leading with None => fontSize' | Some l => l end) textColor')
       (style_list d)) d.

Definition table_style (name' fontName' : string) (fontSize' : Q)
           (textColor' backgroundColor' gridColor' : color) (gridSize' : Q)
           (header' : bool) (headerColor' headerTextColor' : color)
           (d : Document) : Document :=
  set_table_style_list
    (dict_set name'
       (mkTableStyleDict header' fontName' fontSize' textColor' backgroundColor'
          gridColor' gridSize' headerColor' headerTextColor')
       (table_style_list d)) d.

(** *** Text *)

(** [add_section] and its [while not sent] loop call each other: the loop is
    defined by recursion on the fuel, and [add_section_with] is the body of
    [add_section] up to the loop, with the [new_page] and the loop it calls
    as [np] and [loop]. *)
Definition add_section_with (np : Document -> result)
           (loop : string -> bool -> nat -> Document -> result)
           (text style : string) (d0 : Document) : result :=
  match dict_get style (style_list d0) with
  | None =>
      Raise (ValueError ("Style '" ++ style ++ "' is not defined in style_list.")%string)
            d0
  | Some _ =>
      d <- verify_page_break_with np d0 ;;
      loop text false (List.length (split_space text) - 1)%nat d
  end.

Fixpoint add_section_loop (fuel : nat) (style : string) (text : string)
         (has_split : bool) (pointer : nat) (d : Document) : result :=
  match fuel with
  | O => Timeout d
  | S fuel' =>
      match dict_get style (style_list d) with
      | None => Raise (KeyError style) d
      | Some st =>
          match paragraph_error text st with
          | Some msg => Raise (ValueError msg) d
          | None =>
          let '(w_title, h_title) :=
            wrap_paragraph text st
              (width d - margin_left d - margin_right d) (height d) in
          let page_break_needed :=
            Qgt_bool (current_height d + margin_top d + margin_bottom d + h_title)
                     (height d) in
          if negb page_break_needed then
            let d1 := draw (DrawParagraph text st (margin_left d)
                              (height d - margin_top d - current_height d - h_title)) d in
            let d2 := set_current_height (current_height d1 + h_title) d1 in
            if has_split then
              let new_text := join_space (skipn (pointer + 1) (split_space text)) in
              d3 <- new_page fuel' d2 ;;
              add_section_with (new_page fuel') (add_section_loop fuel' style)
                new_text style d3
            else Ok d2
          else if (0 <? pointer)%nat then
            let text_split := firstn pointer (split_space text) in
            add_section_loop fuel' style (join_space text_split) true (pointer - 1)%nat d
          else
            d1 <- new_page fuel' d ;;
            add_section_loop fuel' style text false
              (List.length (split_space text) - 1)%nat d1
          end
      end
  end.

Definition add_section (fuel : nat) (text style : string) : Document -> result :=
  add_section_with (new_page fuel) (add_section_loop fuel style) text style.

(** [text.split('\n')]. *)
Fixpoint split_lines (s : string) : list string :=
  match s with
  | EmptyString => [EmptyString]
  | String c rest =>
      if Ascii.eqb c "010"%char then EmptyString :: split_lines rest
      else match split_lines rest with
           | w :: ws => String c w :: ws
           | [] => [String c EmptyString]
           end
  end.

Fixpoint add_sections_list (fuel : nat) (texts : list string) (style : string)
         (d : Document) : result :=
  match texts with
  | [] => Ok d
  | i :: rest =>
      d1 <- add_section fuel i style d ;;
      add_sections_list fuel rest style d1
  end.

Definition add_sections (fuel : nat) (text style : string) : Document -> result :=
  add_sections_list fuel (split_lines text) style.

Definition add_title (fuel : nat) (text : string) : Document -> result :=
  add_section fuel text "title".

Definition add_paragraph (fuel : nat) (text : string) : Document -> result :=
  add_section fuel text "paragraph".

(** *** Tables *)

(** The two [ParagraphStyle]s that [add_table] builds when [wrap] is set. *)
Definition style_header (tsd : TableStyleDict) : ParagraphStyle :=
  mkParagraphStyle "Header" (fontName tsd) (fontSize tsd) 1 (fontSize tsd + 2)
    (headerTextColor tsd).

Definition style_text (tsd : TableStyleDict) : ParagraphStyle :=
  mkParagraphStyle "Table" (fontName tsd) (fontSize tsd) 1 (fontSize tsd + 2)
    (textColor tsd).

(** The style of the cells of row [i]. *)
Definition cell_style (tsd : TableStyleDict) (i : nat) : ParagraphStyle :=
  if (i =? 0)%nat && header tsd then style_header tsd else style_text tsd.

Definition wrap_row (st : ParagraphStyle) (row : list cell) : list cell :=
  map (fun c => Wrapped (py_str c) st) row.

(** [data_send] after the two nested [for] loops, rows [i], [i+1], ... *)
Fixpoint wrap_rows_from (tsd : TableStyleDict) (i : nat) (data : list (list cell))
  : list (list cell) :=
  match data with
  | [] => []
  | row :: rest => wrap_row (cell_style tsd i) row :: wrap_rows_from tsd (S i) rest
  end.

Definition wrap_cells (tsd : TableStyleDict) (data : list (list cell))
  : list (list cell) :=
  wrap_rows_from tsd 0 data.

(** The first [Paragraph(str(data[i][j]), ...)] of the two nested loops that
    raises, if any does. *)
Fixpoint wrap_row_error (st : ParagraphStyle) (row : list cell) : option string :=
  match row with
  | [] => None
  | c :: row' =>
      match paragraph_error (py_str c) st with
      | Some msg => Some msg
      | None => wrap_row_error st row'
      end
  end.

Fixpoint wrap_rows_error (tsd : TableStyleDict) (i : nat) (data : list (list cell))
  : option string :=
  match data with
  | [] => None
  | row :: rest =>
      match wrap_row_error (cell_style tsd i) row with
      | Some msg => Some msg
      | None => wrap_rows_error tsd (S i) rest
      end
  end.

Definition wrap_error (tsd : TableStyleDict) (data : list (list cell))
  : option string :=
  wrap_rows_error tsd 0 data.

(** [if col_widths == 'uniform': ...]. *)
Definition resolve_col_widths (col_widths : col_widths_t) (data : list (list cell))
           (d : Document) : exn + col_widths_t :=
  match col_widths with
  | WidthsUniform =>
      match data with
      | [] => inl IndexError
      | row0 :: _ =>
          let n_cols := List.length row0 in
          let total_width := width d - margin_left d - margin_right d in
          if (n_cols =? 0)%nat then inl ZeroDivisionError
          else inr (WidthsScalar (total_width / inject_Z (Z.of_nat n_cols)))
      end
  | other => inr other
  end.

(** [add_table] for [data] a list of lists, on the contents of the rows:
    the body up to the loop, with the [new_page] and the loop it calls as
    [np] and [loop].  On contents [row[:]] and [deepcopy] change nothing;
    [add_table_h] below runs the same code on row objects in a store. *)
Definition add_table_with (np : Document -> result)
           (loop : list (list cell) -> list (list cell) -> col_widths_t ->
                   TableStyleDict -> nat -> Document -> result)
           (data : list (list cell)) (col_widths : col_widths_t)
           (style : string) (wrap : bool) (d0 : Document) : result :=
  d <- verify_page_break_with np d0 ;;
  match dict_get style (table_style_list d) with
  | None => Raise (KeyError style) d
  | Some table_style_dict =>
      match (if wrap then wrap_error table_style_dict data else None) with
      | Some msg => Raise (ValueError msg) d
      | None =>
          let data_send :=
            if wrap then wrap_cells table_style_dict data else data in
          match resolve_col_widths col_widths data d with
          | inl e => Raise e d
          | inr col_widths' =>
              loop data data_send col_widths' table_style_dict (List.length data) d
          end
      end
  end.

Fixpoint add_table_loop (fuel : nat) (style position : string) (wrap : bool)
         (data data_send : list (list cell)) (col_widths : col_widths_t)
         (table_style_dict : TableStyleDict) (pointer : nat) (d : Document)
  : result :=
  match fuel with
  | O => Timeout d
  | S fuel' =>
      let table_style := generate_table table_style_dict in
      match table_error (firstn pointer data_send) col_widths with
      | Some msg => Raise (ValueError msg) d
      | None =>
      let '(w_table, h_table) :=
        wrap_table (firstn pointer data_send) col_widths table_style in
      let total_current_height := margin_top d + current_height d + h_table in
      let limit := height d - margin_bottom d in
      if Qgt_bool total_current_height limit then
        if (1 <? pointer)%nat then
          add_table_loop fuel' style position wrap data data_send col_widths
            table_style_dict (pointer - 1)%nat d
        else
          d1 <- new_page fuel' d ;;
          add_table_loop fuel' style position wrap data data_send col_widths
            table_style_dict (List.length data_send) d1
      else
        let left_margin :=
          if String.eqb position "default" then margin_left d
          else (width d - w_table) / 2 in
        d1 <- (if (pointer =? 1)%nat && (1 <? List.length data)%nat
                  && header table_style_dict
               then new_page fuel' d
               else
                 let d' := draw (DrawTable (firstn pointer data_send) col_widths
                                   table_style left_margin
                                   (height d - margin_top d - current_height d - h_table)) d in
                 Ok (set_current_height (current_height d' + h_table) d')) ;;
        if negb (pointer =? List.length data_send)%nat then
          if header table_style_dict then
            match data with
            | [] => Raise IndexError d1
            | row0 :: _ =>
                add_table_with (new_page fuel')
                  (add_table_loop fuel' style position wrap)
                  (row0 :: skipn pointer data) col_widths style wrap d1
            end
          else
            add_table_with (new_page fuel')
              (add_table_loop fuel' style position wrap)
              (skipn pointer data) col_widths style wrap d1
        else Ok d1
      end
  end.

Definition add_table (fuel : nat) (data : list (list cell))
           (col_widths : col_widths_t) (style position : string) (wrap : bool)
  : Document -> result :=
  add_table_with (new_page fuel) (add_table_loop fuel style position wrap)
    data col_widths style wrap.

(** *** Tables whose rows are objects

    The rows that a caller passes are Python lists: objects that
    [data_send[i][j] = ...] could change under the caller's feet.  Here a
    row is an address in a store of row objects, the outer list is the
    list of the addresses of its rows (the code never assigns into an
    outer list, it only indexes, slices and concatenates them), and
    [add_table_h] is [add_table] again, on addresses. *)

Definition row_at (h : store) (l : loc) : list cell := nth l h [].

Definition rows_at (h : store) (data : list loc) : list (list cell) :=
  map (row_at h) data.

(** A new row object. *)
Definition alloc (row : list cell) (h : store) : store * loc :=
  ((h ++ [row])%list, List.length h).

Fixpoint set_nth {A : Type} (n : nat) (x : A) (l : list A) {struct l} : list A :=
  match l, n with
  | [], _ => []
  | _ :: l', O => x :: l'
  | y :: l', S n' => y :: set_nth n' x l'
  end.

(** [row[j] = c] for the row object at [l].  Python raises [IndexError]
    when [j] is out of range; [add_table] only assigns into a copy of the row
    it reads [j] from, so it never is ([wrap_row_h_whole]). *)
Definition store_cell (l : loc) (j : nat) (c : cell) (h : store) : store :=
  set_nth l (set_nth j c (row_at h l)) h.

(** [[row[:] for row in data]]. *)
Fixpoint copy_rows (h : store) (data : list loc) : store * list loc :=
  match data with
  | [] => (h, [])
  | r :: rest =>
      let '(h1, r') := alloc (row_at h r) h in
      let '(h2, rest') := copy_rows h1 rest in
      (h2, r' :: rest')
  end.

Fixpoint memo_get (l : loc) (memo : list (loc * loc)) : option loc :=
  match memo with
  | [] => None
  | (k, v) :: memo' => if (l =? k)%nat then Some v else memo_get l memo'
  end.

(** [deepcopy(data)]: every row object is copied once, a row that occurs
    twice is copied to one object that occurs twice ([memo]); the cells
    are immutable and stay. *)
Fixpoint deepcopy_rows (memo : list (loc * loc)) (h : store) (data : list loc)
  : store * list loc :=
  match data with
  | [] => (h, [])
  | r :: rest =>
      match memo_get r memo with
      | Some r' =>
          let '(h2, rest') := deepcopy_rows memo h rest in
          (h2, r' :: rest')
      | None =>
          let '(h1, r') := alloc (row_at h r) h in
          let '(h2, rest') := deepcopy_rows ((r, r') :: memo) h1 rest in
          (h2, r' :: rest')
      end
  end.

(** [for j in range(len(data[i])): data_send[i][j] = Paragraph(str(data[i][j]), st)]. *)
Fixpoint wrap_row_h (st : ParagraphStyle) (src dst : loc) (js : list nat)
         (h : store) : store :=
  match js with
  | [] => h
  | j :: js' =>
      wrap_row_h st src dst js'
        (store_cell dst j (Wrapped (py_str (nth j (row_at h src) (Raw ""))) st) h)
  end.

(** [for i in range(len(data)): ...], from row [i] on. *)
Fixpoint wrap_rows_h (tsd : TableStyleDict) (i : nat) (data data_send : list loc)
         (h : store) : store :=
  match data, data_send with
  | src :: data', dst :: data_send' =>
      wrap_rows_h tsd (S i) data' data_send'
        (wrap_row_h (cell_style tsd i) src dst
           (seq 0 (List.length (row_at h src))) h)
  | _, _ => h
  end.

(** The two loops again, as they run: they stop at the first
    [Paragraph(...)] that raises, with the cells before it written. *)
Fixpoint wrap_row_h_until (st : ParagraphStyle) (src dst : loc) (js : list nat)
         (h : store) : store * option string :=
  match js with
  | [] => (h, None)
  | j :: js' =>
      match paragraph_error (py_str (nth j (row_at h src) (Raw ""))) st with
      | Some msg => (h, Some msg)
      | None =>
          wrap_row_h_until st src dst js'
            (store_cell dst j (Wrapped (py_str (nth j (row_at h src) (Raw ""))) st) h)
      end
  end.

Fixpoint wrap_rows_h_until (tsd : TableStyleDict) (i : nat)
         (data data_send : list loc) (h : store) : store * option string :=
  match data, data_send with
  | src :: data', dst :: data_send' =>
      match wrap_row_h_until (cell_style tsd i) src dst
              (seq 0 (List.length (row_at h src))) h with
      | (h', Some msg) => (h', Some msg)
      | (h', None) => wrap_rows_h_until tsd (S i) data' data_send' h'
      end
  | _, _ => (h, None)
  end.

Definition add_table_h_with (np : Document -> result)
           (loop : store -> list loc -> list loc -> col_widths_t ->
                   TableStyleDict -> nat -> Document -> store * result)
           (h : store) (data0 : list loc) (col_widths : col_widths_t)
           (style : string) (wrap : bool) (d0 : Document) : store * result :=
  match verify_page_break_with np d0 with
  | Ok d =>
      let '(h1, data) := copy_rows h data0 in
      match dict_get style (table_style_list d) with
      | None => (h1, Raise (KeyError style) d)
      | Some table_style_dict =>
          let '(h2, data_send) := deepcopy_rows [] h1 data in
          let '(h3, err) :=
            if wrap then wrap_rows_h_until table_style_dict 0 data data_send h2
            else (h2, None) in
          match err with
          | Some msg => (h3, Raise (ValueError msg) d)
          | None =>
              match resolve_col_widths col_widths (rows_at h3 data) d with
              | inl e => (h3, Raise e d)
              | inr col_widths' =>
                  loop h3 data data_send col_widths' table_style_dict
                    (List.length data) d
              end
          end
      end
  | other => (h, other)
  end.

Fixpoint add_table_loop_h (fuel : nat) (style position : string) (wrap : bool)
         (h : store) (data data_send : list loc) (col_widths : col_widths_t)
         (table_style_dict : TableStyleDict) (pointer : nat) (d : Document)
  : store * result :=
  match fuel with
  | O => (h, Timeout d)
  | S fuel' =>
      let table_style := generate_table table_style_dict in
      match table_error (rows_at h (firstn pointer data_send)) col_widths with
      | Some msg => (h, Raise (ValueError msg) d)
      | None =>
      let '(w_table, h_table) :=
        wrap_table (rows_at h (firstn pointer data_send)) col_widths table_style in
      let total_current_height := margin_top d + current_height d + h_table in
      let limit := height d - margin_bottom d in
      if Qgt_bool total_current_height limit then
        if (1 <? pointer)%nat then
          add_table_loop_h fuel' style position wrap h data data_send col_widths
            table_style_dict (pointer - 1)%nat d
        else
          match new_page fuel' d with
          | Ok d1 =>
              add_table_loop_h fuel' style position wrap h data data_send
                col_widths table_style_dict (List.length data_send) d1
          | other => (h, other)
          end
      else
        let left_margin :=
          if String.eqb position "default" then margin_left d
          else (width d - w_table) / 2 in
        match (if (pointer =? 1)%nat && (1 <? List.length data)%nat
                  && header table_style_dict
               then new_page fuel' d
               else
                 let d' := draw (DrawTable (rows_at h (firstn pointer data_send))
                                   col_widths table_style left_margin
                                   (height d - margin_top d - current_height d - h_table)) d in
                 Ok (set_current_height (current_height d' + h_table) d'))
        with
        | Ok d1 =>
            if negb (pointer =? List.length data_send)%nat then
              if header table_style_dict then
                match data with
                | [] => (h, Raise IndexError d1)
                | row0 :: _ =>
                    add_table_h_with (new_page fuel')
                      (add_table_loop_h fuel' style position wrap)
                      h (row0 :: skipn pointer data) col_widths style wrap d1
                end
              else
                add_table_h_with (new_page fuel')
                  (add_table_loop_h fuel' style position wrap)
                  h (skipn pointer data) col_widths style wrap d1
            else (h, Ok d1)
        | other => (h, other)
        end
      end
  end.

Definition add_table_h (fuel : nat) (h : store) (data : list loc)
           (col_widths : col_widths_t) (style position : string) (wrap : bool)
  : Document -> store * result :=
  add_table_h_with (new_page fuel) (add_table_loop_h fuel style position wrap)
    h data col_widths style wrap.

(** *** Sequences of calls *)

Inductive command : Type :=
| CmdNewPage
| CmdSave
| CmdTogglePageCount (page_number' : option Z) (set : option bool)
| CmdAddSection (text style : string)
| CmdAddSections (text style : string)
| CmdAddSpace (height' : Q)
| CmdAddImage (file : string) (size_proportions width' height' : Q)
              (position : string) (posx posy : Q) (axisx axisy : string)
| CmdAddTable (data : list (list cell)) (col_widths : col_widths_t)
              (style position : string) (wrap : bool)
| CmdAddTitle (text : string)
| CmdAddParagraph (text : string)
| CmdTitleConfig (fontName' : string) (fontSize' : Q) (alignment : Z)
                 (leading : option Q) (textColor' : color)
| CmdParagraphConfig (fontName' : string) (fontSize' : Q) (alignment : Z)
                     (leading : option Q) (textColor' : color)
| CmdStyleConfig (name' fontName' : string) (fontSize' : Q) (alignment : Z)
                 (leading : option Q) (textColor' : color)
| CmdTableStyle (name' fontName' : string) (fontSize' : Q)
                (textColor' backgroundColor' gridColor' : color) (gridSize' : Q)
                (header' : bool) (headerColor' headerTextColor' : color)
| CmdAddTemplateImage (name' file : string)
                      (size_proportions width' height' posx posy : Q)
                      (axisx axisy : string)
| CmdRemoveTemplateImage (name' : string).

Definition run_command (fuel : nat) (c : command) (d : Document) : result :=
  match c with
  | CmdNewPage => new_page fuel d
  | CmdSave => save fuel d
  | CmdTogglePageCount n b => Ok (toggle_page_count n b d)
  | CmdAddSection text style => add_section fuel text style d
  | CmdAddSections text style => add_sections fuel text style d
  | CmdAddSpace h => Ok (add_space h d)
  | CmdAddImage file sp w h position posx posy axisx axisy =>
      add_image fuel file sp w h position posx posy axisx axisy d
  | CmdAddTable data cw style position wrap =>
      add_table fuel data cw style position wrap d
  | CmdAddTitle text => add_title fuel text d
  | CmdAddParagraph text => add_paragraph fuel text d
  | CmdTitleConfig f s a l c => Ok (title_config f s a l c d)
  | CmdParagraphConfig f s a l c => Ok (paragraph_config f s a l c d)
  | CmdStyleConfig n f s a l c => Ok (style_config n f s a l c d)
  | CmdTableStyle n f s tc bc gc gs hd hc htc =>
      Ok (table_style n f s tc bc gc gs hd hc htc d)
  | CmdAddTemplateImage n file sp w h px py ax ay =>
      Ok (add_template_image n file sp w h px py ax ay d)
  | CmdRemoveTemplateImage n => remove_template_image n d
  end.

Fixpoint run_commands (fuel : nat) (cs : list command) (d : Document) : result :=
  match cs with
  | [] => Ok d
  | c :: cs' =>
      d1 <- run_command fuel c d ;;
      run_commands fuel cs' d1
  end.

Definition is_toggle (c : command) : bool :=
  match c with
  | CmdTogglePageCount _ _ => true
  | _ => false
  end.

(** *** Vocabulary of the statements *)

(** One step of a call: it draws, moves the cursor, or commits the page
    ([saveState], [showPage], cursor to 0, next page number).  [P] holds of
    what is drawn. *)
Inductive evolves (P : canvas_op -> Prop) : Document -> Document -> Prop :=
| ev_refl d : evolves P d d
| ev_draw op d : P op -> evolves P d (draw op d)
| ev_cursor h d : evolves P d (set_current_height h d)
| ev_commit d : evolves P d (commit_page d)
| ev_trans d1 d2 d3 : evolves P d1 d2 -> evolves P d2 d3 -> evolves P d1 d3.

Definition is_paragraph (op : canvas_op) : Prop :=
  match op with DrawParagraph _ _ _ _ => True | _ => False end.

Definition is_image (op : canvas_op) : Prop :=
  match op with DrawImage _ _ _ _ _ => True | _ => False end.

Definition is_table (op : canvas_op) : Prop :=
  match op with DrawTable _ _ _ _ _ => True | _ => False end.

(** What [new_page] draws before it commits. *)
Definition decoration (op : canvas_op) : Prop := is_paragraph op \/ is_image op.

(** Everything of a document that no drawing call changes. *)
Definition same_config (d d' : Document) : Prop :=
  name d' = name d /\ width d' = width d /\ height d' = height d /\
  margin_top d' = margin_top d /\ margin_left d' = margin_left d /\
  margin_right d' = margin_right d /\ margin_bottom d' = margin_bottom d /\
  page_count d' = page_count d /\ style_list d' = style_list d /\
  table_style_list d' = table_style_list d /\
  template_images d' = template_images d.

(** The pages committed so far. *)
Fixpoint count_show_page (ops : list canvas_op) : nat :=
  match ops with
  | [] => 0
  | ShowPage :: ops' => S (count_show_page ops')
  | _ :: ops' => count_show_page ops'
  end.

(** The page number as [_add_page_number] draws it. *)
Definition page_number_ops (d : Document) : list canvas_op :=
  if page_count d then
    match dict_get "page_number" (style_list d) with
    | Some st =>
        let text := str_of_Z (page_number d) in
        [DrawParagraph text st
           ((width d - fst (wrap_paragraph text st (width d) (height d))) / 2)
           (margin_bottom d / 2)]
    | None => []
    end
  else [].

(** The size at which a template image is drawn. *)
Definition template_size (img : TemplateImage) : Q * Q :=
  match image_size (ti_file img) with
  | Some (iw, ih) =>
      (inject_Z iw * (ti_size_proportions img * ti_width img),
       inject_Z ih * (ti_size_proportions img * ti_height img))
  | None => (0, 0)
  end.

(** A template image drawn in absolute mode with its stored parameters. *)
Definition template_op (d : Document) (img : TemplateImage) : canvas_op :=
  let '(w, h) := template_size img in
  let '(x, y) := _set_absolute_positions d (ti_axisx img) (ti_axisy img) w h
                   (ti_posx img) (ti_posy img) in
  DrawImage (ti_file img) x y w h.

Definition template_ok (img : TemplateImage) : Prop :=
  0 < ti_size_proportions img /\ 0 < ti_width img /\ 0 < ti_height img /\
  image_size (ti_file img) <> None.

(** The replay of the template images goes through: every image can be
    drawn, and the cursor, which every image moves down by its height,
    never passes the bottom margin before the next image is drawn. *)
Fixpoint replay_fits (d : Document) (cursor : Q) (imgs : dict TemplateImage) : Prop :=
  match imgs with
  | [] => True
  | (_, img) :: rest =>
      cursor + margin_top d + margin_bottom d <= height d /\
      template_ok img /\
      replay_fits d (cursor + snd (template_size img)) rest
  end.

Definition page_number_style_ok (d : Document) : Prop :=
  page_count d = true -> dict_get "page_number" (style_list d) <> None.

(** What [new_page] sends to the canvas when the replay goes through. *)
Definition finalization (d : Document) : list canvas_op :=
  page_number_ops d ++ map (fun kv => template_op d (snd kv)) (template_images d)
  ++ [SaveState; ShowPage].

(** A table slice on the canvas: the row [hdr] and at least one more row. *)
Definition table_slice_ok (hdr : list cell) (op : canvas_op) : Prop :=
  match op with
  | DrawTable (row0 :: _ :: _) _ _ _ _ => row0 = hdr
  | DrawTable _ _ _ _ _ => False
  | _ => True
  end.

(** The first row that [add_table] sends to the canvas for [data]. *)
Definition header_row (tsd : TableStyleDict) (wrap : bool) (data : list (list cell))
  : list cell :=
  match data with
  | [] => []
  | row0 :: _ => if wrap then wrap_row (cell_style tsd 0) row0 else row0
  end.

Fixpoint has_space (w : string) : bool :=
  match w with
  | EmptyString => false
  | String c w' => Ascii.eqb c space || has_space w'
  end.

(** The first [k] words of a text, joined by single spaces. *)
Definition prefix_text (text : string) (k : nat) : string :=
  join_space (firstn k (split_space text)).

(** [data] has a header row and a body, and [data_send] is [data] made
    ready for the canvas: as long, and starting with the row [hdr]. *)
Definition table_ready (tsd : TableStyleDict) (wrap : bool) (hdr : list cell)
           (data data_send : list (list cell)) : Prop :=
  (2 <= List.length data)%nat /\
  List.length data_send = List.length data /\
  hd_error data_send = Some hdr /\
  header_row tsd wrap data = hdr.

(** The page number counts the pages committed while numbering is on. *)
Definition numbering_inv (d d' : Document) : Prop :=
  page_count d' = page_count d /\
  page_number d' =
  (page_number d +
   if page_count d
   then Z.of_nat (count_show_page (page d')) - Z.of_nat (count_show_page (page d))
   else 0)%Z.

(** Where [add_image] puts an image of the given size. *)
Definition image_position (d : Document) (position axisx axisy : string)
           (img_width img_height posx posy : Q) : Q * Q :=
  if String.eqb position "center" then
    (width d / 2 - img_width / 2,
     height d - margin_top d - current_height d - img_height)
  else if String.eqb position "absolute" then
    _set_absolute_positions d axisx axisy img_width img_height posx posy
  else
    (margin_left d, height d - margin_top d - current_height d - img_height).

(** The document after an image of [iw] by [ih] pixels is drawn. *)
Definition image_drawn (d : Document) (file : string) (iw ih : Z)
           (sp w h : Q) (position : string) (posx posy : Q)
           (axisx axisy : string) : Document :=
  let img_width := inject_Z iw * (sp * w) in
  let img_height := inject_Z ih * (sp * h) in
  let xy := image_position d position axisx axisy img_width img_height posx posy in
  set_current_height (current_height d + img_height)
    (draw (DrawImage file (fst xy) (snd xy) img_width img_height) d).

(** A paragraph on the canvas whose text is a prefix of the words of
    [text]; images and page commits are let through. *)
Definition text_prefix (text : string) (op : canvas_op) : Prop :=
  match op with
  | DrawParagraph t _ _ _ => exists k, t = prefix_text text k
  | DrawTable _ _ _ _ _ => False
  | _ => True
  end.


(** The store [h] is the store [hb] with new row objects after it: no row
    object of [hb] has changed. *)
Definition store_from (hb h : store) : Prop := exists ext, h = hb ++ ext.

(** *** Documents and tables of the examples

    The default letter page is 792 points high with one inch of margin all
    around: 648 points between the top and the bottom margin. *)

(** 40 points left: room for three lines of 12 points. *)
Definition page_with_three_lines_left : Document := add_space 608 default_document.

(** 5 points left: room for no line. *)
Definition page_with_no_line_left : Document := add_space 643 default_document.

(** The cursor exactly at the bottom margin. *)
Definition exactly_full_page : Document := add_space 648 default_document.

(** The cursor below the bottom margin. *)
Definition overfull_page : Document := add_space 700 default_document.

Definition numbered_with_watermark : Document :=
  add_template_image "watermark" "Example.png" (1 # 5) 1 1 10 20 "right" "top"
    (toggle_page_count None None default_document).

Definition numbered_with_two_templates : Document :=
  add_template_image "logo" "Example.png" 1 1 1 0 0 "left" "bottom"
    numbered_with_watermark.

Definition example_table : list (list cell) :=
  [[Raw "H1"; Raw "H2"]; [Raw "r1"; Raw "r2"]; [Raw "r3"; Raw "r4"];
   [Raw "r5"; Raw "r6"]].

(** The table of [main.py], [[['Example']*8]*5], in small: one row object
    that the outer list holds three times. *)
Definition aliased_store : store := [[Raw "Example"; Raw "Example"]].
Definition aliased_rows : list loc := [0; 0; 0]%nat.

Definition example_commands : list command :=
  [CmdAddSpace 643; CmdAddSection "A B" "paragraph"; CmdNewPage;
   CmdAddTable example_table WidthsNone "table" "center" true].

(** Every address of [data] is the address of a row object of [h]. *)
Definition valid_rows (h : store) (data : list loc) : Prop :=
  Forall (fun l => (l < List.length h)%nat) data.

(** The wrapped cell that the inner loop of [add_table] builds. *)
Definition wrap_cell (st : ParagraphStyle) (c : cell) : cell :=
  Wrapped (py_str c) st.

(** *** Vocabulary of the further properties *)

(** The names of the registered template images, in the order of the
    dictionary. *)
Definition template_names (d : Document) : list string :=
  map fst (template_images d).

(** The paragraph style [k] and the table style [k] are registered. *)
Definition has_style (k : string) (d : Document) : Prop :=
  dict_get k (style_list d) <> None.

Definition has_table_style (k : string) (d : Document) : Prop :=
  dict_get k (table_style_list d) <> None.


(** A table on the canvas drawn with the column widths [cw]. *)
Definition table_widths_are (cw : col_widths_t) (op : canvas_op) : Prop :=
  match op with
  | DrawTable _ cw' _ _ _ => cw' = cw
  | _ => True
  end.

(** The arguments that [add_image] accepts. *)
Definition image_args_ok (file : string) (sp w h : Q) (position : string) : Prop :=
  0 < sp /\ 0 < w /\ 0 < h /\ valid_position position = true /\
  image_size file <> None.


Definition newline : ascii := "010"%char.

Fixpoint has_newline (s : string) : bool :=
  match s with
  | EmptyString => false
  | String c s' => Ascii.eqb c newline || has_newline s'
  end.

(** The height that [add_section] measures for [text] in the style [st]. *)
Definition text_height (d : Document) (st : ParagraphStyle) (text : string) : Q :=
  snd (wrap_paragraph text st (width d - margin_left d - margin_right d) (height d)).

(** The paragraph that [add_section] draws for [text] at the cursor of [d]. *)
Definition paragraph_at (d : Document) (st : ParagraphStyle) (text : string)
  : canvas_op :=
  DrawParagraph text st (margin_left d)
    (height d - margin_top d - current_height d - text_height d st text).


(** [data_send] as [add_table] prepares it from [data]. *)
Definition table_to_send (tsd : TableStyleDict) (wrap : bool)
           (data : list (list cell)) : list (list cell) :=
  if wrap then wrap_cells tsd data else data.

(** The rows of a table that are not the repeated header row. *)
Definition table_body (tsd : TableStyleDict) (wrap : bool)
           (data : list (list cell)) : list (list cell) :=
  if header tsd then tl (table_to_send tsd wrap data)
  else table_to_send tsd wrap data.

(** The rows that a command on the canvas shows, the header row of a table
    slice left out when [hdr] is set. *)
Definition slice_body (hdr : bool) (op : canvas_op) : list (list cell) :=
  match op with
  | DrawTable rows _ _ _ _ => if hdr then tl rows else rows
  | _ => []
  end.

Definition drawn_rows (hdr : bool) (ops : list canvas_op) : list (list cell) :=
  flat_map (slice_body hdr) ops.

(** The rows after the header row as they are sent to the canvas. *)
Definition body_to_send (tsd : TableStyleDict) (wrap : bool)
           (rows : list (list cell)) : list (list cell) :=
  if wrap then map (wrap_row (style_text tsd)) rows else rows.


(** The width and the height that [add_table] measures for [rows]. *)
Definition table_size (tsd : TableStyleDict) (cw : col_widths_t)
           (rows : list (list cell)) : Q * Q :=
  wrap_table rows cw (generate_table tsd).

(** The table that [add_table] draws for [rows] at the cursor of [d]. *)
Definition table_at (d : Document) (tsd : TableStyleDict) (position : string)
           (cw : col_widths_t) (rows : list (list cell)) : canvas_op :=
  DrawTable rows cw (generate_table tsd)
    (if String.eqb position "default" then margin_left d
     else (width d - fst (table_size tsd cw rows)) / 2)
    (height d - margin_top d - current_height d - snd (table_size tsd cw rows)).


(** The page number [m] as [_add_page_number] draws it. *)
Definition number_op (d : Document) (st : ParagraphStyle) (m : Z) : canvas_op :=
  DrawParagraph (str_of_Z m) st
    ((width d - fst (wrap_paragraph (str_of_Z m) st (width d) (height d))) / 2)
    (margin_bottom d / 2).

(** [k] pages without content, numbered from [m] on. *)
Fixpoint numbered_pages (d : Document) (st : ParagraphStyle) (m : Z) (k : nat)
  : list canvas_op :=
  match k with
  | O => []
  | S k' => number_op d st m :: SaveState :: ShowPage
            :: numbered_pages d st (m + 1)%Z k'
  end.


(** What a list of table commands sets for the cells of a row: reportlab
    applies the commands in order, each over the block of cells from its
    first to its last cell ([-1] is the last row or column), so that the last
    command of a name that covers the row decides.  All commands of
    [generate_table] span every column. *)
Definition cmd_covers_row (c : table_cmd) (row : Z) : bool :=
  let '(_, (_, r0), (_, r1), _) := c in
  ((r0 <=? row) && ((r1 =? -1) || (row <=? r1)))%Z.

Definition row_setting (nm : string) (row : Z) (cmds : list table_cmd)
  : option cmd_arg :=
  fold_left
    (fun acc c =>
       let '(nm', _, _, arg) := c in
       if String.eqb nm' nm && cmd_covers_row c row then Some arg else acc)
    cmds None.


(** The rows that [add_table] passes on to its continuation after a slice of
    [k] rows: [[data[0]] + data[pointer:]] under a header style,
    [data[pointer:]] otherwise. *)
Definition table_rest (tsd : TableStyleDict) (k : nat) (data : list (list cell))
  : list (list cell) :=
  if header tsd then firstn 1 data ++ skipn k data else skipn k data.



(** The cursor below the bottom margin of a page with a template image. *)
Definition watermark_below_margin : Document := add_space 700 numbered_with_watermark.

(** Two template images and 8 points left on the page; the first of them is
    10 points high. *)
Definition two_templates_near_margin : Document :=
  add_space 640 numbered_with_two_templates.

(** Room for two table rows of 18 points. *)
Definition page_with_two_rows_left : Document := add_space 610 default_document.


(** The styles that [__init__] registers as ["paragraph"], ["page_number"]
    and ["table"]. *)
Definition default_paragraph_style : ParagraphStyle :=
  mkParagraphStyle "Paragraph" "Helvetica" 12 4 12 black.

Definition default_page_number_style : ParagraphStyle :=
  mkParagraphStyle "Page Number" "Helvetica" 12 1 12 black.

Definition default_table_style : TableStyleDict :=
  mkTableStyleDict true "Helvetica-Bold" 8 black white black 1
    (1 # 2, 1 # 2, 1 # 2) white.


(** The [ValueError] of the first cell that reportlab does not take for a
    paragraph when [add_table] wraps the cells; nothing is wrapped without
    [wrap]. *)
Definition cells_error (tsd : TableStyleDict) (wrap : bool)
           (data : list (list cell)) : option string :=
  if wrap then wrap_error tsd data else None.


(** The document after [add_table] has drawn [rows] at the cursor. *)
Definition slice_drawn (d : Document) (tsd : TableStyleDict) (position : string)
           (cw : col_widths_t) (rows : list (list cell)) : Document :=
  set_current_height (current_height d + snd (table_size tsd cw rows))
    (draw (table_at d tsd position cw rows) d).


(** A script that changes the built-in styles before it uses them. *)
Definition restyling_commands : list command :=
  [CmdTitleConfig "Courier" 20 1 None black;
   CmdParagraphConfig "Courier" 10 4 (Some 14) black;
   CmdAddTitle "A B"; CmdAddParagraph "x<y"; CmdNewPage].


(** *** Steps of the calls *)

(** Names the width and the height of the measurement under the goal. *)
Ltac destruct_measure w h :=
  match goal with
  | |- context [let '(_, _) := ?e in _] => destruct e as [w h]
  end.

Lemma evolves_weaken (P Q : canvas_op -> Prop) d d' :
  (forall op, P op -> Q op) -> evolves P d d' -> evolves Q d d'.
Proof.
  intros HPQ H. induction H.
  - apply ev_refl.
  - apply ev_draw. auto.
  - apply ev_cursor.
  - apply ev_commit.
  - eapply ev_trans; eauto.
Qed.

Lemma evolves_bind (P : canvas_op -> Prop) d r k :
  evolves P d (state_of r) ->
  (forall d1, r = Ok d1 -> evolves P d1 (state_of (k d1))) ->
  evolves P d (state_of (bind r k)).
Proof.
  intros Hr Hk. destruct r as [d1 | e d1 | d1]; simpl in *; auto.
  eapply ev_trans; [exact Hr | apply Hk; reflexivity].
Qed.

Lemma evolves_draw_cursor (P : canvas_op -> Prop) d op h :
  P op -> evolves P d (set_current_height h (draw op d)).
Proof.
  intros HP. eapply ev_trans; [apply ev_draw; exact HP | apply ev_cursor].
Qed.

Lemma add_page_number_evolves (P : canvas_op -> Prop) d :
  (forall op, is_paragraph op -> P op) ->
  evolves P d (state_of (_add_page_number d)).
Proof.
  intros HP. unfold _add_page_number.
  destruct (page_count d); [| apply ev_refl].
  destruct (dict_get "page_number" (style_list d)) as [st |]; [| apply ev_refl].
  destruct (wrap_paragraph _ st (width d) (height d)) as [w h].
  simpl. apply ev_draw. apply HP. exact I.
Qed.

Lemma verify_page_break_with_evolves (P : canvas_op -> Prop) np d :
  (forall d0, evolves P d0 (state_of (np d0))) ->
  evolves P d (state_of (verify_page_break_with np d)).
Proof.
  intros Hnp. unfold verify_page_break_with.
  destruct (overflows d); [apply Hnp | apply ev_refl].
Qed.

Lemma add_image_with_evolves (P : canvas_op -> Prop) np file sp w h position
      posx posy axisx axisy d :
  (forall op, is_image op -> P op) ->
  (forall d0, evolves P d0 (state_of (np d0))) ->
  evolves P d
    (state_of (add_image_with np file sp w h position posx posy axisx axisy d)).
Proof.
  intros HP Hnp. unfold add_image_with.
  apply evolves_bind; [apply verify_page_break_with_evolves; exact Hnp |].
  intros d1 _.
  destruct (Qle_bool sp 0 || Qle_bool w 0 || Qle_bool h 0); [apply ev_refl |].
  destruct (negb (valid_position position)); [apply ev_refl |].
  destruct (image_size file) as [[iw ih] |]; [| apply ev_refl].
  destruct_measure lm bm.
  cbv beta iota zeta. cbn [state_of].
  apply evolves_draw_cursor. apply HP. exact I.
Qed.

Lemma replay_with_evolves (P : canvas_op -> Prop) np imgs d :
  (forall op, is_image op -> P op) ->
  (forall d0, evolves P d0 (state_of (np d0))) ->
  evolves P d (state_of (replay_with np imgs d)).
Proof.
  intros HP Hnp. revert d.
  induction imgs as [| [k img] rest IH]; intros d; simpl; [apply ev_refl |].
  apply evolves_bind; [| intros d1 _; apply IH].
  unfold add_template_with. apply add_image_with_evolves; assumption.
Qed.

Lemma new_page_evolves (P : canvas_op -> Prop) fuel d :
  (forall op, decoration op -> P op) ->
  evolves P d (state_of (new_page fuel d)).
Proof.
  intros HP. revert d.
  induction fuel as [| fuel IH]; intros d; simpl; [apply ev_refl |].
  apply evolves_bind.
  - apply add_page_number_evolves. intros op H. apply HP. left. exact H.
  - intros d1 _. apply evolves_bind.
    + apply replay_with_evolves; [| exact IH].
      intros op H. apply HP. right. exact H.
    + intros d2 _. simpl. apply ev_commit.
Qed.

Lemma add_section_loop_evolves (P : canvas_op -> Prop) fuel style :
  (forall op, decoration op -> P op) ->
  forall text has_split pointer d,
    evolves P d (state_of (add_section_loop fuel style text has_split pointer d)).
Proof.
  intros HP.
  induction fuel as [| fuel IH]; intros text has_split pointer d; simpl;
    [apply ev_refl |].
  destruct (dict_get style (style_list d)) as [st |] eqn:Est; [| apply ev_refl].
  destruct (paragraph_error text st); [apply ev_refl |].
  destruct_measure w_title h_title.
  destruct (negb (Qgt_bool _ (height d))).
  - set (d2 := set_current_height _ _).
    assert (Hd2 : evolves P d d2).
    { subst d2. apply evolves_draw_cursor. apply HP. left. exact I. }
    destruct has_split; [| exact Hd2].
    eapply ev_trans; [exact Hd2 |].
    apply evolves_bind; [apply new_page_evolves; exact HP |].
    intros d3 _. unfold add_section_with.
    destruct (dict_get style (style_list d3)); [| apply ev_refl].
    apply evolves_bind; [| intros d4 _; apply IH].
    apply verify_page_break_with_evolves. intros d0.
    apply new_page_evolves; exact HP.
  - destruct (0 <? pointer)%nat; [apply IH |].
    apply evolves_bind; [apply new_page_evolves; exact HP |].
    intros d1 _. apply IH.
Qed.

Lemma add_section_evolves (P : canvas_op -> Prop) fuel text style d :
  (forall op, decoration op -> P op) ->
  evolves P d (state_of (add_section fuel text style d)).
Proof.
  intros HP. unfold add_section, add_section_with.
  destruct (dict_get style (style_list d)); [| apply ev_refl].
  apply evolves_bind; [| intros d1 _; apply add_section_loop_evolves; exact HP].
  apply verify_page_break_with_evolves. intros d0.
  apply new_page_evolves; exact HP.
Qed.

Lemma add_table_loop_evolves (P : canvas_op -> Prop) fuel style position wrap :
  (forall op, decoration op -> P op) ->
  (forall op, is_table op -> P op) ->
  forall data data_send cw tsd pointer d,
    evolves P d
      (state_of (add_table_loop fuel style position wrap data data_send cw tsd
                   pointer d)).
Proof.
  intros HP HT.
  assert (Hnp : forall f d0, evolves P d0 (state_of (new_page f d0)))
    by (intros; apply new_page_evolves; exact HP).
  induction fuel as [| fuel IH]; intros data data_send cw tsd pointer d; simpl;
    [apply ev_refl |].
  assert (Hrec : forall data' d1,
             evolves P d1
               (state_of (add_table_with (new_page fuel)
                            (add_table_loop fuel style position wrap)
                            data' cw style wrap d1))).
  { intros data' d1. unfold add_table_with.
    apply evolves_bind; [apply verify_page_break_with_evolves; apply Hnp |].
    intros d2 _.
    destruct (dict_get style (table_style_list d2)) as [tsd' |];
      [| apply ev_refl].
    destruct (if wrap then wrap_error tsd' data' else None); [apply ev_refl |].
    destruct (resolve_col_widths cw data' d2); [apply ev_refl | apply IH]. }
  destruct (table_error (firstn pointer data_send) cw); [apply ev_refl |].
  destruct_measure w_table h_table.
  destruct (Qgt_bool _ _).
  - destruct (1 <? pointer)%nat; [apply IH |].
    apply evolves_bind; [apply Hnp | intros d1 _; apply IH].
  - apply evolves_bind.
    + destruct ((pointer =? 1)%nat && (1 <? List.length data)%nat && header tsd);
        [apply Hnp |].
      cbv beta iota zeta. cbn [state_of].
      apply evolves_draw_cursor. apply HT. exact I.
    + intros d1 _.
      destruct (negb (pointer =? List.length data_send)%nat); [| apply ev_refl].
      destruct (header tsd); [| apply Hrec].
      destruct data as [| row0 rest]; [apply ev_refl | apply Hrec].
Qed.

Lemma add_table_evolves (P : canvas_op -> Prop) fuel data cw style position wrap d :
  (forall op, decoration op -> P op) ->
  (forall op, is_table op -> P op) ->
  evolves P d (state_of (add_table fuel data cw style position wrap d)).
Proof.
  intros HP HT. unfold add_table, add_table_with.
  apply evolves_bind;
    [apply verify_page_break_with_evolves; intros d0; apply new_page_evolves;
     exact HP |].
  intros d2 _.
  destruct (dict_get style (table_style_list d2)) as [tsd |]; [| apply ev_refl].
  destruct (if wrap then wrap_error tsd data else None); [apply ev_refl |].
  destruct (resolve_col_widths cw data d2); [apply ev_refl |].
  apply add_table_loop_evolves; assumption.
Qed.

(** *** What the steps preserve *)

Lemma same_config_refl d : same_config d d.
Proof. repeat split. Qed.

Lemma same_config_trans d1 d2 d3 :
  same_config d1 d2 -> same_config d2 d3 -> same_config d1 d3.
Proof.
  unfold same_config. intros H12 H23.
  repeat match goal with H : _ /\ _ |- _ => destruct H end.
  repeat split; congruence.
Qed.

Lemma commit_page_same_config d : same_config d (commit_page d).
Proof.
  unfold commit_page. cbn. destruct (page_count d); repeat split.
Qed.

Lemma evolves_same_config (P : canvas_op -> Prop) d d' :
  evolves P d d' -> same_config d d'.
Proof.
  induction 1.
  - apply same_config_refl.
  - repeat split.
  - repeat split.
  - apply commit_page_same_config.
  - eapply same_config_trans; eauto.
Qed.

Lemma count_show_page_app ops ops' :
  count_show_page (ops ++ ops') = (count_show_page ops + count_show_page ops')%nat.
Proof.
  induction ops as [| op ops IH]; [reflexivity |].
  destruct op; simpl; rewrite IH; reflexivity.
Qed.

Lemma commit_page_page d : page (commit_page d) = page d ++ [SaveState; ShowPage].
Proof.
  unfold commit_page. cbn. destruct (page_count d); cbn;
    rewrite <- app_assoc; reflexivity.
Qed.

Lemma commit_page_cursor d : current_height (commit_page d) = 0.
Proof. unfold commit_page. cbn. destruct (page_count d); reflexivity. Qed.

Lemma commit_page_number d :
  page_number (commit_page d) =
  if page_count d then (page_number d + 1)%Z else page_number d.
Proof. unfold commit_page. cbn. destruct (page_count d); reflexivity. Qed.

(** The canvas only grows, by what was drawn and by page commits. *)
Lemma evolves_page (P : canvas_op -> Prop) d d' :
  evolves P d d' ->
  exists ops, page d' = page d ++ ops /\
              Forall (fun op => P op \/ op = SaveState \/ op = ShowPage) ops.
Proof.
  induction 1.
  - exists []. rewrite app_nil_r. split; [reflexivity | constructor].
  - exists [op]. split; [reflexivity |]. repeat constructor. assumption.
  - exists []. rewrite app_nil_r. split; [reflexivity | constructor].
  - exists [SaveState; ShowPage]. split; [apply commit_page_page |].
    constructor; [right; left; reflexivity |].
    constructor; [right; right; reflexivity | constructor].
  - destruct IHevolves1 as [o1 [E1 F1]]. destruct IHevolves2 as [o2 [E2 F2]].
    exists (o1 ++ o2). split.
    + rewrite E2, E1, app_assoc. reflexivity.
    + apply Forall_app. split; assumption.
Qed.

Lemma numbering_inv_refl d : numbering_inv d d.
Proof. split; [reflexivity |]. destruct (page_count d); lia. Qed.

Lemma numbering_inv_trans d1 d2 d3 :
  numbering_inv d1 d2 -> numbering_inv d2 d3 -> numbering_inv d1 d3.
Proof.
  intros [C12 N12] [C23 N23]. split; [congruence |].
  rewrite N23, N12, C12. destruct (page_count d1); lia.
Qed.

Lemma evolves_numbering (P : canvas_op -> Prop) d d' :
  (forall op, P op -> op <> ShowPage) ->
  evolves P d d' -> numbering_inv d d'.
Proof.
  intros HP. induction 1.
  - apply numbering_inv_refl.
  - split; [reflexivity |]. cbn. rewrite count_show_page_app.
    assert (count_show_page [op] = 0%nat) as ->.
    { destruct op; try reflexivity. exfalso. eapply HP; eauto. }
    destruct (page_count d); lia.
  - split; [reflexivity |]. cbn. destruct (page_count d); lia.
  - split; [apply commit_page_same_config |].
    rewrite commit_page_number, commit_page_page, count_show_page_app. simpl.
    destruct (page_count d); lia.
  - eapply numbering_inv_trans; eauto.
Qed.

Lemma drawn_not_show_page op : decoration op \/ is_table op -> op <> ShowPage.
Proof. intros [[H | H] | H] E; subst op; exact H. Qed.

(** *** [add_image] after its page-break check *)

Lemma Qgt_bool_false a b : Qgt_bool a b = false <-> a <= b.
Proof.
  unfold Qgt_bool. rewrite negb_false_iff. apply Qle_bool_iff.
Qed.

Lemma Qgt_bool_true a b : Qgt_bool a b = true <-> b < a.
Proof.
  unfold Qgt_bool. rewrite negb_true_iff. split; intros H.
  - apply Qnot_le_lt. intros Hle. apply Qle_bool_iff in Hle. congruence.
  - destruct (Qle_bool a b) eqn:E; [| reflexivity].
    apply Qle_bool_iff in E. exfalso. apply (Qlt_not_le _ _ H E).
Qed.

Lemma Qle_bool_false a b : Qle_bool a b = false <-> b < a.
Proof.
  rewrite <- Qgt_bool_true. unfold Qgt_bool. rewrite negb_true_iff. tauto.
Qed.

Lemma add_image_with_Ok np file sp w h position posx posy axisx axisy d0 d' :
  add_image_with np file sp w h position posx posy axisx axisy d0 = Ok d' ->
  exists d iw ih,
    verify_page_break_with np d0 = Ok d /\
    0 < sp /\ 0 < w /\ 0 < h /\ valid_position position = true /\
    image_size file = Some (iw, ih) /\
    d' = image_drawn d file iw ih sp w h position posx posy axisx axisy.
Proof.
  unfold add_image_with. intros H.
  destruct (verify_page_break_with np d0) as [d | |]; simpl in H; try discriminate.
  destruct (Qle_bool sp 0) eqn:Esp; simpl in H; [discriminate |].
  destruct (Qle_bool w 0) eqn:Ew; simpl in H; [discriminate |].
  destruct (Qle_bool h 0) eqn:Eh; simpl in H; [discriminate |].
  destruct (valid_position position) eqn:Epos; simpl in H; [| discriminate].
  destruct (image_size file) as [[iw ih] |] eqn:Eimg; [| discriminate].
  exists d, iw, ih.
  apply Qle_bool_false in Esp, Ew, Eh.
  repeat split; try assumption.
  unfold image_drawn, image_position.
  destruct (String.eqb position "center");
    [| destruct (String.eqb position "absolute");
       [destruct (_set_absolute_positions _ _ _ _ _ _ _) |]];
    injection H as <-; reflexivity.
Qed.

Lemma add_image_with_fits np file sp w h position posx posy axisx axisy d iw ih :
  overflows d = false ->
  0 < sp -> 0 < w -> 0 < h -> valid_position position = true ->
  image_size file = Some (iw, ih) ->
  add_image_with np file sp w h position posx posy axisx axisy d =
  Ok (image_drawn d file iw ih sp w h position posx posy axisx axisy).
Proof.
  intros Hov Hsp Hw Hh Hpos Himg.
  unfold add_image_with, verify_page_break_with. rewrite Hov. simpl.
  apply Qle_bool_false in Hsp, Hw, Hh. rewrite Hsp, Hw, Hh, Hpos, Himg. simpl.
  unfold image_drawn, image_position.
  destruct (String.eqb position "center");
    [| destruct (String.eqb position "absolute");
       [destruct (_set_absolute_positions _ _ _ _ _ _ _) |]];
    reflexivity.
Qed.

(** *** [new_page] *)

Lemma new_page_Ok_cursor fuel d d' :
  new_page fuel d = Ok d' -> current_height d' = 0.
Proof.
  destruct fuel as [| fuel]; simpl; [discriminate |].
  destruct (_add_page_number d) as [d1 | |]; simpl; try discriminate.
  destruct (replay_with _ _ d1) as [d2 | |]; simpl; try discriminate.
  intros H. injection H as <-. apply commit_page_cursor.
Qed.

Lemma add_page_number_Ok d d1 :
  _add_page_number d = Ok d1 ->
  page d1 = page d ++ page_number_ops d /\ same_config d d1 /\
  current_height d1 = current_height d /\ page_number d1 = page_number d.
Proof.
  unfold _add_page_number, page_number_ops.
  destruct (page_count d).
  - destruct (dict_get "page_number" (style_list d)) as [st |]; [| discriminate].
    destruct (wrap_paragraph _ st (width d) (height d)) as [w h].
    intros H. injection H as <-. simpl. repeat split.
  - intros H. injection H as <-. rewrite app_nil_r. repeat split.
Qed.

Lemma overflows_ext d d' :
  current_height d' = current_height d -> same_config d d' ->
  overflows d' = overflows d.
Proof.
  unfold overflows, same_config. intros Hc H.
  repeat match goal with H : _ /\ _ |- _ => destruct H end.
  congruence.
Qed.

(** With a template image registered, a [new_page] that starts below the
    bottom margin never returns: the page-break check of the first
    [add_image] calls [new_page] again, in the same state. *)
Lemma new_page_overflow_no_return fuel :
  forall d d', overflows d = true -> template_images d <> [] ->
               new_page fuel d <> Ok d'.
Proof.
  induction fuel as [| fuel IH]; intros d d' Hov Htpl; simpl; [discriminate |].
  destruct (_add_page_number d) as [d1 | |] eqn:E1; simpl; try discriminate.
  apply add_page_number_Ok in E1. destruct E1 as [_ [Hcfg [Hcur _]]].
  assert (Hov1 : overflows d1 = true) by (rewrite (overflows_ext d d1); auto).
  assert (Htpl1 : template_images d1 = template_images d) by apply Hcfg.
  rewrite Htpl1.
  destruct (template_images d) as [| [k img] rest]; [congruence |].
  simpl. unfold add_template_with, add_image_with, verify_page_break_with.
  rewrite Hov1.
  destruct (new_page fuel d1) as [d2 | |] eqn:E2; simpl; try discriminate.
  exfalso. apply (IH d1 d2); [assumption | congruence | assumption].
Qed.

Lemma set_absolute_positions_ext d d' axisx axisy w h posx posy :
  same_config d d' ->
  _set_absolute_positions d' axisx axisy w h posx posy =
  _set_absolute_positions d axisx axisy w h posx posy.
Proof.
  unfold _set_absolute_positions. intros [_ [-> [-> _]]]. reflexivity.
Qed.

Lemma template_op_ext d d' img :
  same_config d d' -> template_op d' img = template_op d img.
Proof.
  intros H. unfold template_op. destruct (template_size img) as [w h].
  rewrite (set_absolute_positions_ext d d'); [reflexivity | assumption].
Qed.

Lemma image_drawn_template d img iw ih :
  image_size (ti_file img) = Some (iw, ih) ->
  let d' := image_drawn d (ti_file img) iw ih (ti_size_proportions img)
              (ti_width img) (ti_height img) "absolute" (ti_posx img)
              (ti_posy img) (ti_axisx img) (ti_axisy img) in
  page d' = page d ++ [template_op d img] /\ same_config d d' /\
  current_height d' = current_height d + snd (template_size img) /\
  page_number d' = page_number d.
Proof.
  intros Himg. unfold image_drawn, image_position, template_op, template_size.
  rewrite Himg. simpl. repeat split.
Qed.

(** A replay that returns has drawn every image, in order. *)
Lemma replay_with_Ok fuel imgs :
  forall d1 d2,
    template_images d1 <> [] ->
    replay_with (new_page fuel) imgs d1 = Ok d2 ->
    page d2 = page d1 ++ map (fun kv => template_op d1 (snd kv)) imgs /\
    same_config d1 d2 /\ page_number d2 = page_number d1.
Proof.
  induction imgs as [| [k img] rest IH]; intros d1 d2 Htpl H; simpl in H.
  - injection H as <-. simpl. rewrite app_nil_r.
    repeat split.
  - destruct (add_template_with (new_page fuel) img d1) as [d1' | |] eqn:E;
      simpl in H; try discriminate.
    unfold add_template_with in E. apply add_image_with_Ok in E.
    destruct E as [d [iw [ih [Hv [_ [_ [_ [_ [Himg ->]]]]]]]]].
    unfold verify_page_break_with in Hv.
    destruct (overflows d1) eqn:Hov.
    + exfalso. apply (new_page_overflow_no_return fuel d1 d); assumption.
    + injection Hv as <-.
      destruct (image_drawn_template d1 img iw ih Himg) as [Hp [Hc [_ Hn]]].
      apply IH in H.
      * destruct H as [Hp2 [Hc2 Hn2]]. split; [| split].
        -- rewrite Hp2, Hp. cbn [map snd]. rewrite <- app_assoc.
           reflexivity.
        -- eapply same_config_trans; eauto.
        -- congruence.
      * replace (template_images (image_drawn d1 (ti_file img) iw ih
                   (ti_size_proportions img) (ti_width img) (ti_height img)
                   "absolute" (ti_posx img) (ti_posy img) (ti_axisx img)
                   (ti_axisy img))) with (template_images d1); [assumption |].
        symmetry. apply Hc.
Qed.

(** A [new_page] that returns has sent [finalization] to the canvas, the
    cursor is at 0, and the page number is one more when numbering is on. *)
Lemma new_page_Ok fuel d d' :
  new_page fuel d = Ok d' ->
  page d' = page d ++ finalization d /\ same_config d d' /\
  current_height d' = 0 /\
  page_number d' = if page_count d then (page_number d + 1)%Z else page_number d.
Proof.
  destruct fuel as [| fuel]; simpl; [discriminate |].
  destruct (_add_page_number d) as [d1 | |] eqn:E1; simpl; try discriminate.
  destruct (replay_with _ _ d1) as [d2 | |] eqn:E2; simpl; try discriminate.
  intros H. injection H as <-.
  apply add_page_number_Ok in E1. destruct E1 as [Hp1 [Hc1 [Hh1 Hn1]]].
  assert (Htpl : template_images d1 = template_images d) by apply Hc1.
  assert (Hpc1 : page_count d1 = page_count d) by apply Hc1.
  assert (H2 : page d2 = page d1 ++
                         map (fun kv => template_op d1 (snd kv)) (template_images d1)
               /\ same_config d1 d2 /\ page_number d2 = page_number d1).
  { destruct (template_images d1) as [| kv rest] eqn:Et.
    - simpl in E2. injection E2 as <-. simpl. rewrite app_nil_r. repeat split.
    - rewrite <- Et in E2. apply replay_with_Ok in E2; [| congruence].
      rewrite Et in E2. exact E2. }
  destruct H2 as [Hp2 [Hc2 Hn2]].
  assert (Hpc2 : page_count d2 = page_count d1) by apply Hc2.
  split; [| split; [| split]].
  - rewrite commit_page_page, Hp2, Hp1, Htpl. unfold finalization.
    rewrite <- !app_assoc. do 3 f_equal.
    apply map_ext. intros kv. apply template_op_ext. exact Hc1.
  - eapply same_config_trans; [exact Hc1 |].
    eapply same_config_trans; [exact Hc2 | apply commit_page_same_config].
  - apply commit_page_cursor.
  - rewrite commit_page_number, Hpc2, Hpc1, Hn2, Hn1. reflexivity.
Qed.

Lemma replay_fits_ext d d' c imgs :
  same_config d d' -> replay_fits d c imgs -> replay_fits d' c imgs.
Proof.
  intros Hc. revert c.
  induction imgs as [| [k img] rest IH]; intros c; simpl; [trivial |].
  intros [Hle [Hok Hrest]].
  assert (Hh : height d' = height d) by apply Hc.
  assert (Hmt : margin_top d' = margin_top d) by apply Hc.
  assert (Hmb : margin_bottom d' = margin_bottom d) by apply Hc.
  rewrite Hh, Hmt, Hmb. split; [exact Hle |]. split; [exact Hok |].
  apply IH. exact Hrest.
Qed.

(** A replay that fits needs no page break, and draws every image. *)
Lemma replay_with_fits np imgs :
  forall d,
    replay_fits d (current_height d) imgs ->
    exists d2, replay_with np imgs d = Ok d2.
Proof.
  induction imgs as [| [k img] rest IH]; intros d Hfit; simpl.
  - exists d. reflexivity.
  - simpl in Hfit. destruct Hfit as [Hle [[Hsp [Hw [Hh Himg]]] Hrest]].
    destruct (image_size (ti_file img)) as [[iw ih] |] eqn:Eimg; [| congruence].
    unfold add_template_with.
    rewrite (add_image_with_fits np _ _ _ _ _ _ _ _ _ d iw ih); try assumption.
    + simpl.
      destruct (image_drawn_template d img iw ih Eimg) as [_ [Hc [Hcur _]]].
      apply IH. cbv zeta in Hcur. rewrite Hcur.
      apply (replay_fits_ext d); assumption.
    + unfold overflows. apply Qgt_bool_false. exact Hle.
    + reflexivity.
Qed.

Lemma add_page_number_fits d :
  page_number_style_ok d -> exists d1, _add_page_number d = Ok d1.
Proof.
  unfold page_number_style_ok, _add_page_number. intros H.
  destruct (page_count d); [| eexists; reflexivity].
  destruct (dict_get "page_number" (style_list d)) as [st |];
    [| exfalso; apply H; reflexivity].
  destruct (wrap_paragraph _ st (width d) (height d)). eexists; reflexivity.
Qed.

(** [new_page] returns when the page number can be drawn and the replay
    fits; one unit of fuel is enough. *)
Lemma new_page_fits fuel d :
  page_number_style_ok d ->
  replay_fits d (current_height d) (template_images d) ->
  exists d', new_page (S fuel) d = Ok d'.
Proof.
  intros Hst Hfit. simpl.
  destruct (add_page_number_fits d Hst) as [d1 E1]. rewrite E1. simpl.
  apply add_page_number_Ok in E1. destruct E1 as [_ [Hc [Hcur _]]].
  assert (Htpl : template_images d1 = template_images d) by apply Hc.
  destruct (replay_with_fits (new_page fuel) (template_images d1) d1) as [d2 E2].
  - rewrite Hcur, Htpl. apply (replay_fits_ext d); assumption.
  - rewrite E2. simpl. eexists; reflexivity.
Qed.

(** *** Sequences of calls keep the numbering invariant *)

Lemma numbering_bind d r k :
  numbering_inv d (state_of r) ->
  (forall d1, r = Ok d1 -> numbering_inv d1 (state_of (k d1))) ->
  numbering_inv d (state_of (bind r k)).
Proof.
  intros Hr Hk. destruct r as [d1 | e d1 | d1]; simpl in *; auto.
  eapply numbering_inv_trans; [exact Hr | apply Hk; reflexivity].
Qed.

Lemma evolves_anything_numbering d d' :
  evolves (fun op => decoration op \/ is_table op) d d' -> numbering_inv d d'.
Proof. apply evolves_numbering. apply drawn_not_show_page. Qed.

Lemma add_sections_list_numbering fuel style texts :
  forall d, numbering_inv d (state_of (add_sections_list fuel texts style d)).
Proof.
  induction texts as [| t rest IH]; intros d; simpl;
    [apply numbering_inv_refl |].
  apply numbering_bind; [| intros d1 _; apply IH].
  apply evolves_anything_numbering. apply add_section_evolves. auto.
Qed.

Lemma run_command_numbering fuel c d :
  is_toggle c = false ->
  numbering_inv d (state_of (run_command fuel c d)).
Proof.
  destruct c; simpl; intros Ht; try discriminate.
  - apply evolves_anything_numbering. apply new_page_evolves. auto.
  - unfold save. apply numbering_bind.
    + apply evolves_anything_numbering. apply new_page_evolves. auto.
    + intros d1 _. cbn [state_of]. split; [reflexivity |].
      unfold draw, set_page. cbn [page page_number page_count].
      rewrite count_show_page_app. simpl. destruct (page_count d1); lia.
  - apply evolves_anything_numbering. apply add_section_evolves. auto.
  - apply add_sections_list_numbering.
  - split; [reflexivity |]. simpl. destruct (page_count d); lia.
  - apply evolves_anything_numbering. unfold add_image.
    apply add_image_with_evolves.
    + intros op H. left. right. exact H.
    + intros d0. apply new_page_evolves. auto.
  - apply evolves_anything_numbering. apply add_table_evolves; auto.
  - apply evolves_anything_numbering. unfold add_title.
    apply add_section_evolves. auto.
  - apply evolves_anything_numbering. unfold add_paragraph.
    apply add_section_evolves. auto.
  - split; [reflexivity |]. simpl. destruct (page_count d); lia.
  - split; [reflexivity |]. simpl. destruct (page_count d); lia.
  - split; [reflexivity |]. simpl. destruct (page_count d); lia.
  - split; [reflexivity |]. simpl. destruct (page_count d); lia.
  - split; [reflexivity |]. simpl. destruct (page_count d); lia.
  - unfold remove_template_image.
    destruct (dict_pop name' (template_images d)); simpl;
      (split; [reflexivity |]; simpl; destruct (page_count d); lia).
Qed.

Lemma run_commands_numbering fuel cs :
  forall d,
    forallb (fun c => negb (is_toggle c)) cs = true ->
    numbering_inv d (state_of (run_commands fuel cs d)).
Proof.
  induction cs as [| c cs IH]; intros d Hcs; simpl;
    [apply numbering_inv_refl |].
  simpl in Hcs. apply andb_true_iff in Hcs. destruct Hcs as [Hc Hcs].
  apply negb_true_iff in Hc.
  apply numbering_bind; [apply run_command_numbering; exact Hc |].
  intros d1 _. apply IH. exact Hcs.
Qed.

Lemma template_op_is_image d img : is_image (template_op d img).
Proof.
  unfold template_op. destruct (template_size img) as [w h].
  destruct (_set_absolute_positions _ _ _ _ _ _ _). exact I.
Qed.

Lemma count_show_page_none ops :
  Forall (fun op => op <> ShowPage) ops -> count_show_page ops = 0%nat.
Proof.
  induction 1 as [| op ops Hop _ IH]; [reflexivity |].
  destruct op; simpl; try exact IH. congruence.
Qed.

Lemma count_show_page_finalization d : count_show_page (finalization d) = 1%nat.
Proof.
  unfold finalization. rewrite !count_show_page_app.
  rewrite (count_show_page_none (page_number_ops d)).
  - rewrite (count_show_page_none (map _ _)); [reflexivity |].
    apply Forall_map. apply Forall_forall. intros kv _ E.
    pose proof (template_op_is_image d (snd kv)) as H. rewrite E in H. exact H.
  - unfold page_number_ops. destruct (page_count d); [| constructor].
    destruct (dict_get "page_number" (style_list d)); repeat constructor.
    discriminate.
Qed.

(** *** The claims on the page lifecycle, images and space *)

(** C3 (amended).  A call of [add_image] that returns has moved the cursor
    down by the height of the image it drew, in every mode, ['absolute']
    included: the cursor ends at the drawn height below the place where
    the image was drawn, which is the old cursor, or 0 when the page-break
    check at the start of the call finalized the page. *)
Theorem add_image_advances_cursor_in_every_mode
        fuel file sp w h position posx posy axisx axisy d d' :
  add_image fuel file sp w h position posx posy axisx axisy d = Ok d' ->
  exists iw ih x y ops,
    image_size file = Some (iw, ih) /\
    page d' = ops ++ [DrawImage file x y (inject_Z iw * (sp * w))
                                        (inject_Z ih * (sp * h))] /\
    current_height d' =
    (if overflows d then 0 else current_height d) + inject_Z ih * (sp * h).
Proof.
  unfold add_image. intros H. apply add_image_with_Ok in H.
  destruct H as [d1 [iw [ih [Hv [_ [_ [_ [_ [Himg ->]]]]]]]]].
  exists iw, ih.
  eexists _, _, (page d1). split; [exact Himg |]. split; [reflexivity |].
  unfold image_drawn. cbn [current_height set_current_height].
  unfold verify_page_break_with in Hv. destruct (overflows d).
  - apply new_page_Ok_cursor in Hv. rewrite Hv. reflexivity.
  - injection Hv as <-. reflexivity.
Qed.

(** C4 (amended).  When the page number can be drawn and the replay of the
    template images fits, [new_page] returns, and what it has sent to the
    canvas is: the page number if numbering is on, then every template
    image in absolute mode with its stored parameters, in the order of
    registration, then the commit of the page. *)
Theorem new_page_draws_number_then_templates fuel d :
  page_number_style_ok d ->
  replay_fits d (current_height d) (template_images d) ->
  exists d',
    new_page (S fuel) d = Ok d' /\
    page d' = page d ++ page_number_ops d
              ++ map (fun kv => template_op d (snd kv)) (template_images d)
              ++ [SaveState; ShowPage].
Proof.
  intros Hst Hfit. destruct (new_page_fits fuel d Hst Hfit) as [d' E].
  exists d'. split; [exact E |]. apply new_page_Ok in E. apply E.
Qed.

(** C8 (amended).  [add_space] raises nothing and adds its argument to the
    cursor, whatever its sign: a height of zero leaves the cursor where it
    is, and nothing but the cursor changes. *)
Theorem add_space_adds_to_cursor h d :
  current_height (add_space h d) = current_height d + h /\
  current_height (add_space 0 d) == current_height d /\
  page (add_space h d) = page d /\
  page_number (add_space h d) = page_number d /\
  same_config d (add_space h d).
Proof.
  unfold add_space. cbn. repeat split. apply Qplus_0_r.
Qed.

(** C9.  Over every sequence of calls that does not toggle the numbering,
    the flag stays as it was; with numbering off the page number stays as
    it was, with numbering on it has advanced by the number of pages
    committed.  With numbering off a [new_page] whose replay fits still
    commits one page and resets the cursor to 0. *)
Theorem page_number_advances_only_when_numbering fuel cs d :
  forallb (fun c => negb (is_toggle c)) cs = true ->
  let d' := state_of (run_commands fuel cs d) in
  page_count d' = page_count d /\
  (page_count d = false -> page_number d' = page_number d) /\
  (page_count d = true ->
   page_number d' =
   (page_number d + (Z.of_nat (count_show_page (page d'))
                     - Z.of_nat (count_show_page (page d))))%Z) /\
  (page_count d = false ->
   replay_fits d (current_height d) (template_images d) ->
   exists d1, new_page (S fuel) d = Ok d1 /\
              page_number d1 = page_number d /\
              current_height d1 = 0 /\
              count_show_page (page d1) = S (count_show_page (page d))).
Proof.
  intros Hcs d'. destruct (run_commands_numbering fuel cs d Hcs) as [Hc Hn].
  fold d' in Hc, Hn.
  split; [exact Hc |]. split; [| split].
  - intros Hoff. rewrite Hn, Hoff. lia.
  - intros Hon. rewrite Hn, Hon. reflexivity.
  - intros Hoff Hfit.
    destruct (new_page_fits fuel d) as [d1 E]; [| exact Hfit |].
    + unfold page_number_style_ok. congruence.
    + exists d1. split; [exact E |]. apply new_page_Ok in E.
      destruct E as [Hp [_ [Hcur Hnum]]].
      rewrite Hoff in Hnum. repeat split; try assumption.
      rewrite Hp, count_show_page_app, count_show_page_finalization. lia.
Qed.

(** *** Table slices *)

Lemma wrap_rows_from_length tsd i data :
  List.length (wrap_rows_from tsd i data) = List.length data.
Proof.
  revert i. induction data as [| row rest IH]; intros i; simpl;
    [reflexivity | rewrite IH; reflexivity].
Qed.

Lemma table_ready_prepare tsd wrap data :
  (2 <= List.length data)%nat ->
  table_ready tsd wrap (header_row tsd wrap data) data
    (if wrap then wrap_cells tsd data else data).
Proof.
  intros Hlen. destruct data as [| row0 rest]; [simpl in Hlen; lia |].
  unfold table_ready. split; [exact Hlen |].
  destruct wrap; simpl.
  - rewrite wrap_rows_from_length. repeat split.
  - repeat split.
Qed.

Lemma table_slice_ok_decoration hdr op : decoration op -> table_slice_ok hdr op.
Proof. destruct op; simpl; intros [H | H]; try exact I; contradiction. Qed.

Lemma firstn_slice_ok hdr data_send pointer cw st x y :
  hd_error data_send = Some hdr ->
  (2 <= pointer)%nat -> (2 <= List.length data_send)%nat ->
  table_slice_ok hdr (DrawTable (firstn pointer data_send) cw st x y).
Proof.
  intros Hhd Hp Hlen.
  destruct data_send as [| r0 [| r1 rest]]; simpl in Hlen; try lia.
  destruct pointer as [| [| p]]; try lia.
  simpl in *. congruence.
Qed.

Lemma add_table_loop_slices fuel style position wrap tsd hdr :
  header tsd = true ->
  forall data data_send cw pointer d,
    dict_get style (table_style_list d) = Some tsd ->
    table_ready tsd wrap hdr data data_send ->
    (1 <= pointer <= List.length data)%nat ->
    evolves (table_slice_ok hdr) d
      (state_of (add_table_loop fuel style position wrap data data_send cw tsd
                   pointer d)).
Proof.
  intros Hhdr.
  assert (Hnp : forall f d0,
             evolves (table_slice_ok hdr) d0 (state_of (new_page f d0)))
    by (intros; apply new_page_evolves; apply table_slice_ok_decoration).
  assert (Hsty : forall f d0 d1,
             new_page f d0 = Ok d1 ->
             table_style_list d1 = table_style_list d0).
  { intros f d0 d1 E. pose proof (Hnp f d0) as Hev. rewrite E in Hev.
    apply evolves_same_config in Hev. apply Hev. }
  induction fuel as [| fuel IH]; intros data data_send cw pointer d Hget Hrdy Hptr;
    simpl; [apply ev_refl |].
  destruct Hrdy as [Hlen [Hlen' [Hhd Hrow]]].
  assert (Hrec : forall data' d1,
             dict_get style (table_style_list d1) = Some tsd ->
             (2 <= List.length data')%nat ->
             header_row tsd wrap data' = hdr ->
             evolves (table_slice_ok hdr) d1
               (state_of (add_table_with (new_page fuel)
                            (add_table_loop fuel style position wrap)
                            data' cw style wrap d1))).
  { intros data' d1 Hget1 Hlen1 Hrow1. unfold add_table_with.
    apply evolves_bind; [apply verify_page_break_with_evolves; apply Hnp |].
    intros d2 E2.
    assert (Hget2 : dict_get style (table_style_list d2) = Some tsd).
    { unfold verify_page_break_with in E2. destruct (overflows d1).
      - rewrite (Hsty _ _ _ E2). exact Hget1.
      - injection E2 as <-. exact Hget1. }
    rewrite Hget2.
    destruct (if wrap then wrap_error tsd data' else None); [apply ev_refl |].
    destruct (resolve_col_widths cw data' d2); [apply ev_refl |].
    apply IH; [exact Hget2 | | lia].
    rewrite <- Hrow1. apply table_ready_prepare. exact Hlen1. }
  destruct (table_error (firstn pointer data_send) cw); [apply ev_refl |].
  destruct_measure w_table h_table.
  destruct (Qgt_bool _ _).
  - destruct (1 <? pointer)%nat eqn:Ep.
    + apply Nat.ltb_lt in Ep. apply IH; [exact Hget | | lia].
      repeat split; assumption.
    + apply evolves_bind; [apply Hnp |]. intros d1 E1.
      apply IH; [rewrite (Hsty _ _ _ E1); exact Hget | | lia].
      repeat split; assumption.
  - assert (Hone : (1 <? List.length data)%nat = true)
      by (apply Nat.ltb_lt; lia).
    rewrite Hone, Hhdr, !andb_true_r.
    destruct (pointer =? 1)%nat eqn:Ep1.
    + apply Nat.eqb_eq in Ep1. subst pointer.
      apply evolves_bind; [apply Hnp |]. intros d1 E1.
      assert (Hne : (1 =? List.length data_send)%nat = false)
        by (apply Nat.eqb_neq; lia).
      rewrite Hne. cbn [negb].
      destruct data as [| row0 rest]; [simpl in Hlen; lia |].
      apply Hrec.
      * rewrite (Hsty _ _ _ E1). exact Hget.
      * simpl in *. destruct rest; simpl in *; lia.
      * rewrite <- Hrow. reflexivity.
    + apply Nat.eqb_neq in Ep1.
      apply evolves_bind.
      * cbv beta iota zeta. cbn [state_of]. apply evolves_draw_cursor.
        apply firstn_slice_ok; [exact Hhd | lia | lia].
      * intros d1 E1. cbv beta iota zeta in E1. injection E1 as <-.
        destruct (pointer =? List.length data_send)%nat eqn:Epl; cbn [negb];
          [apply ev_refl |].
        apply Nat.eqb_neq in Epl.
        destruct data as [| row0 rest]; [simpl in Hlen; lia |].
        apply Hrec.
        -- exact Hget.
        -- cbn [List.length]. rewrite length_skipn. lia.
        -- rewrite <- Hrow. reflexivity.
Qed.

(** Whatever the fuel and the outcome, every table slice that the call has
    put on the canvas starts with the header row and has at least one more
    row. *)
Lemma add_table_slices_have_header
        fuel data cw style position wrap d tsd :
  dict_get style (table_style_list d) = Some tsd ->
  header tsd = true ->
  (1 < List.length data)%nat ->
  exists ops,
    page (state_of (add_table fuel data cw style position wrap d)) = page d ++ ops /\
    Forall (table_slice_ok (header_row tsd wrap data)) ops.
Proof.
  intros Hget Hhdr Hlen.
  set (hdr := header_row tsd wrap data).
  assert (Hev : evolves (table_slice_ok hdr) d
                  (state_of (add_table fuel data cw style position wrap d))).
  { unfold add_table, add_table_with.
    apply evolves_bind.
    - apply verify_page_break_with_evolves. intros d0.
      apply new_page_evolves. apply table_slice_ok_decoration.
    - intros d2 E2.
      assert (Hget2 : dict_get style (table_style_list d2) = Some tsd).
      { unfold verify_page_break_with in E2. destruct (overflows d).
        - pose proof (new_page_evolves decoration fuel d (fun _ H => H)) as Hev.
          rewrite E2 in Hev. apply evolves_same_config in Hev.
          replace (table_style_list d2) with (table_style_list d);
            [exact Hget | symmetry; apply Hev].
        - injection E2 as <-. exact Hget. }
      rewrite Hget2.
      destruct (if wrap then wrap_error tsd data else None); [apply ev_refl |].
      destruct (resolve_col_widths cw data d2); [apply ev_refl |].
      apply add_table_loop_slices; [exact Hhdr | exact Hget2 | | lia].
      apply table_ready_prepare. lia. }
  apply evolves_page in Hev. destruct Hev as [ops [Hp Hall]].
  exists ops. split; [exact Hp |].
  eapply Forall_impl; [| exact Hall].
  intros op [H | [-> | ->]]; [exact H | exact I | exact I].
Qed.

(** *** Words *)

Lemma split_space_not_nil s : split_space s <> [].
Proof.
  destruct s as [| c s]; simpl; [discriminate |].
  destruct (Ascii.eqb c space); [discriminate |].
  destruct (split_space s); discriminate.
Qed.

Lemma split_space_length s : (1 <= List.length (split_space s))%nat.
Proof.
  pose proof (split_space_not_nil s).
  destruct (split_space s); [congruence | simpl; lia].
Qed.

Lemma split_space_no_space s : Forall (fun w => has_space w = false) (split_space s).
Proof.
  induction s as [| c s IH]; simpl; [repeat constructor |].
  destruct (Ascii.eqb c space) eqn:Ec; [constructor; [reflexivity | exact IH] |].
  destruct (split_space s) as [| w ws]; [repeat constructor; simpl; rewrite Ec; reflexivity |].
  inversion IH as [| ? ? Hw Hws]; subst.
  constructor; [simpl; rewrite Ec; exact Hw | exact Hws].
Qed.

Lemma split_space_word w : has_space w = false -> split_space w = [w].
Proof.
  induction w as [| c w IH]; simpl; [reflexivity |].
  destruct (Ascii.eqb c space); [discriminate |].
  intros H. rewrite (IH H). reflexivity.
Qed.

Lemma split_space_app w s :
  has_space w = false ->
  split_space (w ++ String space s)%string = w :: split_space s.
Proof.
  induction w as [| c w IH]; simpl.
  - intros _. reflexivity.
  - destruct (Ascii.eqb c space); [discriminate |].
    intros H. rewrite (IH H). reflexivity.
Qed.

Lemma split_join ws :
  ws <> [] -> Forall (fun w => has_space w = false) ws ->
  split_space (join_space ws) = ws.
Proof.
  induction ws as [| w ws IH]; [congruence |].
  intros _ Hall. inversion Hall as [| ? ? Hw Hws]; subst.
  destruct ws as [| w' ws'].
  - simpl. apply split_space_word. exact Hw.
  - change (join_space (w :: w' :: ws'))
      with (w ++ String space (join_space (w' :: ws')))%string.
    rewrite split_space_app by exact Hw.
    rewrite IH; [reflexivity | discriminate | exact Hws].
Qed.

Lemma join_split s : join_space (split_space s) = s.
Proof.
  induction s as [| c s IH]; simpl; [reflexivity |].
  destruct (Ascii.eqb c space) eqn:Ec.
  - apply Ascii.eqb_eq in Ec. subst c.
    pose proof (split_space_not_nil s) as Hne.
    destruct (split_space s) as [| w ws]; [congruence |].
    change (join_space (EmptyString :: w :: ws))
      with (String space (join_space (w :: ws))).
    rewrite IH. reflexivity.
  - pose proof (split_space_not_nil s) as Hne.
    destruct (split_space s) as [| w ws]; [congruence |].
    destruct ws as [| w' ws'].
    + simpl in *. rewrite IH. reflexivity.
    + change (join_space (String c w :: w' :: ws'))
        with (String c (w ++ String space (join_space (w' :: ws'))))%string.
      change (join_space (w :: w' :: ws'))
        with (w ++ String space (join_space (w' :: ws')))%string in IH.
      rewrite IH. reflexivity.
Qed.

(** The candidate after the text was cut to its first [k] words. *)
Lemma split_prefix text k :
  (1 <= k)%nat ->
  split_space (prefix_text text k) = firstn k (split_space text).
Proof.
  intros Hk. unfold prefix_text. apply split_join.
  - pose proof (split_space_not_nil text).
    destruct (split_space text); [congruence |].
    destruct k; [lia | discriminate].
  - apply Forall_forall. intros w Hin.
    pose proof (split_space_no_space text) as Hall.
    rewrite Forall_forall in Hall. apply Hall.
    rewrite <- (firstn_skipn k (split_space text)).
    apply in_or_app. left. exact Hin.
Qed.

Lemma prefix_text_all text :
  prefix_text text (List.length (split_space text)) = text.
Proof. unfold prefix_text. rewrite firstn_all. apply join_split. Qed.

Lemma prefix_text_shrink text k j :
  (1 <= k)%nat -> (j <= k)%nat ->
  join_space (firstn j (split_space (prefix_text text k))) = prefix_text text j.
Proof.
  intros Hk Hj. rewrite split_prefix by exact Hk. unfold prefix_text.
  rewrite firstn_firstn. rewrite Nat.min_l by exact Hj. reflexivity.
Qed.

(** *** Text: what [add_section] draws *)

Lemma evolves_page_count (P : canvas_op -> Prop) d d' :
  evolves P d d' -> page_count d' = page_count d.
Proof. intros H. apply evolves_same_config in H. apply H. Qed.

Lemma evolves_bind_unnumbered (P : canvas_op -> Prop) d r k :
  evolves P d (state_of r) ->
  page_count d = false ->
  (forall d1, r = Ok d1 -> page_count d1 = false ->
              evolves P d1 (state_of (k d1))) ->
  evolves P d (state_of (bind r k)).
Proof.
  intros Hr Hoff Hk. apply evolves_bind; [exact Hr |].
  intros d1 E. apply Hk; [exact E |].
  rewrite E in Hr. simpl in Hr. apply evolves_page_count in Hr. congruence.
Qed.

(** With numbering off [new_page] draws nothing but template images. *)
Lemma new_page_evolves_unnumbered (P : canvas_op -> Prop) fuel :
  (forall op, is_image op -> P op) ->
  forall d, page_count d = false -> evolves P d (state_of (new_page fuel d)).
Proof.
  intros HP.
  induction fuel as [| fuel IH]; intros d Hoff; simpl; [apply ev_refl |].
  unfold _add_page_number. rewrite Hoff. simpl.
  assert (Hreplay : forall imgs d1,
             page_count d1 = false ->
             evolves P d1 (state_of (replay_with (new_page fuel) imgs d1))).
  { induction imgs as [| [k img] rest IHr]; intros d1 Hoff1; simpl;
      [apply ev_refl |].
    apply evolves_bind_unnumbered; [| exact Hoff1 | intros d2 _; apply IHr].
    unfold add_template_with, add_image_with.
    apply evolves_bind_unnumbered; [| exact Hoff1 |].
    - unfold verify_page_break_with.
      destruct (overflows d1); [apply IH; exact Hoff1 | apply ev_refl].
    - intros d2 _ _.
      destruct (Qle_bool _ 0 || Qle_bool _ 0 || Qle_bool _ 0); [apply ev_refl |].
      cbn [negb valid_position String.eqb Ascii.eqb Bool.eqb orb].
      destruct (image_size (ti_file img)) as [[iw ih] |]; [| apply ev_refl].
      destruct_measure lm bm.
      cbv beta iota zeta. cbn [state_of].
      apply evolves_draw_cursor. apply HP. exact I. }
  apply evolves_bind; [apply Hreplay; exact Hoff |].
  intros d2 _. simpl. apply ev_commit.
Qed.

Lemma prefix_text_empty k : prefix_text "" k = "".
Proof. unfold prefix_text. destruct k as [| [| k]]; reflexivity. Qed.

Lemma text_prefix_empty text op : text_prefix "" op -> text_prefix text op.
Proof.
  destruct op; simpl; auto. intros [k ->]. exists 0%nat.
  rewrite prefix_text_empty. reflexivity.
Qed.

Lemma add_section_loop_prefixes fuel style :
  forall text has_split pointer d,
    page_count d = false ->
    (S pointer <= List.length (split_space text))%nat ->
    evolves (text_prefix text) d
      (state_of (add_section_loop fuel style (prefix_text text (S pointer))
                   has_split pointer d)).
Proof.
  induction fuel as [| fuel IH]; intros text has_split pointer d Hoff Hptr; simpl;
    [apply ev_refl |].
  assert (Hnp : forall text' d0,
             page_count d0 = false ->
             evolves (text_prefix text') d0 (state_of (new_page fuel d0))).
  { intros text' d0 H0. apply new_page_evolves_unnumbered; [| exact H0].
    intros op Hop. destruct op; simpl in *; auto; contradiction. }
  destruct (dict_get style (style_list d)) as [st |] eqn:Est; [| apply ev_refl].
  destruct (paragraph_error _ st); [apply ev_refl |].
  destruct_measure w_title h_title.
  destruct (negb (Qgt_bool _ (height d))).
  - set (d2 := set_current_height _ _).
    assert (Hd2 : evolves (text_prefix text) d d2).
    { subst d2. apply evolves_draw_cursor. simpl. eexists; reflexivity. }
    destruct has_split; [| exact Hd2].
    eapply ev_trans; [exact Hd2 |].
    assert (Hoff2 : page_count d2 = false) by exact Hoff.
    rewrite split_prefix by lia.
    replace (skipn (pointer + 1) (firstn (S pointer) (split_space text)))
      with (@nil string).
    2:{ symmetry. apply skipn_all2. rewrite length_firstn. lia. }
    apply evolves_bind_unnumbered; [apply Hnp; exact Hoff2 | exact Hoff2 |].
    intros d3 _ Hoff3. unfold add_section_with.
    destruct (dict_get style (style_list d3)); [| apply ev_refl].
    apply evolves_bind_unnumbered.
    + unfold verify_page_break_with.
      destruct (overflows d3); [apply Hnp; exact Hoff3 | apply ev_refl].
    + exact Hoff3.
    + intros d4 _ Hoff4.
      eapply evolves_weaken; [apply text_prefix_empty |].
      change (join_space []) with (prefix_text "" 1).
      apply IH; [exact Hoff4 | simpl; lia].
  - destruct (0 <? pointer)%nat eqn:Ep.
    + apply Nat.ltb_lt in Ep. destruct pointer as [| k]; [lia |].
      rewrite prefix_text_shrink by lia.
      replace (S k - 1)%nat with k by lia.
      apply IH; [exact Hoff | lia].
    + apply Nat.ltb_ge in Ep. assert (pointer = 0%nat) by lia. subst pointer.
      apply evolves_bind_unnumbered; [apply Hnp; exact Hoff | exact Hoff |].
      intros d1 _ Hoff1.
      rewrite split_prefix by lia.
      assert (Hone : List.length (firstn 1 (split_space text)) = 1%nat).
      { rewrite length_firstn. pose proof (split_space_length text). lia. }
      rewrite Hone. apply IH; [exact Hoff1 | lia].
Qed.

(** With numbering off, every paragraph that [add_section] puts on the
    canvas is the text cut after some number of its words (the empty text
    when cut after none): words that follow a cut are never drawn. *)
Lemma add_section_draws_prefixes fuel text style d :
  page_count d = false ->
  exists ops,
    page (state_of (add_section fuel text style d)) = page d ++ ops /\
    Forall (text_prefix text) ops.
Proof.
  intros Hoff.
  assert (Hev : evolves (text_prefix text) d
                  (state_of (add_section fuel text style d))).
  { unfold add_section, add_section_with.
    destruct (dict_get style (style_list d)); [| apply ev_refl].
    apply evolves_bind_unnumbered.
    - unfold verify_page_break_with. destruct (overflows d); [| apply ev_refl].
      apply new_page_evolves_unnumbered; [| exact Hoff].
      intros op Hop. destruct op; simpl in *; auto; contradiction.
    - exact Hoff.
    - intros d1 _ Hoff1.
      pose proof (split_space_length text) as Hlen.
      pose proof (add_section_loop_prefixes fuel style text false
                    (List.length (split_space text) - 1) d1 Hoff1) as H.
      replace (S (List.length (split_space text) - 1))
        with (List.length (split_space text)) in H by lia.
      rewrite prefix_text_all in H. apply H. lia. }
  apply evolves_page in Hev. destruct Hev as [ops [Hp Hall]].
  exists ops. split; [exact Hp |].
  eapply Forall_impl; [| exact Hall].
  intros op [H | [-> | ->]]; [exact H | exact I | exact I].
Qed.

(** *** A page that is exactly full *)



(** [new_page] on a document whose replay fits, with all that is known of
    the result. *)
Lemma new_page_fits_result fuel d :
  page_number_style_ok d ->
  replay_fits d (current_height d) (template_images d) ->
  exists d1,
    new_page (S fuel) d = Ok d1 /\ page d1 = page d ++ finalization d /\
    same_config d d1 /\ current_height d1 = 0.
Proof.
  intros Hst Hfit. destruct (new_page_fits fuel d Hst Hfit) as [d1 E].
  exists d1. split; [exact E |]. apply new_page_Ok in E.
  destruct E as [Hp [Hc [Hcur _]]]. auto.
Qed.



(** *** Calls that fail *)

(** [add_section] checks the style before anything else. *)
Lemma add_section_unknown_style fuel text style d :
  dict_get style (style_list d) = None ->
  exists msg, add_section fuel text style d = Raise (ValueError msg) d.
Proof.
  intros H. unfold add_section, add_section_with. rewrite H.
  eexists. reflexivity.
Qed.

(** A call of [add_image] that fails leaves the document as it was when
    its page-break check has nothing to do. *)
Lemma add_image_fails_in_place fuel file sp w h position posx posy axisx axisy d e d' :
  overflows d = false ->
  add_image fuel file sp w h position posx posy axisx axisy d = Raise e d' ->
  d' = d.
Proof.
  intros Hov. unfold add_image, add_image_with, verify_page_break_with.
  rewrite Hov. cbn [bind].
  destruct (Qle_bool sp 0 || Qle_bool w 0 || Qle_bool h 0);
    [intros H; injection H as _ <-; reflexivity |].
  destruct (negb (valid_position position));
    [intros H; injection H as _ <-; reflexivity |].
  destruct (image_size file) as [[iw ih] |];
    [| intros H; injection H as _ <-; reflexivity].
  destruct_measure lm bm.
  discriminate.
Qed.

(** Below the bottom margin it is the other way round: the page is
    finalized first, and the error is raised on the next page. *)
Lemma add_image_fails_after_finalization fuel file sp w h position posx posy
      axisx axisy d d1 :
  overflows d = true ->
  new_page fuel d = Ok d1 ->
  sp <= 0 ->
  exists msg,
    add_image fuel file sp w h position posx posy axisx axisy d
    = Raise (ValueError msg) d1 /\
    page d1 = page d ++ finalization d /\ current_height d1 = 0.
Proof.
  intros Hov Hnp Hsp. unfold add_image, add_image_with, verify_page_break_with.
  rewrite Hov, Hnp. cbn [bind].
  apply Qle_bool_iff in Hsp. rewrite Hsp. cbn [orb].
  eexists. split; [reflexivity |].
  apply new_page_Ok in Hnp. destruct Hnp as [Hp [_ [Hc _]]]. auto.
Qed.

(** *** Row objects *)

Lemma store_from_refl h : store_from h h.
Proof. exists []. rewrite app_nil_r. reflexivity. Qed.

Lemma store_from_trans h1 h2 h3 :
  store_from h1 h2 -> store_from h2 h3 -> store_from h1 h3.
Proof.
  intros [e1 ->] [e2 ->]. exists (e1 ++ e2). rewrite app_assoc. reflexivity.
Qed.

Lemma store_from_length hb h : store_from hb h -> (List.length hb <= List.length h)%nat.
Proof. intros [ext ->]. rewrite length_app. lia. Qed.

Lemma store_from_row hb h l :
  store_from hb h -> (l < List.length hb)%nat -> row_at h l = row_at hb l.
Proof.
  intros [ext ->] Hl. unfold row_at. apply app_nth1. exact Hl.
Qed.

Lemma set_nth_app_r {A : Type} (l1 l2 : list A) n x :
  (List.length l1 <= n)%nat ->
  set_nth n x (l1 ++ l2) = l1 ++ set_nth (n - List.length l1) x l2.
Proof.
  revert n. induction l1 as [| a l1 IH]; intros n Hn; simpl.
  - rewrite Nat.sub_0_r. reflexivity.
  - destruct n as [| n]; [simpl in Hn; lia |].
    simpl in Hn. simpl. rewrite IH by lia. reflexivity.
Qed.

Lemma store_cell_from hb h l j c :
  store_from hb h -> (List.length hb <= l)%nat ->
  store_from hb (store_cell l j c h).
Proof.
  intros [ext ->] Hl. unfold store_cell.
  rewrite set_nth_app_r by exact Hl. eexists. reflexivity.
Qed.

Lemma wrap_row_h_until_from hb st src dst js :
  (List.length hb <= dst)%nat ->
  forall h, store_from hb h -> store_from hb (fst (wrap_row_h_until st src dst js h)).
Proof.
  intros Hdst. induction js as [| j js IH]; intros h Hh; simpl; [exact Hh |].
  destruct (paragraph_error _ st); [exact Hh |].
  apply IH. apply store_cell_from; assumption.
Qed.

Lemma wrap_rows_h_until_from hb tsd :
  forall data data_send i h,
    Forall (fun l => (List.length hb <= l)%nat) data_send ->
    store_from hb h ->
    store_from hb (fst (wrap_rows_h_until tsd i data data_send h)).
Proof.
  induction data as [| src data IH]; intros data_send i h Hds Hh; simpl;
    [exact Hh |].
  destruct data_send as [| dst data_send]; [exact Hh |].
  inversion Hds as [| ? ? Hdst Hrest]; subst.
  pose proof (wrap_row_h_until_from hb (cell_style tsd i) src dst
                (seq 0 (List.length (row_at h src))) Hdst h Hh) as Hrow.
  destruct (wrap_row_h_until (cell_style tsd i) src dst _ h) as [h' [msg |]];
    [exact Hrow |].
  apply IH; [exact Hrest | exact Hrow].
Qed.

Lemma copy_rows_from data :
  forall h h1 data1,
    copy_rows h data = (h1, data1) ->
    store_from h h1 /\ Forall (fun l => (List.length h <= l)%nat) data1.
Proof.
  induction data as [| r rest IH]; intros h h1 data1 E; simpl in E.
  - injection E as <- <-. split; [apply store_from_refl | constructor].
  - destruct (copy_rows (h ++ [row_at h r]) rest) as [h2 rest'] eqn:E2.
    injection E as <- <-.
    apply IH in E2. destruct E2 as [Hfrom Hall].
    split.
    + eapply store_from_trans; [| exact Hfrom]. eexists; reflexivity.
    + constructor; [lia |].
      eapply Forall_impl; [| exact Hall].
      intros l Hl. rewrite length_app in Hl. simpl in Hl. lia.
Qed.

Lemma deepcopy_rows_from n data :
  forall memo h h2 data_send,
    Forall (fun kv => (n <= snd kv)%nat) memo ->
    (n <= List.length h)%nat ->
    deepcopy_rows memo h data = (h2, data_send) ->
    store_from h h2 /\ Forall (fun l => (n <= l)%nat) data_send.
Proof.
  induction data as [| r rest IH]; intros memo h h2 data_send Hmemo Hn E;
    simpl in E.
  - injection E as <- <-. split; [apply store_from_refl | constructor].
  - destruct (memo_get r memo) as [r' |] eqn:Em.
    + destruct (deepcopy_rows memo h rest) as [h3 rest'] eqn:E3.
      injection E as <- <-.
      apply IH in E3; [| exact Hmemo | exact Hn].
      destruct E3 as [Hfrom Hall]. split; [exact Hfrom |].
      constructor; [| exact Hall].
      clear - Em Hmemo. induction memo as [| [k v] memo IHm]; [discriminate |].
      inversion Hmemo as [| ? ? Hv Hrest]; subst. simpl in Em, Hv.
      destruct (r =? k)%nat; [congruence | apply IHm; assumption].
    + match type of E with
      | context [deepcopy_rows ?m ?h' ?l] =>
          destruct (deepcopy_rows m h' l) as [h3 rest'] eqn:E3
      end.
      injection E as <- <-.
      apply IH in E3.
      * destruct E3 as [Hfrom Hall]. split.
        -- eapply store_from_trans; [| exact Hfrom]. eexists; reflexivity.
        -- constructor; [exact Hn | exact Hall].
      * constructor; [exact Hn | exact Hmemo].
      * rewrite length_app. lia.
Qed.

Lemma add_table_h_with_from np loop h data cw style wrap d :
  (forall h0 dt ds c t p d0, store_from h0 (fst (loop h0 dt ds c t p d0))) ->
  store_from h (fst (add_table_h_with np loop h data cw style wrap d)).
Proof.
  intros Hloop. unfold add_table_h_with.
  destruct (verify_page_break_with np d) as [d1 | |];
    try apply store_from_refl.
  destruct (copy_rows h data) as [h1 data1] eqn:E1.
  apply copy_rows_from in E1. destruct E1 as [H1 _].
  destruct (dict_get style (table_style_list d1)) as [tsd |]; [| exact H1].
  destruct (deepcopy_rows [] h1 data1) as [h2 data_send] eqn:E2.
  apply (deepcopy_rows_from (List.length h1)) in E2; [| constructor | lia].
  destruct E2 as [H2 Hds].
  assert (H3 : store_from h1
                 (fst (if wrap then wrap_rows_h_until tsd 0 data1 data_send h2
                       else (h2, None)))).
  { destruct wrap; [| exact H2].
    apply wrap_rows_h_until_from; assumption. }
  destruct (if wrap then wrap_rows_h_until tsd 0 data1 data_send h2
            else (h2, None)) as [h3 err].
  cbn [fst] in H3.
  assert (H13 : store_from h h3) by (eapply store_from_trans; eauto).
  destruct err; [exact H13 |].
  destruct (resolve_col_widths cw (rows_at h3 data1) d1); [exact H13 |].
  eapply store_from_trans; [exact H13 | apply Hloop].
Qed.

Lemma add_table_loop_h_from fuel style position wrap :
  forall h data data_send cw tsd pointer d,
    store_from h
      (fst (add_table_loop_h fuel style position wrap h data data_send cw tsd
              pointer d)).
Proof.
  induction fuel as [| fuel IH]; intros h data data_send cw tsd pointer d; simpl;
    [apply store_from_refl |].
  destruct (table_error _ cw); [apply store_from_refl |].
  destruct_measure w_table h_table.
  destruct (Qgt_bool _ _).
  - destruct (1 <? pointer)%nat; [apply IH |].
    destruct (new_page fuel d); [apply IH | apply store_from_refl ..].
  - match goal with
    | |- context [match ?r with Ok _ => _ | _ => _ end] => destruct r as [d1 | |]
    end; try apply store_from_refl.
    destruct (negb (pointer =? List.length data_send)%nat);
      [| apply store_from_refl].
    destruct (header tsd).
    + destruct data as [| row0 rest]; [apply store_from_refl |].
      apply add_table_h_with_from. exact IH.
    + apply add_table_h_with_from. exact IH.
Qed.

(** C10.  [add_table] changes no row object that existed before the call:
    whatever the outcome, with [wrap] or without, and through every
    continuation on a later page, each row of the caller holds the cells
    it held. *)
Theorem add_table_keeps_caller_rows fuel h data cw style position wrap d l :
  (l < List.length h)%nat ->
  row_at (fst (add_table_h fuel h data cw style position wrap d)) l = row_at h l.
Proof.
  intros Hl. apply store_from_row; [| exact Hl].
  unfold add_table_h. apply add_table_h_with_from.
  apply add_table_loop_h_from.
Qed.

(** *** The store model runs the same code as the model on contents *)

Lemma rows_at_app h ext data :
  valid_rows h data -> rows_at (h ++ ext) data = rows_at h data.
Proof.
  intros Hv. unfold rows_at. apply map_ext_in. intros l Hin.
  unfold valid_rows in Hv. rewrite Forall_forall in Hv.
  unfold row_at. apply app_nth1. apply Hv. exact Hin.
Qed.

Lemma valid_rows_app h ext data : valid_rows h data -> valid_rows (h ++ ext) data.
Proof.
  unfold valid_rows. intros Hv. eapply Forall_impl; [| exact Hv].
  intros l Hl. cbv beta in Hl. rewrite length_app. lia.
Qed.

Lemma valid_rows_seq h a k : (a + k <= List.length h)%nat -> valid_rows h (seq a k).
Proof.
  intros H. unfold valid_rows. apply Forall_forall. intros l Hin.
  apply in_seq in Hin. lia.
Qed.

Lemma rows_at_seq h rows :
  rows_at (h ++ rows) (seq (List.length h) (List.length rows)) = rows.
Proof.
  revert h. induction rows as [| r rows IH]; intros h; [reflexivity |].
  cbn [List.length seq rows_at map]. f_equal.
  - unfold row_at. rewrite app_nth2 by lia. rewrite Nat.sub_diag. reflexivity.
  - pose proof (IH (h ++ [r])) as H. rewrite length_app in H. simpl in H.
    rewrite Nat.add_1_r in H. rewrite <- app_assoc in H. exact H.
Qed.

Lemma copy_rows_spec data :
  forall h, valid_rows h data ->
            copy_rows h data = (h ++ rows_at h data, seq (List.length h) (List.length data)).
Proof.
  induction data as [| r rest IH]; intros h Hv; simpl.
  - rewrite app_nil_r. reflexivity.
  - inversion Hv as [| ? ? Hr Hrest]; subst.
    rewrite (IH (h ++ [row_at h r])) by (apply valid_rows_app; exact Hrest).
    rewrite rows_at_app by exact Hrest.
    rewrite length_app, <- app_assoc. simpl. rewrite Nat.add_1_r. reflexivity.
Qed.

Lemma memo_get_miss a memo :
  Forall (fun kv => (fst kv < a)%nat) memo -> memo_get a memo = None.
Proof.
  induction 1 as [| [k v] memo Hk _ IH]; [reflexivity |].
  simpl in *. destruct (a =? k)%nat eqn:E; [| exact IH].
  apply Nat.eqb_eq in E. lia.
Qed.

Lemma deepcopy_rows_seq k :
  forall a memo h,
    Forall (fun kv => (fst kv < a)%nat) memo ->
    (a + k <= List.length h)%nat ->
    deepcopy_rows memo h (seq a k) = (h ++ rows_at h (seq a k), seq (List.length h) k).
Proof.
  induction k as [| k IH]; intros a memo h Hmemo Hlen; simpl.
  - rewrite app_nil_r. reflexivity.
  - rewrite (memo_get_miss a memo Hmemo).
    rewrite (IH (S a) ((a, List.length h) :: memo) (h ++ [row_at h a])).
    + rewrite rows_at_app by (apply valid_rows_seq; lia).
      rewrite length_app, <- app_assoc. simpl. rewrite Nat.add_1_r. reflexivity.
    + constructor; [simpl; lia |].
      eapply Forall_impl; [| exact Hmemo]. intros kv Hkv. simpl in *. lia.
    + rewrite length_app. simpl. lia.
Qed.

Lemma set_nth_same {A : Type} (l : list A) n dflt :
  set_nth n (nth n l dflt) l = l.
Proof.
  revert n. induction l as [| a l IH]; intros n; [reflexivity |].
  destruct n as [| n]; simpl; [reflexivity | rewrite IH; reflexivity].
Qed.

Lemma set_nth_twice {A : Type} (l : list A) n x y :
  set_nth n y (set_nth n x l) = set_nth n y l.
Proof.
  revert n. induction l as [| a l IH]; intros n; [reflexivity |].
  destruct n as [| n]; simpl; [reflexivity | rewrite IH; reflexivity].
Qed.

Lemma nth_set_nth_eq {A : Type} (l : list A) n x dflt :
  (n < List.length l)%nat -> nth n (set_nth n x l) dflt = x.
Proof.
  revert n. induction l as [| a l IH]; intros n Hn; simpl in Hn; [lia |].
  destruct n as [| n]; simpl; [reflexivity | apply IH; lia].
Qed.

Lemma nth_set_nth_neq {A : Type} (l : list A) n m x dflt :
  n <> m -> nth n (set_nth m x l) dflt = nth n l dflt.
Proof.
  revert n m. induction l as [| a l IH]; intros n m Hnm; [reflexivity |].
  destruct m as [| m], n as [| n]; simpl; try reflexivity; try congruence.
  apply IH. congruence.
Qed.

Lemma set_nth_length {A : Type} (l : list A) n x :
  List.length (set_nth n x l) = List.length l.
Proof.
  revert n. induction l as [| a l IH]; intros n; [reflexivity |].
  destruct n as [| n]; simpl; [reflexivity | rewrite IH; reflexivity].
Qed.

Lemma set_nth_split {A : Type} (l : list A) n x :
  (n < List.length l)%nat ->
  set_nth n x l = firstn n l ++ x :: skipn (S n) l.
Proof.
  revert n. induction l as [| a l IH]; intros n Hn; simpl in Hn; [lia |].
  destruct n as [| n]; simpl; [reflexivity |].
  rewrite IH by lia. reflexivity.
Qed.

Lemma skipn_nth_cons {A : Type} (l : list A) n dflt :
  (n < List.length l)%nat -> skipn n l = nth n l dflt :: skipn (S n) l.
Proof.
  revert n. induction l as [| a l IH]; intros n Hn; simpl in Hn; [lia |].
  destruct n as [| n]; [reflexivity |]. simpl. apply IH. lia.
Qed.

(** The inner loop, from column [j0] on: the row at [dst] keeps its first
    [j0] cells and gets the wrapped cells of the row at [src] after them. *)
Lemma wrap_row_h_spec st src dst m :
  forall j0 h,
    src <> dst -> (dst < List.length h)%nat ->
    List.length (row_at h dst) = (j0 + m)%nat ->
    List.length (row_at h src) = (j0 + m)%nat ->
    wrap_row_h st src dst (seq j0 m) h =
    set_nth dst (firstn j0 (row_at h dst)
                 ++ map (wrap_cell st) (skipn j0 (row_at h src))) h.
Proof.
  induction m as [| m IH]; intros j0 h Hne Hdst Hld Hls; simpl.
  - rewrite firstn_all2 by lia. rewrite skipn_all2 by lia.
    simpl. rewrite app_nil_r. unfold row_at. symmetry. apply set_nth_same.
  - set (c := Wrapped (py_str (nth j0 (row_at h src) (Raw ""))) st).
    assert (Hsrc : row_at (store_cell dst j0 c h) src = row_at h src).
    { unfold store_cell, row_at. apply nth_set_nth_neq. exact Hne. }
    assert (Hdst1 : row_at (store_cell dst j0 c h) dst = set_nth j0 c (row_at h dst)).
    { unfold store_cell, row_at. apply nth_set_nth_eq. exact Hdst. }
    rewrite IH.
    + rewrite Hsrc, Hdst1. unfold store_cell. rewrite set_nth_twice. f_equal.
      rewrite (set_nth_split (row_at h dst) j0 c) by lia.
      rewrite firstn_app, firstn_firstn, Nat.min_r by lia.
      rewrite length_firstn, Nat.min_l by lia.
      replace (S j0 - j0)%nat with 1%nat by lia. simpl.
      rewrite (skipn_nth_cons (row_at h src) j0 (Raw "")) by lia.
      simpl. rewrite <- app_assoc. reflexivity.
    + exact Hne.
    + unfold store_cell. rewrite set_nth_length. exact Hdst.
    + rewrite Hdst1, set_nth_length. lia.
    + rewrite Hsrc. lia.
Qed.

Lemma wrap_row_h_whole st src dst h :
  src <> dst -> (dst < List.length h)%nat ->
  List.length (row_at h dst) = List.length (row_at h src) ->
  wrap_row_h st src dst (seq 0 (List.length (row_at h src))) h =
  set_nth dst (wrap_row st (row_at h src)) h.
Proof.
  intros Hne Hdst Hlen.
  rewrite wrap_row_h_spec; try assumption; try lia.
  reflexivity.
Qed.

Lemma row_at_app_here (A : store) r rest : row_at (A ++ r :: rest) (List.length A) = r.
Proof.
  unfold row_at. rewrite app_nth2 by lia. rewrite Nat.sub_diag. reflexivity.
Qed.

Lemma row_at_app_before (A ext : store) l :
  (l < List.length A)%nat -> row_at (A ++ ext) l = row_at A l.
Proof. intros H. unfold row_at. apply app_nth1. exact H. Qed.

Lemma set_nth_app_here {A : Type} (l1 : list A) x y l2 :
  set_nth (List.length l1) y (l1 ++ x :: l2) = l1 ++ y :: l2.
Proof.
  rewrite set_nth_app_r by lia. rewrite Nat.sub_diag. reflexivity.
Qed.

(** The outer loop on fresh copies: the copies, which follow [A] in the
    store, become the wrapped rows; nothing else changes. *)
Lemma wrap_rows_h_spec tsd k :
  forall i a (A rest : store),
    (a + k <= List.length A)%nat ->
    wrap_rows_h tsd i (seq a k) (seq (List.length A) k)
      (A ++ rows_at A (seq a k) ++ rest) =
    A ++ wrap_rows_from tsd i (rows_at A (seq a k)) ++ rest.
Proof.
  induction k as [| k IH]; intros i a A rest Hlen; [reflexivity |].
  cbn [seq rows_at map wrap_rows_h wrap_rows_from].
  fold (rows_at A (seq (S a) k)).
  set (h := A ++ (row_at A a :: rows_at A (seq (S a) k)) ++ rest).
  assert (Hsrc : row_at h a = row_at A a).
  { subst h. apply row_at_app_before. lia. }
  assert (Hdst : row_at h (List.length A) = row_at A a).
  { subst h. cbn [app]. apply row_at_app_here. }
  rewrite wrap_row_h_whole.
  - rewrite Hsrc. subst h. cbn [app]. rewrite set_nth_app_here.
    pose proof (IH (S i) (S a) (A ++ [wrap_row (cell_style tsd i) (row_at A a)])
                  rest) as H.
    rewrite length_app in H. cbn [List.length] in H. rewrite Nat.add_1_r in H.
    rewrite (rows_at_app A) in H by (apply valid_rows_seq; lia).
    rewrite <- !app_assoc in H. cbn [app] in H. rewrite H by lia.
    reflexivity.
  - lia.
  - subst h. rewrite length_app. cbn [app List.length]. lia.
  - rewrite Hsrc, Hdst. reflexivity.
Qed.

(** The loops that stop at the first failure: they fail where the loops on
    contents fail, and when they do not fail they are the loops above. *)
Lemma wrap_row_h_until_spec st src dst m :
  forall j0 h,
    src <> dst -> (dst < List.length h)%nat ->
    List.length (row_at h dst) = (j0 + m)%nat ->
    List.length (row_at h src) = (j0 + m)%nat ->
    snd (wrap_row_h_until st src dst (seq j0 m) h)
    = wrap_row_error st (skipn j0 (row_at h src)) /\
    (wrap_row_error st (skipn j0 (row_at h src)) = None ->
     fst (wrap_row_h_until st src dst (seq j0 m) h)
     = wrap_row_h st src dst (seq j0 m) h).
Proof.
  induction m as [| m IH]; intros j0 h Hne Hdst Hld Hls.
  - rewrite skipn_all2 by lia. split; reflexivity.
  - cbn [seq wrap_row_h_until wrap_row_h].
    rewrite (skipn_nth_cons (row_at h src) j0 (Raw "")) by lia.
    cbn [wrap_row_error].
    destruct (paragraph_error (py_str (nth j0 (row_at h src) (Raw ""))) st)
      as [msg |]; [split; [reflexivity | discriminate] |].
    set (c := Wrapped (py_str (nth j0 (row_at h src) (Raw ""))) st).
    assert (Hsrc : row_at (store_cell dst j0 c h) src = row_at h src).
    { unfold store_cell, row_at. apply nth_set_nth_neq. exact Hne. }
    assert (Hdst1 : row_at (store_cell dst j0 c h) dst = set_nth j0 c (row_at h dst)).
    { unfold store_cell, row_at. apply nth_set_nth_eq. exact Hdst. }
    rewrite <- Hsrc. apply IH.
    + exact Hne.
    + unfold store_cell. rewrite set_nth_length. exact Hdst.
    + rewrite Hdst1, set_nth_length. lia.
    + rewrite Hsrc. lia.
Qed.

Lemma wrap_rows_h_until_spec tsd k :
  forall i a (A rest : store),
    (a + k <= List.length A)%nat ->
    snd (wrap_rows_h_until tsd i (seq a k) (seq (List.length A) k)
           (A ++ rows_at A (seq a k) ++ rest))
    = wrap_rows_error tsd i (rows_at A (seq a k)) /\
    (wrap_rows_error tsd i (rows_at A (seq a k)) = None ->
     fst (wrap_rows_h_until tsd i (seq a k) (seq (List.length A) k)
            (A ++ rows_at A (seq a k) ++ rest))
     = wrap_rows_h tsd i (seq a k) (seq (List.length A) k)
         (A ++ rows_at A (seq a k) ++ rest)).
Proof.
  induction k as [| k IH]; intros i a A rest Hlen; [split; reflexivity |].
  cbn [seq rows_at map wrap_rows_h_until wrap_rows_h wrap_rows_error].
  fold (rows_at A (seq (S a) k)).
  set (h := A ++ (row_at A a :: rows_at A (seq (S a) k)) ++ rest).
  assert (Hsrc : row_at h a = row_at A a).
  { subst h. apply row_at_app_before. lia. }
  assert (Hdst : row_at h (List.length A) = row_at A a).
  { subst h. cbn [app]. apply row_at_app_here. }
  assert (Hlh : (List.length A < List.length h)%nat).
  { subst h. rewrite length_app. cbn [app List.length]. lia. }
  destruct (wrap_row_h_until_spec (cell_style tsd i) a (List.length A)
              (List.length (row_at h a)) 0 h ltac:(lia) Hlh
              ltac:(rewrite Hsrc, Hdst; reflexivity) eq_refl) as [Hsnd Hfst].
  cbn [skipn] in Hsnd, Hfst.
  assert (Hwhole : wrap_row_h (cell_style tsd i) a (List.length A)
                     (seq 0 (List.length (row_at h a))) h
                   = set_nth (List.length A)
                       (wrap_row (cell_style tsd i) (row_at A a)) h).
  { rewrite wrap_row_h_whole; [rewrite Hsrc; reflexivity | lia | exact Hlh |].
    rewrite Hsrc, Hdst. reflexivity. }
  rewrite Hwhole in Hfst |- *.
  destruct (wrap_row_h_until (cell_style tsd i) a (List.length A)
              (seq 0 (List.length (row_at h a))) h) as [h' err].
  cbn [fst snd] in Hsnd, Hfst. subst err. rewrite Hsrc in Hfst |- *.
  destruct (wrap_row_error (cell_style tsd i) (row_at A a)) as [msg |];
    [split; [reflexivity | discriminate] |].
  rewrite (Hfst eq_refl).
  subst h. cbn [app]. rewrite set_nth_app_here.
  pose proof (IH (S i) (S a) (A ++ [wrap_row (cell_style tsd i) (row_at A a)])
                rest) as H.
  rewrite length_app in H. cbn [List.length] in H. rewrite Nat.add_1_r in H.
  rewrite (rows_at_app A) in H by (apply valid_rows_seq; lia).
  rewrite <- !app_assoc in H. cbn [app] in H. apply H. lia.
Qed.

Lemma rows_at_length h data : List.length (rows_at h data) = List.length data.
Proof. unfold rows_at. apply length_map. Qed.

(** After the three preparation steps of [add_table]: the store, the copy
    [data] and [data_send]. *)
Lemma prepare_rows_spec tsd (wrap : bool) h data0 :
  valid_rows h data0 ->
  exists h3 data data_send,
    (let '(h1, data) := copy_rows h data0 in
     let '(h2, data_send) := deepcopy_rows [] h1 data in
     (if wrap then wrap_rows_h tsd 0 data data_send h2 else h2, data, data_send))
    = (h3, data, data_send) /\
    valid_rows h3 data /\ valid_rows h3 data_send /\
    rows_at h3 data = rows_at h data0 /\
    rows_at h3 data_send =
    (if wrap then wrap_cells tsd (rows_at h data0) else rows_at h data0).
Proof.
  intros Hv. rewrite (copy_rows_spec data0 h Hv).
  set (R := rows_at h data0). set (k := List.length data0).
  assert (HR : List.length R = k) by apply rows_at_length.
  assert (Hh1 : List.length (h ++ R) = (List.length h + k)%nat)
    by (rewrite length_app; lia).
  rewrite (deepcopy_rows_seq k (List.length h) [] (h ++ R)); [| constructor | lia].
  assert (Hcopy : rows_at (h ++ R) (seq (List.length h) k) = R).
  { rewrite <- HR. apply rows_at_seq. }
  rewrite Hcopy.
  assert (Hv1 : forall ext, valid_rows ((h ++ R) ++ ext) (seq (List.length h) k)).
  { intros ext. apply valid_rows_seq. rewrite !length_app. lia. }
  destruct wrap.
  - pose proof (wrap_rows_h_spec tsd k 0 (List.length h) (h ++ R) [] ltac:(lia)) as H.
    rewrite Hcopy, !app_nil_r in H. rewrite H.
    do 3 eexists. split; [reflexivity |].
    assert (HW : List.length (wrap_rows_from tsd 0 R) = k)
      by (rewrite wrap_rows_from_length; exact HR).
    split; [apply Hv1 |]. split; [| split].
    + apply valid_rows_seq. rewrite !length_app. lia.
    + rewrite rows_at_app; [exact Hcopy |]. apply valid_rows_seq. lia.
    + rewrite <- HW at 1. apply rows_at_seq.
  - do 3 eexists. split; [reflexivity |].
    split; [apply Hv1 |]. split; [| split].
    + apply valid_rows_seq. rewrite !length_app. lia.
    + rewrite rows_at_app; [exact Hcopy |]. apply valid_rows_seq. lia.
    + rewrite <- HR at 1. apply rows_at_seq.
Qed.

Lemma prepare_rows_until tsd (wrap : bool) h data0 :
  valid_rows h data0 ->
  let '(h1, data) := copy_rows h data0 in
  let '(h2, data_send) := deepcopy_rows [] h1 data in
  snd (if wrap then wrap_rows_h_until tsd 0 data data_send h2 else (h2, None))
  = (if wrap then wrap_error tsd (rows_at h data0) else None) /\
  ((if wrap then wrap_error tsd (rows_at h data0) else None) = None ->
   fst (if wrap then wrap_rows_h_until tsd 0 data data_send h2 else (h2, None))
   = (if wrap then wrap_rows_h tsd 0 data data_send h2 else h2)).
Proof.
  intros Hv. rewrite (copy_rows_spec data0 h Hv).
  set (R := rows_at h data0). set (k := List.length data0).
  assert (HR : List.length R = k) by apply rows_at_length.
  rewrite (deepcopy_rows_seq k (List.length h) [] (h ++ R));
    [| constructor | rewrite length_app; lia].
  assert (Hcopy : rows_at (h ++ R) (seq (List.length h) k) = R).
  { rewrite <- HR. apply rows_at_seq. }
  rewrite Hcopy.
  destruct wrap; [| split; reflexivity].
  pose proof (wrap_rows_h_until_spec tsd k 0 (List.length h) (h ++ R) []
                ltac:(rewrite length_app; lia)) as H.
  rewrite Hcopy, !app_nil_r in H. exact H.
Qed.

Lemma add_table_h_with_refines np loop_h loop :
  (forall h data ds cw tsd p d,
      valid_rows h data -> valid_rows h ds ->
      snd (loop_h h data ds cw tsd p d)
      = loop (rows_at h data) (rows_at h ds) cw tsd p d) ->
  forall h data cw style wrap d,
    valid_rows h data ->
    snd (add_table_h_with np loop_h h data cw style wrap d)
    = add_table_with np loop (rows_at h data) cw style wrap d.
Proof.
  intros Hloop h data0 cw style wrap d Hv.
  unfold add_table_h_with, add_table_with.
  destruct (verify_page_break_with np d) as [d1 | |]; try reflexivity.
  cbn [bind].
  destruct (dict_get style (table_style_list d1)) as [tsd |].
  - pose proof (prepare_rows_until tsd wrap h data0 Hv) as Hu.
    destruct (prepare_rows_spec tsd wrap h data0 Hv)
      as [h3 [data [ds [E [Hvd [Hvs [Hd Hs]]]]]]].
    destruct (copy_rows h data0) as [h1 data'].
    destruct (deepcopy_rows [] h1 data') as [h2 ds'].
    injection E as E3 -> ->. destruct Hu as [Herr Hfst].
    destruct (if wrap then wrap_rows_h_until tsd 0 data ds h2 else (h2, None))
      as [h3' err].
    cbn [fst snd] in Herr, Hfst. subst err.
    destruct (if wrap then wrap_error tsd (rows_at h data0) else None);
      [reflexivity |].
    rewrite (Hfst eq_refl), E3.
    rewrite Hd.
    destruct (resolve_col_widths cw (rows_at h data0) d1); [reflexivity |].
    rewrite Hloop by assumption. rewrite Hd, Hs.
    rewrite <- Hd, rows_at_length. reflexivity.
  - destruct (copy_rows h data0). reflexivity.
Qed.

Lemma valid_rows_skipn h data p : valid_rows h data -> valid_rows h (skipn p data).
Proof.
  unfold valid_rows. intros Hv. apply Forall_forall. intros l Hin.
  rewrite Forall_forall in Hv. apply Hv.
  rewrite <- (firstn_skipn p data). apply in_or_app. right. exact Hin.
Qed.

Lemma rows_at_firstn h p data : rows_at h (firstn p data) = firstn p (rows_at h data).
Proof. unfold rows_at. symmetry. apply firstn_map. Qed.

Lemma rows_at_skipn h p data : rows_at h (skipn p data) = skipn p (rows_at h data).
Proof. unfold rows_at. symmetry. apply skipn_map. Qed.

Lemma add_table_loop_h_refines fuel style position wrap :
  forall h data ds cw tsd p d,
    valid_rows h data -> valid_rows h ds ->
    snd (add_table_loop_h fuel style position wrap h data ds cw tsd p d)
    = add_table_loop fuel style position wrap (rows_at h data) (rows_at h ds)
        cw tsd p d.
Proof.
  induction fuel as [| fuel IH]; intros h data ds cw tsd p d Hvd Hvs;
    [reflexivity |].
  cbn [add_table_loop_h add_table_loop].
  rewrite !rows_at_firstn, !rows_at_length.
  destruct (table_error (firstn p (rows_at h ds)) cw); [reflexivity |].
  destruct (wrap_table (firstn p (rows_at h ds)) cw (generate_table tsd))
    as [w_table h_table].
  destruct (Qgt_bool _ _).
  - destruct (1 <? p)%nat; [apply IH; assumption |].
    destruct (new_page fuel d); cbn [bind]; [apply IH; assumption | reflexivity ..].
  - match goal with
    | |- context [bind ?r _] => destruct r as [d1 | |]
    end; cbn [bind]; try reflexivity.
    destruct (negb (p =? List.length ds)%nat); [| reflexivity].
    destruct (header tsd) eqn:Ehdr.
    + destruct data as [| row0 rest]; [reflexivity |].
      rewrite (add_table_h_with_refines _ _ _ IH).
      * rewrite <- (rows_at_skipn h p (row0 :: rest)). reflexivity.
      * inversion Hvd; subst. constructor; [assumption |].
        apply (valid_rows_skipn h (row0 :: rest) p). exact Hvd.
    + rewrite (add_table_h_with_refines _ _ _ IH).
      * rewrite rows_at_skipn. reflexivity.
      * apply valid_rows_skipn. exact Hvd.
Qed.

(** [add_table_h] on the addresses of rows is [add_table] on their
    contents. *)
Lemma add_table_h_refines fuel h data cw style position wrap d :
  valid_rows h data ->
  snd (add_table_h fuel h data cw style position wrap d)
  = add_table fuel (rows_at h data) cw style position wrap d.
Proof.
  intros Hv. unfold add_table_h, add_table.
  apply add_table_h_with_refines; [| exact Hv].
  apply add_table_loop_h_refines.
Qed.

(** ** Further properties of the code *)

(** *** Dictionaries *)

Lemma dict_get_set_eq {V : Type} (k : string) (v : V) m :
  dict_get k (dict_set k v m) = Some v.
Proof.
  induction m as [| [k' v'] m IH]; simpl.
  - rewrite String.eqb_refl. reflexivity.
  - destruct (String.eqb k k') eqn:E; simpl; rewrite E; [reflexivity | exact IH].
Qed.

Lemma dict_get_set_neq {V : Type} (k k0 : string) (v : V) m :
  k0 <> k -> dict_get k0 (dict_set k v m) = dict_get k0 m.
Proof.
  intros Hne. induction m as [| [k' v'] m IH]; simpl.
  - apply String.eqb_neq in Hne. rewrite Hne. reflexivity.
  - destruct (String.eqb k k') eqn:E; simpl.
    + apply String.eqb_eq in E. subst k'.
      apply String.eqb_neq in Hne. rewrite Hne. reflexivity.
    + destruct (String.eqb k0 k'); [reflexivity | exact IH].
Qed.

Lemma dict_set_set {V : Type} (k : string) (v1 v2 : V) m :
  dict_set k v2 (dict_set k v1 m) = dict_set k v2 m.
Proof.
  induction m as [| [k' v'] m IH]; simpl.
  - rewrite String.eqb_refl. reflexivity.
  - destruct (String.eqb k k') eqn:E; simpl; rewrite E; [reflexivity |].
    rewrite IH. reflexivity.
Qed.

Lemma dict_get_None_keys {V : Type} (k : string) (m : dict V) :
  dict_get k m = None <-> ~ In k (map fst m).
Proof.
  induction m as [| [k' v'] m IH]; simpl; [tauto |].
  destruct (String.eqb k k') eqn:E.
  - apply String.eqb_eq in E. subst k'. split; [discriminate | tauto].
  - apply String.eqb_neq in E. rewrite IH. split.
    + intros H [H1 | H1]; [congruence | tauto].
    + tauto.
Qed.

Lemma dict_set_keys_present {V : Type} (k : string) (v : V) m :
  dict_get k m <> None -> map fst (dict_set k v m) = map fst m.
Proof.
  induction m as [| [k' v'] m IH]; simpl; [congruence |].
  destruct (String.eqb k k') eqn:E; simpl; [reflexivity |].
  intros H. rewrite IH by exact H. reflexivity.
Qed.

Lemma dict_set_keys_absent {V : Type} (k : string) (v : V) m :
  dict_get k m = None -> map fst (dict_set k v m) = map fst m ++ [k].
Proof.
  induction m as [| [k' v'] m IH]; simpl; [reflexivity |].
  destruct (String.eqb k k') eqn:E; simpl; [discriminate |].
  intros H. rewrite IH by exact H. reflexivity.
Qed.

Lemma dict_pop_set_absent {V : Type} (k : string) (v : V) m :
  dict_get k m = None -> dict_pop k (dict_set k v m) = Some m.
Proof.
  induction m as [| [k' v'] m IH]; simpl.
  - rewrite String.eqb_refl. reflexivity.
  - destruct (String.eqb k k') eqn:E; [discriminate |].
    intros H. simpl. rewrite E, IH by exact H. reflexivity.
Qed.

Lemma dict_pop_None {V : Type} (k : string) (m : dict V) :
  dict_pop k m = None <-> dict_get k m = None.
Proof.
  induction m as [| [k' v'] m IH]; simpl; [tauto |].
  destruct (String.eqb k k'); [split; discriminate |].
  destruct (dict_pop k m); [| tauto].
  split; [discriminate |]. intros H. apply IH in H. discriminate.
Qed.

Lemma dict_pop_Some {V : Type} (k : string) (m m' : dict V) :
  dict_pop k m = Some m' ->
  NoDup (map fst m) ->
  dict_get k m' = None /\
  (forall k0, k0 <> k -> dict_get k0 m' = dict_get k0 m) /\
  map fst m' = filter (fun k0 => negb (String.eqb k k0)) (map fst m).
Proof.
  revert m'. induction m as [| [k' v'] m IH]; intros m' H Hnd; simpl in H;
    [discriminate |].
  inversion Hnd as [| ? ? Hnotin Hnd']; subst.
  destruct (String.eqb k k') eqn:E.
  - injection H as <-. apply String.eqb_eq in E. subst k'.
    split; [apply dict_get_None_keys; exact Hnotin |]. split.
    + intros k0 Hne. simpl. apply String.eqb_neq in Hne. rewrite Hne. reflexivity.
    + simpl. rewrite String.eqb_refl. simpl.
      symmetry. apply forallb_filter_id. apply forallb_forall.
      intros k0 Hin. apply negb_true_iff. apply String.eqb_neq.
      intros ->. contradiction.
  - destruct (dict_pop k m) as [m'' |] eqn:Ep; [| discriminate].
    injection H as <-.
    destruct (IH m'' eq_refl Hnd') as [Hg [Hother Hkeys]].
    split; [simpl; rewrite E; exact Hg |]. split.
    + intros k0 Hne. simpl. destruct (String.eqb k0 k'); [reflexivity |].
      apply Hother. exact Hne.
    + simpl. rewrite E. simpl. rewrite Hkeys. reflexivity.
Qed.

Lemma dict_set_NoDup {V : Type} (k : string) (v : V) m :
  NoDup (map fst m) -> NoDup (map fst (dict_set k v m)).
Proof.
  intros Hnd. destruct (dict_get k m) eqn:E.
  - rewrite dict_set_keys_present by congruence. exact Hnd.
  - rewrite dict_set_keys_absent by exact E.
    apply NoDup_app; [exact Hnd | repeat constructor; simpl; tauto |].
    intros a Hin [<- | []]. apply dict_get_None_keys in E. contradiction.
Qed.

(** *** Style and template registries *)

(** X1.  [style_config] registers the style under its name, with the font
    size as leading when none is given; every other style stays as it was,
    and a second registration under the same name replaces the first
    completely. *)
Theorem style_config_overwrites name' f1 s1 a1 l1 c1 f2 s2 a2 l2 c2 d :
  dict_get name' (style_list (style_config name' f2 s2 a2 l2 c2 d)) =
  Some (mkParagraphStyle name' f2 s2 a2
          (match l2 with None => s2 | Some l => l end) c2) /\
  (forall k, k <> name' ->
             dict_get k (style_list (style_config name' f2 s2 a2 l2 c2 d))
             = dict_get k (style_list d)) /\
  style_list (style_config name' f2 s2 a2 l2 c2 (style_config name' f1 s1 a1 l1 c1 d))
  = style_list (style_config name' f2 s2 a2 l2 c2 d).
Proof.
  unfold style_config. cbn [style_list set_style_list].
  split; [apply dict_get_set_eq |]. split.
  - intros k Hne. apply dict_get_set_neq. exact Hne.
  - apply dict_set_set.
Qed.

(** X2.  [add_template_image] keeps the order of registration: a new name
    goes to the end, a name that is registered keeps its place and gets the
    new parameters; the names stay distinct, and the entry read back under
    the name is the one just stored. *)
Theorem add_template_image_keeps_order name' file sp w h px py ax ay d :
  NoDup (template_names d) ->
  NoDup (template_names (add_template_image name' file sp w h px py ax ay d)) /\
  template_names (add_template_image name' file sp w h px py ax ay d) =
  (if in_dec string_dec name' (template_names d)
   then template_names d else template_names d ++ [name']) /\
  dict_get name' (template_images (add_template_image name' file sp w h px py ax ay d))
  = Some (mkTemplateImage file sp w h px py ax ay) /\
  (forall k, k <> name' ->
             dict_get k (template_images
                           (add_template_image name' file sp w h px py ax ay d))
             = dict_get k (template_images d)).
Proof.
  intros Hnd. unfold template_names, add_template_image in *.
  cbn [template_images set_template_images].
  split; [apply dict_set_NoDup; exact Hnd |]. split; [| split].
  - destruct (in_dec string_dec name' (map fst (template_images d))) as [Hin | Hout].
    + apply dict_set_keys_present. intros E.
      apply dict_get_None_keys in E. contradiction.
    + apply dict_set_keys_absent. apply dict_get_None_keys. exact Hout.
  - apply dict_get_set_eq.
  - intros k Hne. apply dict_get_set_neq. exact Hne.
Qed.

(** X3.  [remove_template_image] raises [KeyError] and changes nothing when
    the name is not registered; when it is, the entry is gone, the other
    entries and their order stay, and removing an image right after it was
    registered under a new name gives back the registry as it was. *)
Theorem remove_template_image_removes name' d :
  NoDup (template_names d) ->
  (dict_get name' (template_images d) = None ->
   remove_template_image name' d = Raise (KeyError name') d) /\
  (dict_get name' (template_images d) <> None ->
   exists d',
     remove_template_image name' d = Ok d' /\
     dict_get name' (template_images d') = None /\
     (forall k, k <> name' ->
                dict_get k (template_images d') = dict_get k (template_images d)) /\
     template_names d' =
     filter (fun k => negb (String.eqb name' k)) (template_names d)) /\
  (dict_get name' (template_images d) = None ->
   forall file sp w h px py ax ay,
   exists d',
     remove_template_image name'
       (add_template_image name' file sp w h px py ax ay d) = Ok d' /\
     template_images d' = template_images d).
Proof.
  intros Hnd. unfold remove_template_image, template_names in *.
  split; [| split].
  - intros Hnone. apply dict_pop_None in Hnone. rewrite Hnone. reflexivity.
  - intros Hsome. destruct (dict_pop name' (template_images d)) as [t |] eqn:Ep.
    + eexists. split; [reflexivity |]. cbn [template_images set_template_images].
      apply dict_pop_Some; assumption.
    + apply dict_pop_None in Ep. contradiction.
  - intros Hnone file sp w h px py ax ay.
    unfold add_template_image. cbn [template_images set_template_images].
    rewrite dict_pop_set_absent by exact Hnone.
    eexists. split; reflexivity.
Qed.

Lemma evolves_styles (P : canvas_op -> Prop) d d' :
  evolves P d d' ->
  style_list d' = style_list d /\ table_style_list d' = table_style_list d.
Proof.
  intros H. apply evolves_same_config in H. split; apply H.
Qed.

Lemma add_sections_list_evolves (P : canvas_op -> Prop) fuel style texts :
  (forall op, decoration op -> P op) ->
  forall d, evolves P d (state_of (add_sections_list fuel texts style d)).
Proof.
  intros HP. induction texts as [| t rest IH]; intros d; cbn [add_sections_list];
    [apply ev_refl |].
  apply evolves_bind; [apply add_section_evolves; exact HP | intros d1 _; apply IH].
Qed.

Lemma run_command_styles fuel c d k :
  (has_style k d -> has_style k (state_of (run_command fuel c d))) /\
  (has_table_style k d -> has_table_style k (state_of (run_command fuel c d))).
Proof.
  unfold has_style, has_table_style.
  assert (Hev : forall r, evolves (fun _ => True) d (state_of r) ->
                          (dict_get k (style_list d) <> None ->
                           dict_get k (style_list (state_of r)) <> None) /\
                          (dict_get k (table_style_list d) <> None ->
                           dict_get k (table_style_list (state_of r)) <> None)).
  { intros r H. apply evolves_styles in H. destruct H as [-> ->]. tauto. }
  destruct c; cbn [run_command].
  - apply Hev. apply new_page_evolves. auto.
  - unfold save. destruct (new_page fuel d) as [d1 | e d1 | d1] eqn:E;
      cbn [bind state_of].
    + pose proof (new_page_evolves (fun _ => True) fuel d (fun _ _ => I)) as H.
      rewrite E in H. apply evolves_styles in H. cbn [state_of] in H.
      destruct H as [H1 H2]. cbn. rewrite H1, H2. tauto.
    + pose proof (Hev (new_page fuel d)) as H. rewrite E in H. apply H.
      rewrite <- E. apply new_page_evolves. auto.
    + pose proof (Hev (new_page fuel d)) as H. rewrite E in H. apply H.
      rewrite <- E. apply new_page_evolves. auto.
  - cbn. tauto.
  - apply Hev. apply add_section_evolves. auto.
  - apply Hev. unfold add_sections. apply add_sections_list_evolves. auto.
  - cbn. tauto.
  - apply Hev. unfold add_image. apply add_image_with_evolves; [auto |].
    intros d0. apply new_page_evolves. auto.
  - apply Hev. apply add_table_evolves; auto.
  - apply Hev. unfold add_title. apply add_section_evolves. auto.
  - apply Hev. unfold add_paragraph. apply add_section_evolves. auto.
  - cbn [state_of]. unfold title_config.
    cbn [style_list table_style_list set_style_list].
    split; [| tauto]. intros H.
    destruct (string_dec k "title") as [-> | Hne].
    + rewrite dict_get_set_eq. discriminate.
    + rewrite dict_get_set_neq by exact Hne. exact H.
  - cbn [state_of]. unfold paragraph_config.
    cbn [style_list table_style_list set_style_list].
    split; [| tauto]. intros H.
    destruct (string_dec k "paragraph") as [-> | Hne].
    + rewrite dict_get_set_eq. discriminate.
    + rewrite dict_get_set_neq by exact Hne. exact H.
  - cbn [state_of]. unfold style_config. cbn [style_list table_style_list set_style_list].
    split; [| tauto]. intros H.
    destruct (string_dec k name') as [-> | Hne].
    + rewrite dict_get_set_eq. discriminate.
    + rewrite dict_get_set_neq by exact Hne. exact H.
  - cbn [state_of]. unfold table_style.
    cbn [style_list table_style_list set_table_style_list].
    split; [tauto |]. intros H.
    destruct (string_dec k name') as [-> | Hne].
    + rewrite dict_get_set_eq. discriminate.
    + rewrite dict_get_set_neq by exact Hne. exact H.
  - cbn. tauto.
  - unfold remove_template_image.
    destruct (dict_pop name' (template_images d)); cbn; tauto.
Qed.

(** X4.  No call removes a style: a paragraph style or a table style that is
    registered is still registered after any sequence of calls, whatever
    their outcome; after [Document.__init__] these are ['title'],
    ['paragraph'], ['page_number'], ['table'] and ['no_header']. *)
Theorem styles_stay_registered fuel cs d k :
  (has_style k d -> has_style k (state_of (run_commands fuel cs d))) /\
  (has_table_style k d -> has_table_style k (state_of (run_commands fuel cs d))) /\
  (forall n w h mt ml mr mb,
      let d0 := state_of (run_commands fuel cs (init n w h mt ml mr mb)) in
      has_style "title" d0 /\ has_style "paragraph" d0 /\
      has_style "page_number" d0 /\
      has_table_style "table" d0 /\ has_table_style "no_header" d0).
Proof.
  assert (Hgen : forall cs d k,
             (has_style k d -> has_style k (state_of (run_commands fuel cs d))) /\
             (has_table_style k d ->
              has_table_style k (state_of (run_commands fuel cs d)))).
  { clear. induction cs as [| c cs IH]; intros d k; cbn [run_commands state_of];
      [tauto |].
    pose proof (run_command_styles fuel c d k) as [H1 H2].
    destruct (run_command fuel c d) as [d1 | e d1 | d1]; cbn [bind state_of] in *;
      [| tauto | tauto].
    destruct (IH d1 k) as [H3 H4]. tauto. }
  split; [apply Hgen |]. split; [apply Hgen |].
  intros n w h mt ml mr mb d0. subst d0.
  repeat split; apply Hgen; unfold has_style, has_table_style; cbn; discriminate.
Qed.

(** *** Page lifecycle *)

Lemma page_number_style_ok_ext d d' :
  same_config d d' -> page_number_style_ok d -> page_number_style_ok d'.
Proof.
  unfold page_number_style_ok. intros Hc H.
  assert (Hpc : page_count d' = page_count d) by apply Hc.
  assert (Hsl : style_list d' = style_list d) by apply Hc.
  rewrite Hpc, Hsl. exact H.
Qed.

Lemma new_page_below_margin_times_out fuel :
  forall d,
    overflows d = true -> template_images d <> [] -> page_number_style_ok d ->
    exists d', new_page fuel d = Timeout d'.
Proof.
  induction fuel as [| fuel IH]; intros d Hov Htpl Hst; cbn [new_page].
  - exists d. reflexivity.
  - destruct (add_page_number_fits d Hst) as [d1 E1]. rewrite E1. cbn [bind].
    apply add_page_number_Ok in E1. destruct E1 as [_ [Hcfg [Hcur _]]].
    assert (Hov1 : overflows d1 = true) by (rewrite (overflows_ext d d1); auto).
    assert (Htpl1 : template_images d1 = template_images d) by apply Hcfg.
    rewrite Htpl1.
    destruct (template_images d) as [| [k img] rest] eqn:Et; [congruence |].
    cbn [replay_with]. unfold add_template_with, add_image_with,
      verify_page_break_with.
    rewrite Hov1.
    destruct (IH d1 Hov1) as [d2 E2].
    + rewrite Htpl1. discriminate.
    + apply (page_number_style_ok_ext d); assumption.
    + rewrite E2. cbn [bind]. exists d2. reflexivity.
Qed.

(** X5.  With a template image registered and the cursor below the bottom
    margin, [new_page] never returns: the page-break check at the start of the
    first replayed [add_image] calls [new_page] again on the same document,
    without end.  So does every call that starts with the page-break check:
    [add_image], [add_table], and [add_section] with a registered style. *)
Theorem below_margin_with_template_never_returns fuel d :
  overflows d = true -> template_images d <> [] -> page_number_style_ok d ->
  (exists d', new_page fuel d = Timeout d') /\
  (forall file sp w h position posx posy axisx axisy,
      exists d',
        add_image fuel file sp w h position posx posy axisx axisy d = Timeout d') /\
  (forall data cw style position wrap,
      exists d', add_table fuel data cw style position wrap d = Timeout d') /\
  (forall text style,
      has_style style d ->
      exists d', add_section fuel text style d = Timeout d').
Proof.
  intros Hov Htpl Hst.
  destruct (new_page_below_margin_times_out fuel d Hov Htpl Hst) as [d' E].
  split; [exists d'; exact E |]. split; [| split].
  - intros. exists d'.
    unfold add_image, add_image_with, verify_page_break_with.
    rewrite Hov, E. reflexivity.
  - intros. exists d'.
    unfold add_table, add_table_with, verify_page_break_with.
    rewrite Hov, E. reflexivity.
  - intros text style Hs. exists d'.
    unfold add_section, add_section_with, verify_page_break_with.
    unfold has_style in Hs.
    destruct (dict_get style (style_list d)); [| congruence].
    rewrite Hov, E. reflexivity.
Qed.

(** X6.  Two template images are enough to stop [new_page] on a page that is
    not yet full: the first image moves the cursor down by its height, and
    when that takes the cursor below the bottom margin the page-break check
    of the second image calls [new_page] again, which never returns. *)
Theorem new_page_two_templates_never_returns fuel d k1 img1 k2 img2 rest :
  template_images d = (k1, img1) :: (k2, img2) :: rest ->
  page_number_style_ok d ->
  overflows d = false ->
  template_ok img1 ->
  height d < current_height d + snd (template_size img1)
             + margin_top d + margin_bottom d ->
  exists d', new_page fuel d = Timeout d'.
Proof.
  intros Htpl Hst Hov [Hsp [Hw [Hh Himg]]] Hbig.
  destruct fuel as [| fuel]; cbn [new_page]; [exists d; reflexivity |].
  destruct (add_page_number_fits d Hst) as [d1 E1]. rewrite E1. cbn [bind].
  apply add_page_number_Ok in E1. destruct E1 as [_ [Hcfg [Hcur _]]].
  assert (Hov1 : overflows d1 = false) by (rewrite (overflows_ext d d1); auto).
  assert (Htpl1 : template_images d1 = template_images d) by apply Hcfg.
  rewrite Htpl1, Htpl. cbn [replay_with].
  destruct (image_size (ti_file img1)) as [[iw ih] |] eqn:Eimg; [| congruence].
  unfold add_template_with at 1.
  rewrite (add_image_with_fits (new_page fuel) _ _ _ _ _ _ _ _ _ d1 iw ih);
    try assumption; [| reflexivity].
  cbn [bind].
  destruct (image_drawn_template d1 img1 iw ih Eimg) as [_ [Hc2 [Hcur2 _]]].
  cbv zeta in Hc2, Hcur2.
  set (d2 := image_drawn d1 (ti_file img1) iw ih (ti_size_proportions img1)
               (ti_width img1) (ti_height img1) "absolute" (ti_posx img1)
               (ti_posy img1) (ti_axisx img1) (ti_axisy img1)) in *.
  assert (Hc12 : same_config d d2) by (eapply same_config_trans; eauto).
  assert (Hov2 : overflows d2 = true).
  { unfold overflows. apply Qgt_bool_true.
    assert (Hh2 : height d2 = height d) by apply Hc12.
    assert (Hmt : margin_top d2 = margin_top d) by apply Hc12.
    assert (Hmb : margin_bottom d2 = margin_bottom d) by apply Hc12.
    rewrite Hh2, Hmt, Hmb, Hcur2, Hcur. exact Hbig. }
  destruct (new_page_below_margin_times_out fuel d2 Hov2) as [d3 E3].
  - replace (template_images d2) with (template_images d) by (symmetry; apply Hc12).
    rewrite Htpl. discriminate.
  - apply (page_number_style_ok_ext d); assumption.
  - unfold add_template_with, add_image_with, verify_page_break_with.
    rewrite Hov2, E3. cbn [bind]. exists d3. reflexivity.
Qed.

(** X7.  [save] finalizes the page that is open and then writes the file:
    when the replay of the template images fits, it returns, the page number
    and every template image are on the last page too, then come the commit
    of the page and the writing of the file, and the cursor is at 0. *)
Theorem save_finalizes_last_page fuel d :
  page_number_style_ok d ->
  replay_fits d (current_height d) (template_images d) ->
  exists d',
    save (S fuel) d = Ok d' /\
    page d' = page d ++ finalization d ++ [SaveFile] /\
    current_height d' = 0 /\
    page_number d' = if page_count d then (page_number d + 1)%Z else page_number d.
Proof.
  intros Hst Hfit. destruct (new_page_fits fuel d Hst Hfit) as [d1 E].
  unfold save. rewrite E. cbn [bind]. eexists. split; [reflexivity |].
  apply new_page_Ok in E. destruct E as [Hp [_ [Hc Hn]]].
  cbn [page current_height page_number draw set_page].
  rewrite Hp, <- app_assoc. auto.
Qed.

(** *** Images *)

(** X8.  Absolute placement: with ['right'] the right edge of the image is
    [posx] from the right edge of the page, with ['center'] its middle is
    [posx] right of the middle of the page, with any other value its left
    edge is at [posx]; vertically ['bottom'] puts the lower edge at [posy],
    ['center'] the middle [posy] below the middle of the page, and any other
    value (['middle'] too) the upper edge [posy] below the top of the page.
    Neither the cursor nor the margins matter. *)
Theorem absolute_position_anchors d axisx axisy w h posx posy :
  (axisx = "right" ->
   fst (_set_absolute_positions d axisx axisy w h posx posy) + w + posx == width d) /\
  (axisx = "center" ->
   fst (_set_absolute_positions d axisx axisy w h posx posy) + w / 2
   == width d / 2 + posx) /\
  (axisx <> "right" -> axisx <> "center" ->
   fst (_set_absolute_positions d axisx axisy w h posx posy) = posx) /\
  (axisy = "bottom" ->
   snd (_set_absolute_positions d axisx axisy w h posx posy) = posy) /\
  (axisy = "center" ->
   snd (_set_absolute_positions d axisx axisy w h posx posy) + h / 2
   == height d / 2 - posy) /\
  (axisy <> "bottom" -> axisy <> "center" ->
   snd (_set_absolute_positions d axisx axisy w h posx posy) + h + posy
   == height d) /\
  (forall d', width d' = width d -> height d' = height d ->
              _set_absolute_positions d' axisx axisy w h posx posy
              = _set_absolute_positions d axisx axisy w h posx posy).
Proof.
  unfold _set_absolute_positions. cbn [fst snd].
  repeat split.
  - intros ->. cbn. ring.
  - intros ->. cbn. field.
  - intros H1 H2. apply String.eqb_neq in H1, H2. rewrite H1, H2. reflexivity.
  - intros ->. reflexivity.
  - intros ->. cbn. field.
  - intros H1 H2. apply String.eqb_neq in H1, H2. rewrite H1, H2. ring.
  - intros d' -> ->. reflexivity.
Qed.

(** X9.  When the cursor is not below the bottom margin, [add_image] returns
    exactly when every factor is positive, the mode is one of the three and
    the file can be opened; otherwise it raises, with the document as it was
    and nothing drawn.  The checks come in this order: a factor that is not
    positive gives the [ValueError] about the factors whatever the mode and
    the file are, then a mode that is not one of the three gives the
    [ValueError] about the position, then a file that cannot be opened gives
    [FileNotFoundError]. *)
Theorem add_image_returns_iff_valid
        fuel file sp w h position posx posy axisx axisy d :
  overflows d = false ->
  (image_args_ok file sp w h position <->
   exists d', add_image fuel file sp w h position posx posy axisx axisy d = Ok d') /\
  (~ image_args_ok file sp w h position ->
   exists e, add_image fuel file sp w h position posx posy axisx axisy d = Raise e d) /\
  (sp <= 0 \/ w <= 0 \/ h <= 0 ->
   add_image fuel file sp w h position posx posy axisx axisy d
   = Raise (ValueError
              "Size proportions, width, and height must be positive values.") d) /\
  (0 < sp -> 0 < w -> 0 < h -> valid_position position = false ->
   add_image fuel file sp w h position posx posy axisx axisy d
   = Raise (ValueError "Position must be 'center', 'absolute', or 'default'.") d) /\
  (0 < sp -> 0 < w -> 0 < h -> valid_position position = true ->
   image_size file = None ->
   add_image fuel file sp w h position posx posy axisx axisy d
   = Raise (FileNotFoundError file) d).
Proof.
  intros Hov. unfold image_args_ok.
  assert (Hfac : 0 < sp -> 0 < w -> 0 < h ->
                 Qle_bool sp 0 || Qle_bool w 0 || Qle_bool h 0 = false).
  { intros Hsp Hw Hh.
    destruct (Qle_bool sp 0) eqn:E1; [apply Qle_bool_iff in E1; lra |].
    destruct (Qle_bool w 0) eqn:E2; [apply Qle_bool_iff in E2; lra |].
    destruct (Qle_bool h 0) eqn:E3; [apply Qle_bool_iff in E3; lra |].
    reflexivity. }
  assert (Hok : 0 < sp /\ 0 < w /\ 0 < h /\ valid_position position = true /\
                image_size file <> None ->
                exists d', add_image fuel file sp w h position posx posy axisx
                             axisy d = Ok d').
  { intros [Hsp [Hw [Hh [Hpos Himg]]]].
    destruct (image_size file) as [[iw ih] |] eqn:E; [| congruence].
    eexists. unfold add_image. apply add_image_with_fits; eassumption. }
  assert (Hback : forall d', add_image fuel file sp w h position posx posy axisx
                               axisy d = Ok d' ->
                             0 < sp /\ 0 < w /\ 0 < h /\
                             valid_position position = true /\
                             image_size file <> None).
  { intros d' H. unfold add_image in H. apply add_image_with_Ok in H.
    destruct H as [d1 [iw [ih [_ [Hsp [Hw [Hh [Hpos [Himg _]]]]]]]]].
    repeat split; try assumption. congruence. }
  split; [split; [exact Hok | intros [d' H]; exact (Hback d' H)] |].
  split; [| split; [| split]].
  - intros Hbad.
    destruct (add_image fuel file sp w h position posx posy axisx axisy d)
      as [d' | e d' | d'] eqn:E.
    + exfalso. apply Hbad. exact (Hback d' eq_refl).
    + exists e. f_equal. eapply add_image_fails_in_place; eassumption.
    + exfalso. revert E.
      unfold add_image, add_image_with, verify_page_break_with.
      rewrite Hov. cbn [bind].
      destruct (Qle_bool sp 0 || Qle_bool w 0 || Qle_bool h 0); [discriminate |].
      destruct (negb (valid_position position)); [discriminate |].
      destruct (image_size file) as [[iw ih] |]; [| discriminate].
      destruct_measure lm bm. discriminate.
  - intros Hbad. unfold add_image, add_image_with, verify_page_break_with.
    rewrite Hov. cbn [bind].
    assert (Hb : Qle_bool sp 0 || Qle_bool w 0 || Qle_bool h 0 = true).
    { destruct Hbad as [H | [H | H]]; apply Qle_bool_iff in H; rewrite H;
        rewrite ?orb_true_r; reflexivity. }
    rewrite Hb. reflexivity.
  - intros Hsp Hw Hh Hv.
    unfold add_image, add_image_with, verify_page_break_with.
    rewrite Hov. cbn [bind]. rewrite (Hfac Hsp Hw Hh), Hv. reflexivity.
  - intros Hsp Hw Hh Hv Hf.
    unfold add_image, add_image_with, verify_page_break_with.
    rewrite Hov. cbn [bind]. rewrite (Hfac Hsp Hw Hh), Hv, Hf. reflexivity.
Qed.

(** X10.  In the modes ['center'] and ['default'] the image is put into the
    flow: its upper edge is at the cursor, below the top margin; it is
    centred on the page in the first mode and starts at the left margin in
    the second.  Nothing keeps it above the bottom margin. *)
Theorem add_image_flow_placement
        fuel file sp w h position posx posy axisx axisy d d' :
  overflows d = false ->
  position <> "absolute" ->
  add_image fuel file sp w h position posx posy axisx axisy d = Ok d' ->
  exists iw ih x y,
    image_size file = Some (iw, ih) /\
    page d' = page d ++ [DrawImage file x y (inject_Z iw * (sp * w))
                                          (inject_Z ih * (sp * h))] /\
    y + inject_Z ih * (sp * h) == height d - margin_top d - current_height d /\
    (position = "center" -> x + inject_Z iw * (sp * w) / 2 == width d / 2) /\
    (position = "default" -> x = margin_left d).
Proof.
  intros Hov Hna H. unfold add_image in H. apply add_image_with_Ok in H.
  destruct H as [d1 [iw [ih [Hv [_ [_ [_ [Hpos [Himg ->]]]]]]]]].
  unfold verify_page_break_with in Hv. rewrite Hov in Hv. injection Hv as <-.
  exists iw, ih. unfold image_drawn, image_position.
  apply String.eqb_neq in Hna. rewrite Hna.
  destruct (String.eqb position "center") eqn:Ec; cbn [fst snd].
  - eexists. eexists. split; [exact Himg |]. split; [reflexivity |].
    split; [ring |]. split; [intros _; field |].
    intros ->. discriminate.
  - eexists. eexists. split; [exact Himg |]. split; [reflexivity |].
    split; [ring |]. split; [| reflexivity].
    intros ->. discriminate.
Qed.

(** *** Text *)

Lemma split_lines_not_nil s : split_lines s <> [].
Proof.
  destruct s as [| c s]; simpl; [discriminate |].
  destruct (Ascii.eqb c "010"); [discriminate |].
  destruct (split_lines s); discriminate.
Qed.

Lemma split_lines_app a b :
  split_lines (a ++ String newline b) = split_lines a ++ split_lines b.
Proof.
  induction a as [| c a IH]; [reflexivity |].
  cbn [append split_lines].
  destruct (Ascii.eqb c "010"); [rewrite IH; reflexivity |].
  rewrite IH. pose proof (split_lines_not_nil a) as Hne.
  destruct (split_lines a); [congruence | reflexivity].
Qed.

Lemma split_lines_one s : has_newline s = false -> split_lines s = [s].
Proof.
  induction s as [| c s IH]; [reflexivity |].
  cbn [has_newline split_lines]. unfold newline.
  destruct (Ascii.eqb c "010"); [discriminate |].
  intros H. rewrite (IH H). reflexivity.
Qed.

Lemma add_sections_list_app fuel style l1 l2 :
  forall d,
    add_sections_list fuel (l1 ++ l2) style d
    = bind (add_sections_list fuel l1 style d) (add_sections_list fuel l2 style).
Proof.
  induction l1 as [| t l1 IH]; intros d; [reflexivity |].
  cbn [app add_sections_list].
  destruct (add_section fuel t style d) as [d1 | |]; cbn [bind];
    [apply IH | reflexivity | reflexivity].
Qed.

Lemma bind_Ok r : bind r Ok = r.
Proof. destruct r; reflexivity. Qed.

(** X11.  [add_sections] places the lines of a text one after the other:
    the text [a], a line break, the text [b] is [a] placed and then, if that
    returned, [b] placed; a text without a line break is placed as
    [add_section] places it, and with a style that is not registered nothing
    is drawn and [ValueError] is raised. *)
Theorem add_sections_places_lines_in_order fuel a b style d :
  add_sections fuel (a ++ String newline b) style d
  = bind (add_sections fuel a style d) (add_sections fuel b style) /\
  (has_newline a = false ->
   add_sections fuel a style d = add_section fuel a style d) /\
  (dict_get style (style_list d) = None ->
   exists msg, add_sections fuel a style d = Raise (ValueError msg) d).
Proof.
  unfold add_sections. split; [| split].
  - rewrite split_lines_app. apply add_sections_list_app.
  - intros H. rewrite (split_lines_one a H). cbn [add_sections_list].
    apply bind_Ok.
  - intros H. pose proof (split_lines_not_nil a) as Hne.
    destruct (split_lines a) as [| t rest]; [congruence |].
    cbn [add_sections_list].
    destruct (add_section_unknown_style fuel t style d H) as [msg E].
    rewrite E. exists msg. reflexivity.
Qed.




Lemma add_section_loop_searches style st text d k :
  dict_get style (style_list d) = Some st ->
  (1 <= k)%nat ->
  current_height d + margin_top d + margin_bottom d
  + text_height d st (prefix_text text k) <= height d ->
  forall m fuel has_split,
    (k + m <= List.length (split_space text))%nat ->
    (forall j, (k < j <= k + m)%nat ->
               height d < current_height d + margin_top d + margin_bottom d
                          + text_height d st (prefix_text text j)) ->
    (forall j, (k <= j <= k + m)%nat ->
               paragraph_error (prefix_text text j) st = None) ->
    (m < fuel)%nat ->
    exists ops,
      page (state_of (add_section_loop fuel style (prefix_text text (k + m))
                        has_split (k + m - 1) d))
      = page d ++ paragraph_at d st (prefix_text text k) :: ops.
Proof.
  intros Hget Hk Hfit.
  induction m as [| m IH]; intros fuel has_split Hlen Hover Herr Hfuel.
  - destruct fuel as [| fuel]; [lia |].
    rewrite Nat.add_0_r. cbn [add_section_loop].
    rewrite Hget, (Herr k ltac:(lia)).
    unfold paragraph_at, text_height in *.
    destruct (wrap_paragraph (prefix_text text k) st _ (height d))
      as [w_title h_title].
    cbn [snd] in *.
    apply Qgt_bool_false in Hfit. rewrite Hfit. cbn [negb].
    set (d2 := set_current_height _ _).
    assert (Hp2 : page d2 = page d ++ [DrawParagraph (prefix_text text k) st
                                         (margin_left d)
                                         (height d - margin_top d - current_height d
                                          - h_title)])
      by reflexivity.
    destruct has_split.
    + assert (Hev : evolves (fun _ => True) d2
                      (state_of
                         (bind (new_page fuel d2)
                            (fun d3 =>
                               add_section_with (new_page fuel)
                                 (add_section_loop fuel style)
                                 (join_space
                                    (skipn (k - 1 + 1)
                                       (split_space (prefix_text text k))))
                                 style d3)))).
      { apply evolves_bind; [apply new_page_evolves; auto |].
        intros d3 _.
        apply (add_section_evolves (fun _ => True) fuel _ style d3). auto. }
      apply evolves_page in Hev. destruct Hev as [ops [Hp _]].
      exists ops. rewrite Hp, Hp2, <- app_assoc. reflexivity.
    + exists []. exact Hp2.
  - destruct fuel as [| fuel]; [lia |].
    cbn [add_section_loop]. rewrite Hget, (Herr (k + S m)%nat ltac:(lia)).
    pose proof (Hover (k + S m)%nat ltac:(lia)) as Hbig.
    unfold text_height in Hbig.
    destruct (wrap_paragraph (prefix_text text (k + S m)) st _ (height d))
      as [w_title h_title].
    cbn [snd] in Hbig.
    apply Qgt_bool_true in Hbig. rewrite Hbig. cbn [negb].
    assert (Hpos : (0 <? k + S m - 1)%nat = true) by (apply Nat.ltb_lt; lia).
    rewrite Hpos.
    replace (firstn (k + S m - 1) (split_space (prefix_text text (k + S m))))
      with (firstn (k + m) (split_space (prefix_text text (k + S m))))
      by (f_equal; lia).
    rewrite prefix_text_shrink by lia.
    replace (k + S m - 1 - 1)%nat with (k + m - 1)%nat by lia.
    apply IH; [lia | | | lia].
    + intros j Hj. apply Hover. lia.
    + intros j Hj. apply Herr. lia.
Qed.

(** X13.  The backward search of [add_section]: when the first [k] words fit
    between the cursor and the bottom margin, no longer prefix of the words
    does, and reportlab takes each of the candidates that the search builds
    (the prefixes of [k] and more words) for a paragraph, the first thing
    that the call draws is the first [k] words, at the cursor of the page
    that is open. *)
Theorem add_section_draws_longest_prefix_that_fits fuel text style st d k :
  dict_get style (style_list d) = Some st ->
  overflows d = false ->
  (1 <= k <= List.length (split_space text))%nat ->
  current_height d + margin_top d + margin_bottom d
  + text_height d st (prefix_text text k) <= height d ->
  (forall j, (k < j <= List.length (split_space text))%nat ->
             height d < current_height d + margin_top d + margin_bottom d
                        + text_height d st (prefix_text text j)) ->
  (forall j, (k <= j <= List.length (split_space text))%nat ->
             paragraph_error (prefix_text text j) st = None) ->
  (List.length (split_space text) - k < fuel)%nat ->
  exists ops,
    page (state_of (add_section fuel text style d))
    = page d ++ paragraph_at d st (prefix_text text k) :: ops.
Proof.
  intros Hget Hov Hk Hfit Hover Herr Hfuel.
  unfold add_section, add_section_with, verify_page_break_with.
  rewrite Hget, Hov. cbn [bind].
  pose proof (add_section_loop_searches style st text d k Hget ltac:(lia) Hfit
                (List.length (split_space text) - k) fuel false) as H.
  replace (k + (List.length (split_space text) - k))%nat
    with (List.length (split_space text)) in H by lia.
  rewrite prefix_text_all in H.
  apply H; [lia | exact Hover | exact Herr | exact Hfuel].
Qed.







(** *** Tables *)

Lemma wrap_rows_from_body tsd i rows :
  (1 <= i)%nat \/ header tsd = false ->
  wrap_rows_from tsd i rows = map (wrap_row (style_text tsd)) rows.
Proof.
  intros Hi. revert i Hi. induction rows as [| r rows IH]; intros i Hi;
    [reflexivity |].
  cbn [wrap_rows_from map]. rewrite IH by (left; lia). f_equal.
  unfold cell_style. destruct Hi as [Hi | Hh].
  - destruct i; [lia | reflexivity].
  - rewrite Hh, andb_false_r. reflexivity.
Qed.

Lemma table_to_send_cons_tl tsd wrap row0 rows :
  tl (table_to_send tsd wrap (row0 :: rows)) = body_to_send tsd wrap rows.
Proof.
  unfold table_to_send, body_to_send, wrap_cells. destruct wrap; [| reflexivity].
  cbn [wrap_rows_from tl]. apply wrap_rows_from_body. left. lia.
Qed.

Lemma table_to_send_no_header tsd wrap rows :
  header tsd = false -> table_to_send tsd wrap rows = body_to_send tsd wrap rows.
Proof.
  intros Hh. unfold table_to_send, body_to_send, wrap_cells.
  destruct wrap; [| reflexivity]. apply wrap_rows_from_body. right. exact Hh.
Qed.

Lemma table_to_send_length tsd wrap data :
  List.length (table_to_send tsd wrap data) = List.length data.
Proof.
  unfold table_to_send. destruct wrap; [apply wrap_rows_from_length | reflexivity].
Qed.

Lemma body_to_send_app tsd wrap l1 l2 :
  body_to_send tsd wrap (l1 ++ l2) = body_to_send tsd wrap l1 ++ body_to_send tsd wrap l2.
Proof. unfold body_to_send. destruct wrap; [apply map_app | reflexivity]. Qed.

Lemma body_to_send_firstn tsd wrap p rows :
  firstn p (body_to_send tsd wrap rows) = body_to_send tsd wrap (firstn p rows).
Proof. unfold body_to_send. destruct wrap; [apply firstn_map | reflexivity]. Qed.

Lemma drawn_rows_app hdr ops1 ops2 :
  drawn_rows hdr (ops1 ++ ops2) = drawn_rows hdr ops1 ++ drawn_rows hdr ops2.
Proof. unfold drawn_rows. apply flat_map_app. Qed.

Lemma drawn_rows_finalization hdr d : drawn_rows hdr (finalization d) = [].
Proof.
  unfold finalization. rewrite !drawn_rows_app.
  assert (H1 : drawn_rows hdr (page_number_ops d) = []).
  { unfold page_number_ops. destruct (page_count d); [| reflexivity].
    destruct (dict_get "page_number" (style_list d)); reflexivity. }
  assert (H2 : drawn_rows hdr
                 (map (fun kv => template_op d (snd kv)) (template_images d)) = []).
  { induction (template_images d) as [| kv rest IH]; [reflexivity |].
    cbn [map]. change (drawn_rows hdr (?a :: ?l))
      with (slice_body hdr a ++ drawn_rows hdr l).
    rewrite IH. pose proof (template_op_is_image d (snd kv)) as Hi.
    destruct (template_op d (snd kv)); try contradiction. reflexivity. }
  rewrite H1, H2. reflexivity.
Qed.

Lemma tl_firstn {A : Type} p (l : list A) :
  (1 <= p)%nat -> tl (firstn p l) = firstn (p - 1) (tl l).
Proof.
  intros Hp. destruct p as [| p]; [lia |].
  replace (S p - 1)%nat with p by lia.
  destruct l as [| a l]; cbn [firstn tl]; [rewrite firstn_nil |]; reflexivity.
Qed.

(** What a returned table loop has drawn, and with which widths. *)
Lemma add_table_loop_draws_all fuel style position wrap tsd :
  forall data cw p d d',
    dict_get style (table_style_list d) = Some tsd ->
    cw <> WidthsUniform ->
    data = [] \/ (1 <= p)%nat ->
    add_table_loop fuel style position wrap data (table_to_send tsd wrap data)
      cw tsd p d = Ok d' ->
    exists ops,
      page d' = page d ++ ops /\
      drawn_rows (header tsd) ops = table_body tsd wrap data /\
      Forall (table_widths_are cw) ops.
Proof.
  assert (Hnp : forall f d0 d1,
             new_page f d0 = Ok d1 ->
             page d1 = page d0 ++ finalization d0 /\
             table_style_list d1 = table_style_list d0 /\
             Forall (table_widths_are WidthsNone) (finalization d0) /\
             forall cw, Forall (table_widths_are cw) (finalization d0)).
  { intros f d0 d1 E. apply new_page_Ok in E. destruct E as [Hp [Hc _]].
    assert (Hall : forall cw, Forall (table_widths_are cw) (finalization d0)).
    { intros cw. unfold finalization. rewrite !Forall_app. repeat split.
      - unfold page_number_ops. destruct (page_count d0); [| constructor].
        destruct (dict_get "page_number" (style_list d0)); repeat constructor.
      - apply Forall_map. apply Forall_forall. intros kv _.
        pose proof (template_op_is_image d0 (snd kv)) as Hi.
        destruct (template_op d0 (snd kv)); try contradiction. exact I.
      - repeat constructor. }
    repeat split; [exact Hp | apply Hc | apply Hall | apply Hall]. }
  induction fuel as [| fuel IH]; intros data cw p d d' Hget Hcw Hp E;
    [discriminate |].
  cbn [add_table_loop] in E.
  assert (Hrec : forall data' d1 d2,
             dict_get style (table_style_list d1) = Some tsd ->
             add_table_with (new_page fuel)
               (add_table_loop fuel style position wrap) data' cw style wrap d1
             = Ok d2 ->
             exists ops,
               page d2 = page d1 ++ ops /\
               drawn_rows (header tsd) ops = table_body tsd wrap data' /\
               Forall (table_widths_are cw) ops).
  { intros data' d1 d2 Hget1 E1. unfold add_table_with in E1.
    assert (Hv : exists d3 ops0,
               verify_page_break_with (new_page fuel) d1 = Ok d3 /\
               page d3 = page d1 ++ ops0 /\ drawn_rows (header tsd) ops0 = [] /\
               Forall (table_widths_are cw) ops0 /\
               dict_get style (table_style_list d3) = Some tsd).
    { unfold verify_page_break_with in *. destruct (overflows d1).
      - destruct (new_page fuel d1) as [d3 | |] eqn:E3; try discriminate.
        destruct (Hnp _ _ _ E3) as [Hp3 [Hs3 [_ Hw3]]].
        exists d3, (finalization d1). split; [reflexivity |].
        split; [exact Hp3 |]. split; [apply drawn_rows_finalization |].
        split; [apply Hw3 |]. rewrite Hs3. exact Hget1.
      - exists d1, []. rewrite app_nil_r. repeat split; auto. }
    destruct Hv as [d3 [ops0 [Ev [Hp3 [Hr3 [Hw3 Hget3]]]]]].
    rewrite Ev in E1. cbn [bind] in E1. rewrite Hget3 in E1.
    destruct (if wrap then wrap_error tsd data' else None); [discriminate |].
    destruct (resolve_col_widths cw data' d3) as [e | cw'] eqn:Er; [discriminate |].
    assert (cw' = cw) as ->.
    { destruct cw; cbn in Er; try congruence. }
    apply IH in E1; [| exact Hget3 | exact Hcw |].
    - destruct E1 as [ops [Hp1 [Hr1 Hw1]]]. exists (ops0 ++ ops).
      split; [rewrite Hp1, Hp3, app_assoc; reflexivity |].
      split; [rewrite drawn_rows_app, Hr3; exact Hr1 |].
      apply Forall_app. split; assumption.
    - destruct data'; [left; reflexivity | right; simpl; lia]. }
  destruct (table_error (firstn p (table_to_send tsd wrap data)) cw);
    [discriminate |].
  destruct (wrap_table (firstn p (table_to_send tsd wrap data)) cw
              (generate_table tsd)) as [w_table h_table].
  destruct (Qgt_bool _ _).
  - destruct (1 <? p)%nat eqn:Ep.
    + apply Nat.ltb_lt in Ep. apply IH in E; auto. right. lia.
    + destruct (new_page fuel d) as [d1 | |] eqn:E1; try discriminate.
      cbn [bind] in E. destruct (Hnp _ _ _ E1) as [Hp1 [Hs1 [_ Hw1]]].
      apply IH in E; [| rewrite Hs1; exact Hget | exact Hcw |].
      * destruct E as [ops [Hpo [Hr Hw]]]. exists (finalization d ++ ops).
        split; [rewrite Hpo, Hp1, app_assoc; reflexivity |].
        split; [rewrite drawn_rows_app, drawn_rows_finalization; exact Hr |].
        apply Forall_app. split; [apply Hw1 | exact Hw].
      * rewrite table_to_send_length.
        destruct data; [left; reflexivity | right; simpl; lia].
  - rewrite table_to_send_length in E.
    destruct ((p =? 1)%nat && (1 <? List.length data)%nat && header tsd) eqn:Elone.
    + apply andb_true_iff in Elone. destruct Elone as [Elone Hh].
      apply andb_true_iff in Elone. destruct Elone as [Ep1 Elen].
      apply Nat.eqb_eq in Ep1. apply Nat.ltb_lt in Elen. subst p.
      destruct (new_page fuel d) as [d1 | |] eqn:E1; try discriminate.
      cbn [bind] in E. destruct (Hnp _ _ _ E1) as [Hp1 [Hs1 [_ Hw1]]].
      assert (Hne : (1 =? List.length data)%nat = false)
        by (apply Nat.eqb_neq; lia).
      rewrite Hne, Hh in E. cbn [negb] in E.
      destruct data as [| row0 rest]; [discriminate |].
      cbn [skipn] in E.
      apply Hrec in E; [| rewrite Hs1; exact Hget].
      destruct E as [ops [Hpo [Hr Hw]]]. exists (finalization d ++ ops).
      split; [rewrite Hpo, Hp1, app_assoc; reflexivity |].
      split; [rewrite drawn_rows_app, drawn_rows_finalization; exact Hr |].
      apply Forall_app. split; [apply Hw1 | exact Hw].
    + cbn [bind] in E.
      set (op := DrawTable (firstn p (table_to_send tsd wrap data)) cw
                   (generate_table tsd)
                   (if String.eqb position "default" then margin_left d
                    else (width d - w_table) / 2)
                   (height d - margin_top d - current_height d - h_table)) in E.
      set (d1 := set_current_height _ (draw op d)) in E.
      assert (Hp1 : page d1 = page d ++ [op]) by reflexivity.
      assert (Hs1 : table_style_list d1 = table_style_list d) by reflexivity.
      assert (Hop : table_widths_are cw op) by reflexivity.
      destruct (p =? List.length data)%nat eqn:Epl; cbn [negb] in E.
      * injection E as <-. apply Nat.eqb_eq in Epl. subst p.
        exists [op]. split; [exact Hp1 |]. split; [| repeat constructor; exact Hop].
        unfold drawn_rows. cbn [flat_map]. rewrite app_nil_r. subst op.
        cbn [slice_body]. rewrite <- (table_to_send_length tsd wrap data).
        rewrite firstn_all. reflexivity.
      * apply Nat.eqb_neq in Epl.
        destruct Hp as [-> | Hp1'].
        { (* no rows: the pointer is 0 or the rest is empty *)
          assert (Hbody : drawn_rows (header tsd) [op] = []).
          { unfold drawn_rows. cbn [flat_map]. subst op. cbn [slice_body].
            replace (table_to_send tsd wrap []) with (@nil (list cell))
              by (destruct wrap; reflexivity).
            rewrite firstn_nil. destruct (header tsd); reflexivity. }
          destruct (header tsd) eqn:Hh; [discriminate |].
          cbn [skipn] in E. rewrite skipn_nil in E.
          apply Hrec in E; [| rewrite Hs1; exact Hget].
          destruct E as [ops [Hpo [Hr Hw]]]. exists ([op] ++ ops).
          split; [rewrite Hpo, Hp1, app_assoc; reflexivity |].
          split; [rewrite drawn_rows_app, Hbody; exact Hr |].
          apply Forall_app. split; [repeat constructor; exact Hop | exact Hw]. }
        destruct (header tsd) eqn:Hh.
        -- destruct data as [| row0 rest]; [discriminate |].
           apply Hrec in E; [| rewrite Hs1; exact Hget].
           destruct E as [ops [Hpo [Hr Hw]]]. exists ([op] ++ ops).
           split; [rewrite Hpo, Hp1, app_assoc; reflexivity |].
           split; [| apply Forall_app; split;
                     [repeat constructor; exact Hop | exact Hw]].
           rewrite drawn_rows_app, Hr. unfold drawn_rows at 1.
           cbn [flat_map]. rewrite app_nil_r. subst op. cbn [slice_body].
           unfold table_body. rewrite Hh.
           rewrite tl_firstn by exact Hp1'.
           rewrite !table_to_send_cons_tl, body_to_send_firstn.
           rewrite <- body_to_send_app. f_equal.
           destruct p as [| p]; [lia |]. cbn [skipn Nat.sub].
           rewrite Nat.sub_0_r. apply firstn_skipn.
        -- apply Hrec in E; [| rewrite Hs1; exact Hget].
           destruct E as [ops [Hpo [Hr Hw]]]. exists ([op] ++ ops).
           split; [rewrite Hpo, Hp1, app_assoc; reflexivity |].
           split; [| apply Forall_app; split;
                     [repeat constructor; exact Hop | exact Hw]].
           rewrite drawn_rows_app, Hr. unfold drawn_rows at 1.
           cbn [flat_map]. rewrite app_nil_r. subst op. cbn [slice_body].
           unfold table_body. rewrite Hh.
           rewrite !table_to_send_no_header by exact Hh.
           rewrite body_to_send_firstn, <- body_to_send_app.
           f_equal. apply firstn_skipn.
Qed.

Lemma resolve_col_widths_resolved cw data d cw' :
  resolve_col_widths cw data d = inr cw' -> cw' <> WidthsUniform.
Proof.
  destruct cw; cbn; try (intros H; injection H as <-; discriminate).
  destruct data as [| row0 rest]; [discriminate |].
  destruct (List.length row0 =? 0)%nat; [discriminate |].
  intros H; injection H as <-; discriminate.
Qed.

(** What a call of [add_table] that returns has drawn. *)
Lemma add_table_draws_rows
        fuel data cw style position wrap d d' tsd :
  dict_get style (table_style_list d) = Some tsd ->
  add_table fuel data cw style position wrap d = Ok d' ->
  exists ops,
    page d' = page d ++ ops /\
    drawn_rows (header tsd) ops = table_body tsd wrap data.
Proof.
  intros Hget E. unfold add_table, add_table_with in E.
  assert (Hv : exists d1 ops0,
             verify_page_break_with (new_page fuel) d = Ok d1 /\
             page d1 = page d ++ ops0 /\ drawn_rows (header tsd) ops0 = [] /\
             table_style_list d1 = table_style_list d).
  { unfold verify_page_break_with in *. destruct (overflows d).
    - destruct (new_page fuel d) as [d1 | |] eqn:E1; try discriminate.
      apply new_page_Ok in E1. destruct E1 as [Hp [Hc _]].
      exists d1, (finalization d). split; [reflexivity |].
      split; [exact Hp |]. split; [apply drawn_rows_finalization | apply Hc].
    - exists d, []. rewrite app_nil_r. repeat split. }
  destruct Hv as [d1 [ops0 [Ev [Hp1 [Hr1 Hs1]]]]].
  rewrite Ev in E. cbn [bind] in E. rewrite Hs1, Hget in E.
  destruct (if wrap then wrap_error tsd data else None); [discriminate |].
  destruct (resolve_col_widths cw data d1) as [e | cw'] eqn:Er; [discriminate |].
  apply (add_table_loop_draws_all fuel style position wrap tsd) in E.
  - destruct E as [ops [Hp [Hr _]]]. exists (ops0 ++ ops).
    split; [rewrite Hp, Hp1, app_assoc; reflexivity |].
    rewrite drawn_rows_app, Hr1. exact Hr.
  - rewrite Hs1. exact Hget.
  - eapply resolve_col_widths_resolved. exact Er.
  - destruct data; [left; reflexivity | right; simpl; lia].
Qed.

(** X15.  A call of [add_table] that returns has drawn every row once and in
    order: the slices that it has put on the canvas, one after the other and
    without the header row that a style with a header repeats on each of
    them, are the rows of the table (wrapped when [wrap] is set). *)
Theorem add_table_draws_every_row_once
        fuel data cw style position wrap d d' tsd :
  dict_get style (table_style_list d) = Some tsd ->
  add_table fuel data cw style position wrap d = Ok d' ->
  exists ops,
    page d' = page d ++ ops /\
    drawn_rows (header tsd) ops = table_body tsd wrap data.
Proof.
  apply add_table_draws_rows.
Qed.



(** *** Page numbers *)

Lemma finalization_numbered d d1 st :
  same_config d d1 ->
  page_count d1 = true ->
  dict_get "page_number" (style_list d) = Some st ->
  template_images d = [] ->
  finalization d1 = [number_op d st (page_number d1); SaveState; ShowPage].
Proof.
  intros Hc Hpc Hget Htpl. unfold finalization, page_number_ops, number_op.
  assert (Hsl : style_list d1 = style_list d) by apply Hc.
  assert (Ht : template_images d1 = template_images d) by apply Hc.
  assert (Hw : width d1 = width d) by apply Hc.
  assert (Hh : height d1 = height d) by apply Hc.
  assert (Hmb : margin_bottom d1 = margin_bottom d) by apply Hc.
  rewrite Hpc, Hsl, Hget, Ht, Htpl, Hw, Hh, Hmb. reflexivity.
Qed.

Lemma numbered_pages_ext d1 d2 st m k :
  width d1 = width d2 -> height d1 = height d2 ->
  margin_bottom d1 = margin_bottom d2 ->
  numbered_pages d1 st m k = numbered_pages d2 st m k.
Proof.
  intros Hw Hh Hmb. revert m. induction k as [| k IH]; intros m; [reflexivity |].
  cbn [numbered_pages]. unfold number_op. rewrite Hw, Hh, Hmb, IH. reflexivity.
Qed.

Lemma new_pages_numbered fuel d st :
  dict_get "page_number" (style_list d) = Some st ->
  template_images d = [] ->
  forall k d1,
    same_config d d1 -> page_count d1 = true ->
    exists d',
      run_commands (S fuel) (repeat CmdNewPage k) d1 = Ok d' /\
      page d' = page d1 ++ numbered_pages d st (page_number d1) k /\
      page_number d' = (page_number d1 + Z.of_nat k)%Z.
Proof.
  intros Hget Htpl. induction k as [| k IH]; intros d1 Hc Hpc.
  - exists d1. cbn [repeat run_commands numbered_pages].
    rewrite app_nil_r, Z.add_0_r. repeat split.
  - cbn [repeat run_commands run_command].
    assert (Hst1 : page_number_style_ok d1).
    { intros _. replace (style_list d1) with (style_list d)
                 by (symmetry; apply Hc). congruence. }
    assert (Ht1 : template_images d1 = []).
    { replace (template_images d1) with (template_images d)
        by (symmetry; apply Hc). exact Htpl. }
    destruct (new_page_fits fuel d1 Hst1) as [d2 E2]; [rewrite Ht1; exact I |].
    rewrite E2. cbn [bind].
    apply new_page_Ok in E2. destruct E2 as [Hp2 [Hc2 [Hcur2 Hn2]]].
    rewrite Hpc in Hn2.
    destruct (IH d2) as [d' [E' [Hp' Hn']]].
    + eapply same_config_trans; eauto.
    + replace (page_count d2) with (page_count d1) by (symmetry; apply Hc2).
      exact Hpc.
    + exists d'. split; [exact E' |]. split.
      * rewrite Hp', Hp2, Hn2.
        rewrite (finalization_numbered d d1 st Hc Hpc Hget Htpl).
        cbn [numbered_pages]. rewrite <- app_assoc. reflexivity.
      * rewrite Hn', Hn2. lia.
Qed.

(** X18.  Pages are numbered one after the other from the seed: after
    [toggle_page_count(page_number=n, set=True)] on a document without
    template images, [k] calls of [new_page] return and put on the canvas [k]
    pages that carry the numbers [n], [n+1], ..., each number centred
    horizontally at half the bottom margin, and leave the page number at
    [n + k]. *)
Theorem new_pages_are_numbered_consecutively fuel d st n k :
  dict_get "page_number" (style_list d) = Some st ->
  template_images d = [] ->
  (exists d',
      run_commands (S fuel) (repeat CmdNewPage k)
        (toggle_page_count (Some n) (Some true) d) = Ok d' /\
      page d' = page d ++ numbered_pages d st n k /\
      page_number d' = (n + Z.of_nat k)%Z) /\
  (forall m text st' x y,
      number_op d st m = DrawParagraph text st' x y ->
      text = str_of_Z m /\
      x + fst (wrap_paragraph text st' (width d) (height d)) / 2 == width d / 2 /\
      y == margin_bottom d / 2).
Proof.
  intros Hget Htpl. split.
  - set (d0 := toggle_page_count (Some n) (Some true) d).
    destruct (new_pages_numbered fuel d0 st Hget Htpl k d0
                (same_config_refl d0) eq_refl) as [d' [E [Hp Hn]]].
    exists d'. split; [exact E |]. split; [| exact Hn].
    rewrite Hp. f_equal. apply numbered_pages_ext; reflexivity.
  - intros m text st' x y H. unfold number_op in H.
    injection H as <- <- <- <-. split; [reflexivity |]. split; [field | reflexivity].
Qed.

(** *** Table styles *)

(** X19.  The commands that [generate_table] builds from a table style give
    every row the grid, the font and the font size of the style; with
    [header] set the first row gets the header colours and every row below
    it the body colours, without it every row gets the body colours. *)
Theorem generate_table_colours_rows tsd (row : nat) :
  let is_header := header tsd && (row =? 0)%nat in
  let cmds := generate_table tsd in
  row_setting "BACKGROUND" (Z.of_nat row) cmds
  = Some (ArgColor (if is_header then headerColor tsd else backgroundColor tsd)) /\
  row_setting "TEXTCOLOR" (Z.of_nat row) cmds
  = Some (ArgColor (if is_header then headerTextColor tsd else textColor tsd)) /\
  row_setting "GRID" (Z.of_nat row) cmds
  = Some (ArgGrid (gridSize tsd) (gridColor tsd)) /\
  row_setting "FONTNAME" (Z.of_nat row) cmds = Some (ArgName (fontName tsd)) /\
  row_setting "FONTSIZE" (Z.of_nat row) cmds = Some (ArgNum (fontSize tsd)).
Proof.
  cbv zeta.
  assert (H0 : (0 <=? Z.of_nat row)%Z = true) by (apply Z.leb_le; lia).
  assert (H1 : (1 <=? Z.of_nat row)%Z = negb (row =? 0)%nat).
  { destruct row as [| row]; [reflexivity |].
    cbn [Nat.eqb negb]. apply Z.leb_le. lia. }
  destruct tsd as [hd fn fs tc bc gc gs hc htc]. unfold generate_table.
  cbn [header fontName fontSize textColor backgroundColor gridColor gridSize
       headerColor headerTextColor].
  destruct hd; unfold row_setting, cmd_covers_row;
    cbn [app fold_left String.eqb Ascii.eqb Bool.eqb andb orb Z.eqb Pos.eqb];
    rewrite ?H0, ?H1; destruct (row =? 0)%nat; cbn [negb andb orb];
    repeat split.
Qed.



Lemma add_table_enters_loop fuel data cw cw' style position wrap d tsd :
  overflows d = false ->
  dict_get style (table_style_list d) = Some tsd ->
  cells_error tsd wrap data = None ->
  resolve_col_widths cw data d = inr cw' ->
  add_table fuel data cw style position wrap d
  = add_table_loop fuel style position wrap data (table_to_send tsd wrap data)
      cw' tsd (List.length data) d.
Proof.
  intros Hov Hget Hcells Hcw.
  unfold add_table, add_table_with, verify_page_break_with.
  rewrite Hov. cbn [bind]. rewrite Hget.
  unfold cells_error in Hcells. rewrite Hcells, Hcw. reflexivity.
Qed.

Lemma add_table_loop_shrinks style position wrap tsd cw data rows d k :
  (1 <= k)%nat ->
  forall n fuel,
    (forall j, (k < j <= k + n)%nat ->
               table_error (firstn j rows) cw = None /\
               height d - margin_bottom d
               < margin_top d + current_height d
                 + snd (table_size tsd cw (firstn j rows))) ->
    add_table_loop (n + fuel) style position wrap data rows cw tsd (k + n) d
    = add_table_loop fuel style position wrap data rows cw tsd k d.
Proof.
  intros Hk. induction n as [| n IH]; intros fuel Hbig.
  - rewrite Nat.add_0_r. reflexivity.
  - cbn [Nat.add add_table_loop].
    destruct (Hbig (k + S n)%nat ltac:(lia)) as [Herr Hj]. rewrite Herr.
    unfold table_size in Hj.
    destruct (wrap_table (firstn (k + S n) rows) cw (generate_table tsd))
      as [w_table h_table].
    cbn [snd] in Hj. apply Qgt_bool_true in Hj. rewrite Hj.
    assert (E1 : (1 <? k + S n)%nat = true) by (apply Nat.ltb_lt; lia).
    rewrite E1. replace (k + S n - 1)%nat with (k + n)%nat by lia.
    apply IH. intros j Hjr. apply Hbig. lia.
Qed.

(** The step of the loop that draws a slice and hands the rest on. *)
Lemma add_table_loop_draws_slice fuel style position wrap tsd cw data d k :
  (1 <= k < List.length data)%nat ->
  (k = 1%nat -> header tsd = false) ->
  table_error (firstn k (table_to_send tsd wrap data)) cw = None ->
  margin_top d + current_height d
  + snd (table_size tsd cw (firstn k (table_to_send tsd wrap data)))
  <= height d - margin_bottom d ->
  add_table_loop (S fuel) style position wrap data (table_to_send tsd wrap data)
    cw tsd k d
  = add_table fuel (table_rest tsd k data) cw style position wrap
      (set_current_height
         (current_height d
          + snd (table_size tsd cw (firstn k (table_to_send tsd wrap data))))
         (draw (table_at d tsd position cw
                  (firstn k (table_to_send tsd wrap data))) d)).
Proof.
  intros Hk Hhdr Herr Hfit.
  cbn [add_table_loop]. rewrite Herr. unfold table_at, table_size in *.
  destruct (wrap_table (firstn k (table_to_send tsd wrap data)) cw
              (generate_table tsd)) as [w_table h_table].
  cbn [fst snd] in *. apply Qgt_bool_false in Hfit. rewrite Hfit.
  assert (Hlone : (k =? 1)%nat && (1 <? List.length data)%nat && header tsd
                  = false).
  { destruct (k =? 1)%nat eqn:E; [| reflexivity]. apply Nat.eqb_eq in E.
    rewrite (Hhdr E). apply andb_false_r. }
  rewrite Hlone. cbn [bind]. rewrite table_to_send_length.
  assert (Hneq : (k =? List.length data)%nat = false)
    by (apply Nat.eqb_neq; lia).
  rewrite Hneq. cbn [negb]. unfold table_rest, add_table.
  destruct (header tsd); [| reflexivity].
  destruct data as [| row0 data]; [simpl in Hk; lia |]. reflexivity.
Qed.

(** The step of the loop that draws all rows. *)
Lemma add_table_loop_draws_whole fuel style position wrap tsd cw data d :
  table_error (table_to_send tsd wrap data) cw = None ->
  margin_top d + current_height d
  + snd (table_size tsd cw (table_to_send tsd wrap data))
  <= height d - margin_bottom d ->
  add_table_loop (S fuel) style position wrap data (table_to_send tsd wrap data)
    cw tsd (List.length data) d
  = Ok (set_current_height
          (current_height d
           + snd (table_size tsd cw (table_to_send tsd wrap data)))
          (draw (table_at d tsd position cw (table_to_send tsd wrap data)) d)).
Proof.
  intros Herr Hfit.
  assert (Hall : firstn (List.length data) (table_to_send tsd wrap data)
                 = table_to_send tsd wrap data).
  { rewrite <- (table_to_send_length tsd wrap data). apply firstn_all. }
  cbn [add_table_loop]. rewrite !Hall, Herr. unfold table_at, table_size in *.
  destruct (wrap_table (table_to_send tsd wrap data) cw (generate_table tsd))
    as [w_table h_table].
  cbn [fst snd] in *. apply Qgt_bool_false in Hfit. rewrite Hfit.
  assert (Hlone : (List.length data =? 1)%nat
                  && (1 <? List.length data)%nat && header tsd = false).
  { destruct (List.length data =? 1)%nat eqn:E; [| reflexivity].
    apply Nat.eqb_eq in E. rewrite E. reflexivity. }
  rewrite Hlone. cbn [bind]. rewrite table_to_send_length, Nat.eqb_refl.
  cbn [negb]. reflexivity.
Qed.

(** The step of the loop on a header row that fits alone: nothing is drawn,
    the page is finalized, and the table is placed again from its first
    row. *)
Lemma add_table_loop_skips_lone_header fuel style position wrap tsd cw data d :
  header tsd = true -> (1 < List.length data)%nat ->
  table_error (firstn 1 (table_to_send tsd wrap data)) cw = None ->
  margin_top d + current_height d
  + snd (table_size tsd cw (firstn 1 (table_to_send tsd wrap data)))
  <= height d - margin_bottom d ->
  add_table_loop (S fuel) style position wrap data (table_to_send tsd wrap data)
    cw tsd 1 d
  = bind (new_page fuel d) (add_table fuel data cw style position wrap).
Proof.
  intros Hhdr Hlen Herr Hfit.
  cbn [add_table_loop]. rewrite Herr. unfold table_size in Hfit.
  destruct (wrap_table (firstn 1 (table_to_send tsd wrap data)) cw
              (generate_table tsd)) as [w_table h_table].
  cbn [snd] in Hfit. apply Qgt_bool_false in Hfit. rewrite Hfit.
  assert (Hone : (1 <? List.length data)%nat = true) by (apply Nat.ltb_lt; lia).
  rewrite Hone, Hhdr. change (1 =? 1)%nat with true. cbn [andb].
  rewrite table_to_send_length.
  assert (Hneq : (1 =? List.length data)%nat = false)
    by (apply Nat.eqb_neq; lia).
  rewrite Hneq. cbn [negb].
  destruct data as [| row0 rest]; [simpl in Hlen; lia |].
  cbn [skipn]. reflexivity.
Qed.

(** The cut of a table at the largest slice that fits. *)
Lemma add_table_cuts
        fuel data cw cw' style position wrap d tsd k :
  overflows d = false ->
  dict_get style (table_style_list d) = Some tsd ->
  cells_error tsd wrap data = None ->
  resolve_col_widths cw data d = inr cw' ->
  (1 <= k < List.length data)%nat ->
  (k = 1%nat -> header tsd = false) ->
  (forall j, (k <= j <= List.length data)%nat ->
             table_error (firstn j (table_to_send tsd wrap data)) cw' = None) ->
  margin_top d + current_height d
  + snd (table_size tsd cw' (firstn k (table_to_send tsd wrap data)))
  <= height d - margin_bottom d ->
  (forall j, (k < j <= List.length data)%nat ->
             height d - margin_bottom d
             < margin_top d + current_height d
               + snd (table_size tsd cw'
                        (firstn j (table_to_send tsd wrap data)))) ->
  add_table (List.length data - k + S fuel) data cw style position wrap d
  = add_table fuel (table_rest tsd k data) cw' style position wrap
      (set_current_height
         (current_height d
          + snd (table_size tsd cw' (firstn k (table_to_send tsd wrap data))))
         (draw (table_at d tsd position cw'
                  (firstn k (table_to_send tsd wrap data))) d)).
Proof.
  intros Hov Hget Hcells Hcw Hk Hhdr Herr Hfit Hbig.
  rewrite (add_table_enters_loop _ data cw cw' style position wrap d tsd)
    by assumption.
  replace (List.length data) with (k + (List.length data - k))%nat at 2 by lia.
  rewrite (add_table_loop_shrinks style position wrap tsd cw' data
             (table_to_send tsd wrap data) d k ltac:(lia)).
  2:{ intros j Hj. split; [apply Herr | apply Hbig]; lia. }
  apply add_table_loop_draws_slice; try assumption. apply Herr. lia.
Qed.

(** X21.  A table that does not fit is cut at the largest number [k] of
    leading rows that fits between the cursor and the bottom margin (more
    than the header row alone): when reportlab takes the cells and the
    slices that the search builds, these rows are drawn at the cursor, and
    the rest, the header row put in front again under a header style, is
    handed to a new call of [add_table] with the column widths already
    resolved and no page break in between. *)
Theorem add_table_cuts_at_largest_slice
        fuel data cw cw' style position wrap d tsd k :
  overflows d = false ->
  dict_get style (table_style_list d) = Some tsd ->
  cells_error tsd wrap data = None ->
  resolve_col_widths cw data d = inr cw' ->
  (1 <= k < List.length data)%nat ->
  (k = 1%nat -> header tsd = false) ->
  (forall j, (k <= j <= List.length data)%nat ->
             table_error (firstn j (table_to_send tsd wrap data)) cw' = None) ->
  margin_top d + current_height d
  + snd (table_size tsd cw' (firstn k (table_to_send tsd wrap data)))
  <= height d - margin_bottom d ->
  (forall j, (k < j <= List.length data)%nat ->
             height d - margin_bottom d
             < margin_top d + current_height d
               + snd (table_size tsd cw'
                        (firstn j (table_to_send tsd wrap data)))) ->
  add_table (List.length data - k + S fuel) data cw style position wrap d
  = add_table fuel (table_rest tsd k data) cw' style position wrap
      (set_current_height
         (current_height d
          + snd (table_size tsd cw' (firstn k (table_to_send tsd wrap data))))
         (draw (table_at d tsd position cw'
                  (firstn k (table_to_send tsd wrap data))) d)).
Proof.
  apply add_table_cuts.
Qed.

(** *** A table and an image on a page that is exactly full *)

Lemma table_at_after_new_page d d1 tsd position cw rows :
  same_config d d1 -> current_height d1 = 0 ->
  table_at d1 tsd position cw rows
  = table_at (set_current_height 0 d) tsd position cw rows.
Proof.
  intros Hc Hcur. unfold table_at.
  cbn [margin_left width height margin_top current_height set_current_height].
  assert (Hw : width d1 = width d) by apply Hc.
  assert (Hh : height d1 = height d) by apply Hc.
  assert (Hmt : margin_top d1 = margin_top d) by apply Hc.
  assert (Hml : margin_left d1 = margin_left d) by apply Hc.
  rewrite Hw, Hh, Hmt, Hml, Hcur. reflexivity.
Qed.

(** A table of which nothing fits in what is left of the page: the page is
    finalized, and the largest slice that fits on an empty page is drawn at
    the top of the next one. *)
Lemma add_table_breaks_page fuel data cw cw' style position wrap tsd d k :
  overflows d = false -> page_number_style_ok d ->
  replay_fits d (current_height d) (template_images d) ->
  dict_get style (table_style_list d) = Some tsd ->
  cells_error tsd wrap data = None ->
  resolve_col_widths cw data d = inr cw' ->
  (1 <= k <= List.length data)%nat ->
  (k = 1%nat -> header tsd = false \/ List.length data = 1%nat) ->
  (forall j, (1 <= j <= List.length data)%nat ->
             table_error (firstn j (table_to_send tsd wrap data)) cw' = None /\
             height d - margin_bottom d
             < margin_top d + current_height d
               + snd (table_size tsd cw'
                        (firstn j (table_to_send tsd wrap data)))) ->
  margin_top d
  + snd (table_size tsd cw' (firstn k (table_to_send tsd wrap data)))
  <= height d - margin_bottom d ->
  (forall j, (k < j <= List.length data)%nat ->
             height d - margin_bottom d
             < margin_top d
               + snd (table_size tsd cw'
                        (firstn j (table_to_send tsd wrap data)))) ->
  (2 * List.length data + 1 <= fuel)%nat ->
  exists ops,
    page (state_of (add_table fuel data cw style position wrap d))
    = page d ++ finalization d
      ++ table_at (set_current_height 0 d) tsd position cw'
           (firstn k (table_to_send tsd wrap data)) :: ops /\
    (k = List.length data ->
     ops = [] /\
     exists d', add_table fuel data cw style position wrap d = Ok d').
Proof.
  intros Hfull Hst Hrep Hget Hcells Hcw Hk Hlone Hpos Hfit Hbig Hfuel.
  set (rows := table_to_send tsd wrap data) in *.
  set (len := List.length data) in *.
  set (f1 := (fuel - len - 1)%nat).
  set (f2 := (f1 - (len - k))%nat).
  destruct (new_page_fits_result f1 d Hst Hrep) as [d1 [E1 [Hp1 [Hc1 Hcur1]]]].
  assert (Hh1 : height d1 = height d) by apply Hc1.
  assert (Hmt1 : margin_top d1 = margin_top d) by apply Hc1.
  assert (Hmb1 : margin_bottom d1 = margin_bottom d) by apply Hc1.
  assert (Hrun : add_table fuel data cw style position wrap d
                 = add_table_loop (S f2) style position wrap data rows cw' tsd
                     k d1).
  { remember (add_table_loop (S f2) style position wrap data rows cw' tsd k d1)
      as R eqn:HR.
    rewrite (add_table_enters_loop fuel data cw cw' style position wrap d tsd);
      [| exact Hfull | exact Hget | exact Hcells | exact Hcw].
    fold rows. fold len.
    remember (S f1) as g eqn:Hg.
    pose proof (add_table_loop_shrinks style position wrap tsd cw' data rows d
                  1 ltac:(lia) (len - 1) (S g)) as S1.
    replace (1 + (len - 1))%nat with len in S1 by lia.
    replace (len - 1 + S g)%nat with fuel in S1 by (subst g f1; lia).
    rewrite S1.
    2:{ intros j Hj. apply Hpos. lia. }
    cbn [add_table_loop].
    destruct (Hpos 1%nat ltac:(lia)) as [He Hh]. rewrite He.
    unfold table_size in Hh.
    destruct (wrap_table (firstn 1 rows) cw' (generate_table tsd))
      as [w_table h_table].
    cbn [snd] in Hh. apply Qgt_bool_true in Hh. rewrite Hh.
    change (1 <? 1)%nat with false. cbv iota.
    rewrite E1. cbn [bind].
    replace (List.length rows) with len
      by (subst rows len; symmetry; apply table_to_send_length).
    subst g.
    pose proof (add_table_loop_shrinks style position wrap tsd cw' data rows d1
                  k ltac:(lia) (len - k) (S f2)) as S2.
    replace (k + (len - k))%nat with len in S2 by lia.
    replace (len - k + S f2)%nat with (S f1) in S2 by (subst f2 f1; lia).
    rewrite S2; [symmetry; exact HR |].
    intros j Hj. destruct (Hpos j ltac:(lia)) as [He' _]. split; [exact He' |].
    rewrite Hh1, Hmt1, Hmb1, Hcur1.
    pose proof (Hbig j ltac:(lia)). lra. }
  assert (Hfit1 : margin_top d1 + current_height d1
                  + snd (table_size tsd cw' (firstn k rows))
                  <= height d1 - margin_bottom d1).
  { rewrite Hh1, Hmt1, Hmb1, Hcur1. lra. }
  destruct (Hpos k ltac:(lia)) as [Hek _].
  rewrite Hrun. clear Hrun. subst f2 f1 rows len.
  set (f2 := (fuel - List.length data - 1 - (List.length data - k))%nat).
  destruct (Nat.eq_dec k (List.length data)) as [Heq | Hneq].
  - subst k.
    assert (Hall : firstn (List.length data) (table_to_send tsd wrap data)
                   = table_to_send tsd wrap data).
    { rewrite <- (table_to_send_length tsd wrap data) at 1. apply firstn_all. }
    rewrite Hall in *.
    rewrite (add_table_loop_draws_whole f2 style position wrap tsd cw' data d1);
      [| exact Hek | exact Hfit1].
    exists []. split.
    + cbn [state_of page set_current_height draw set_page].
      rewrite Hp1, <- app_assoc.
      rewrite (table_at_after_new_page d d1) by assumption. reflexivity.
    + intros _. split; [reflexivity |]. eexists. reflexivity.
  - rewrite (add_table_loop_draws_slice f2 style position wrap tsd cw' data d1 k);
      [| lia | | exact Hek | exact Hfit1].
    + match goal with
      | |- context [add_table f2 ?rest cw' style position wrap ?d2] =>
          pose proof (add_table_evolves (fun _ => True) f2 rest cw' style
                        position wrap d2 (fun _ _ => I) (fun _ _ => I)) as Hev
      end.
      apply evolves_page in Hev. destruct Hev as [ops [Hp _]].
      exists ops. split; [| intros Hkl; lia].
      rewrite Hp. cbn [page set_current_height draw set_page].
      rewrite Hp1, <- !app_assoc.
      rewrite (table_at_after_new_page d d1) by assumption. reflexivity.
    + intros Hk1. destruct (Hlone Hk1) as [Hh | Hl]; [exact Hh | lia].
Qed.





(** C2.  A table of more than one row placed with a style that marks a
    header.  Whatever the fuel and the outcome, every table slice that the
    call has put on the canvas starts with the header row and has at least
    one more row.  A call that returns has drawn every row below the header
    once and in order, over its slices.  When the first [k] rows (two or
    more) fit on the page and no more do, the call draws them and goes on
    with the header row followed by the rows from the [k]-th on: the slice on
    the continuation page begins with the header row again.  When the header
    row alone is all that fits, nothing is drawn on the page: the page is
    finalized and the table is placed again from its header row.  And when,
    after the first [k] rows, nothing of the header row and the rest fits in
    what is left of the page while they fit on an empty page, the call
    returns with two slices on the canvas, the second after the finalization
    of the page, both beginning with the header row. *)
Theorem add_table_repeats_header_never_alone
        fuel data cw style position wrap d tsd :
  dict_get style (table_style_list d) = Some tsd ->
  header tsd = true ->
  (1 < List.length data)%nat ->
  (exists ops,
      page (state_of (add_table fuel data cw style position wrap d))
      = page d ++ ops /\
      Forall (table_slice_ok (header_row tsd wrap data)) ops) /\
  (forall d',
      add_table fuel data cw style position wrap d = Ok d' ->
      exists ops,
        page d' = page d ++ ops /\
        drawn_rows true ops = tl (table_to_send tsd wrap data)) /\
  (forall cw' k,
      overflows d = false ->
      cells_error tsd wrap data = None ->
      resolve_col_widths cw data d = inr cw' ->
      (2 <= k < List.length data)%nat ->
      (forall j, (k <= j <= List.length data)%nat ->
                 table_error (firstn j (table_to_send tsd wrap data)) cw' = None) ->
      margin_top d + current_height d
      + snd (table_size tsd cw' (firstn k (table_to_send tsd wrap data)))
      <= height d - margin_bottom d ->
      (forall j, (k < j <= List.length data)%nat ->
                 height d - margin_bottom d
                 < margin_top d + current_height d
                   + snd (table_size tsd cw'
                            (firstn j (table_to_send tsd wrap data)))) ->
      add_table (List.length data - k + S fuel) data cw style position wrap d
      = add_table fuel (firstn 1 data ++ skipn k data) cw' style position wrap
          (set_current_height
             (current_height d
              + snd (table_size tsd cw'
                       (firstn k (table_to_send tsd wrap data))))
             (draw (table_at d tsd position cw'
                      (firstn k (table_to_send tsd wrap data))) d))) /\
  (forall cw',
      overflows d = false ->
      cells_error tsd wrap data = None ->
      resolve_col_widths cw data d = inr cw' ->
      (forall j, (1 <= j <= List.length data)%nat ->
                 table_error (firstn j (table_to_send tsd wrap data)) cw' = None) ->
      margin_top d + current_height d
      + snd (table_size tsd cw' (firstn 1 (table_to_send tsd wrap data)))
      <= height d - margin_bottom d ->
      (forall j, (1 < j <= List.length data)%nat ->
                 height d - margin_bottom d
                 < margin_top d + current_height d
                   + snd (table_size tsd cw'
                            (firstn j (table_to_send tsd wrap data)))) ->
      add_table (List.length data - 1 + S fuel) data cw style position wrap d
      = bind (new_page fuel d) (add_table fuel data cw' style position wrap)) /\
  (forall cw' k,
      overflows d = false ->
      cells_error tsd wrap data = None ->
      resolve_col_widths cw data d = inr cw' ->
      (2 <= k < List.length data)%nat ->
      (forall j, (k <= j <= List.length data)%nat ->
                 table_error (firstn j (table_to_send tsd wrap data)) cw' = None) ->
      margin_top d + current_height d
      + snd (table_size tsd cw' (firstn k (table_to_send tsd wrap data)))
      <= height d - margin_bottom d ->
      (forall j, (k < j <= List.length data)%nat ->
                 height d - margin_bottom d
                 < margin_top d + current_height d
                   + snd (table_size tsd cw'
                            (firstn j (table_to_send tsd wrap data)))) ->
      forall rest d1,
        rest = firstn 1 data ++ skipn k data ->
        d1 = slice_drawn d tsd position cw'
               (firstn k (table_to_send tsd wrap data)) ->
        page_number_style_ok d ->
        replay_fits d1 (current_height d1) (template_images d1) ->
        cells_error tsd wrap rest = None ->
        (forall j, (1 <= j <= List.length rest)%nat ->
                   table_error (firstn j (table_to_send tsd wrap rest)) cw' = None /\
                   height d - margin_bottom d
                   < margin_top d + current_height d1
                     + snd (table_size tsd cw'
                              (firstn j (table_to_send tsd wrap rest)))) ->
        margin_top d + snd (table_size tsd cw' (table_to_send tsd wrap rest))
        <= height d - margin_bottom d ->
        (2 * List.length rest + 1 <= fuel)%nat ->
        exists d',
          add_table (List.length data - k + S fuel) data cw style position wrap d
          = Ok d' /\
          page d' = page d
                    ++ [table_at d tsd position cw'
                          (firstn k (table_to_send tsd wrap data))]
                    ++ finalization d1
                    ++ [table_at (set_current_height 0 d1) tsd position cw'
                          (table_to_send tsd wrap rest)] /\
          hd_error (table_to_send tsd wrap rest)
          = hd_error (table_to_send tsd wrap data)).
Proof.
  intros Hget Hhdr Hlen. split; [| split; [| split; [| split]]].
  - apply add_table_slices_have_header; assumption.
  - intros d' E.
    destruct (add_table_draws_rows fuel data cw style position wrap d d' tsd
                Hget E) as [ops [Hp Hr]].
    exists ops. split; [exact Hp |].
    rewrite Hhdr in Hr. rewrite Hr. unfold table_body. rewrite Hhdr. reflexivity.
  - intros cw' k Hov Hcells Hcw Hk Herr Hfit Hbig.
    rewrite (add_table_cuts fuel data cw cw' style position wrap d tsd k);
      try assumption; [| lia | lia].
    unfold table_rest. rewrite Hhdr. reflexivity.
  - intros cw' Hov Hcells Hcw Herr Hfit Hbig.
    rewrite (add_table_enters_loop _ data cw cw' style position wrap d tsd)
      by assumption.
    replace (List.length data) with (1 + (List.length data - 1))%nat at 2 by lia.
    rewrite (add_table_loop_shrinks style position wrap tsd cw' data
               (table_to_send tsd wrap data) d 1 ltac:(lia)).
    2:{ intros j Hj. split; [apply Herr | apply Hbig]; lia. }
    apply add_table_loop_skips_lone_header; try assumption. apply Herr. lia.
  - intros cw' k Hov Hcells Hcw Hk Herr Hfit Hbig rest d1 Hrest Hd1 Hst Hrep
           Hcells' Hover Hwhole Hfuel.
    rewrite (add_table_cuts fuel data cw cw' style position wrap d tsd k);
      try assumption; [| lia | lia].
    unfold table_rest. rewrite Hhdr.
    fold (slice_drawn d tsd position cw'
            (firstn k (table_to_send tsd wrap data))).
    rewrite <- Hrest, <- Hd1.
    assert (Hall : firstn (List.length rest) (table_to_send tsd wrap rest)
                   = table_to_send tsd wrap rest).
    { rewrite <- (table_to_send_length tsd wrap rest) at 1. apply firstn_all. }
    assert (Hne : cw' <> WidthsUniform)
      by (eapply resolve_col_widths_resolved; exact Hcw).
    assert (Hlen' : (1 <= List.length rest)%nat).
    { subst rest. destruct data as [| row0 data]; [simpl in Hlen; lia |].
      cbn [firstn app List.length]. lia. }
    destruct (add_table_breaks_page fuel rest cw' cw' style position wrap tsd d1
                (List.length rest)) as [ops [Hp Hdone]].
    + subst d1. unfold slice_drawn, overflows.
      cbn [current_height margin_top margin_bottom height set_current_height
           draw set_page].
      apply Qgt_bool_false. lra.
    + subst d1. exact Hst.
    + exact Hrep.
    + subst d1. exact Hget.
    + exact Hcells'.
    + destruct cw'; try reflexivity. congruence.
    + lia.
    + intros H1. right. exact H1.
    + intros j Hj. destruct (Hover j Hj) as [He Hh]. split; [exact He |].
      subst d1. exact Hh.
    + rewrite Hall. subst d1. exact Hwhole.
    + intros j Hj. lia.
    + exact Hfuel.
    + destruct (Hdone eq_refl) as [-> [d' E]]. exists d'.
      split; [exact E |]. rewrite E in Hp. cbn [state_of] in Hp.
      rewrite Hall in Hp. split.
      * rewrite Hp. subst d1. unfold slice_drawn at 1.
        cbn [page set_current_height draw set_page].
        rewrite <- !app_assoc. reflexivity.
      * subst rest. unfold table_to_send, wrap_cells.
        destruct data as [| row0 data]; [simpl in Hlen; lia |].
        destruct wrap; reflexivity.
Qed.

End Engine.

(** ** The engine on concrete documents

    The documents are measured with [one_word_per_line], [fixed_row_height]
    and [example_png]. *)

(** C1.  The text ["A B C D E"] on a page with room for three lines: the
    call returns, ["A B C"] is drawn, the page is finalized, and the text
    placed on the next page is the empty text.  The words [D] and [E] are
    drawn nowhere: [add_section] has overwritten [text] with the candidate
    that fits, so [text.split(' ')[pointer+1:]] is empty. *)
Theorem add_section_loses_words_after_cut :
  exists d',
    add_section one_word_per_line example_png markup_error 20 "A B C D E"
      "paragraph"
      page_with_three_lines_left = Ok d' /\
    page d' =
    [DrawParagraph "A B C" (mkParagraphStyle "Paragraph" "Helvetica" 12 4 12
      black)
       72 76;
     SaveState; ShowPage;
     DrawParagraph "" (mkParagraphStyle "Paragraph" "Helvetica" 12 4 12 black)
       72 720].
Proof.
  eexists. split; vm_compute; reflexivity.
Qed.

(** C5.  The text ["A B"] on a page with 5 points left, less than a line:
    the search reaches [pointer = 0] with the candidate ["A"], the page is
    finalized, and the placement goes on with the candidate ["A"], not with
    ["A B"]: the word [B] is drawn nowhere. *)
Theorem add_section_restarts_with_first_word :
  exists d',
    add_section one_word_per_line example_png markup_error 20 "A B" "paragraph"
      page_with_no_line_left = Ok d' /\
    page d' =
    [SaveState; ShowPage;
     DrawParagraph "A" (mkParagraphStyle "Paragraph" "Helvetica" 12 4 12 black)
       72 708].
Proof.
  eexists. split; vm_compute; reflexivity.
Qed.

(** C7.  [add_image] with a scale of 0 on a document whose cursor is below
    the bottom margin: the page-break check comes first and finalizes the
    page, then [ValueError] is raised; the canvas and the cursor are not
    what they were before the call. *)
Theorem add_image_fails_after_page_break :
  exists msg d',
    add_image one_word_per_line example_png 5 "Example.png" 0 1 1 "default"
      0 0 "left" "top" overfull_page = Raise (ValueError msg) d' /\
    page overfull_page = [] /\ current_height overfull_page = 700 /\
    page d' = [SaveState; ShowPage] /\ current_height d' = 0.
Proof.
  eexists. eexists. repeat split; vm_compute; reflexivity.
Qed.

(** C3, counterexample.  An image placed in absolute mode on the empty
    default document moves the cursor from 0 to 50, the height of the
    image. *)
Lemma add_image_absolute_moves_cursor :
  exists d',
    add_image one_word_per_line example_png 1 "Example.png" 1 1 1 "absolute"
      0 0 "left" "top" default_document = Ok d' /\
    current_height default_document == 0 /\
    current_height d' == 50 /\
    ~ current_height d' == current_height default_document.
Proof.
  eexists. split; [vm_compute; reflexivity |].
  repeat split; vm_compute; discriminate.
Qed.

Lemma add_image_advances_cursor_witness :
  add_image one_word_per_line example_png 1 "Example.png" 1 1 1 "absolute"
    0 0 "left" "top" default_document =
  Ok (image_drawn default_document "Example.png" 100 50 1 1 1 "absolute" 0 0
        "left" "top") /\
  exists iw ih x y ops,
    example_png "Example.png" = Some (iw, ih) /\
    page (image_drawn default_document "Example.png" 100 50 1 1 1 "absolute" 0 0
            "left" "top") =
    ops ++ [DrawImage "Example.png" x y (inject_Z iw * (1 * 1))
                                        (inject_Z ih * (1 * 1))] /\
    current_height (image_drawn default_document "Example.png" 100 50 1 1 1
                      "absolute" 0 0 "left" "top") =
    (if overflows default_document then 0 else current_height default_document)
    + inject_Z ih * (1 * 1).
Proof.
  split; [reflexivity |].
  apply (add_image_advances_cursor_in_every_mode one_word_per_line example_png 1
           "Example.png" 1 1 1 "absolute" 0 0 "left" "top" default_document).
  reflexivity.
Defined.

(** C4, counterexample.  Numbering on, one template image: on the canvas the
    page number comes first, the template image after it. *)
Lemma new_page_draws_number_before_templates :
  exists d' st x y ix iy iw ih,
    new_page one_word_per_line example_png 1 numbered_with_watermark = Ok d' /\
    page d' = [DrawParagraph "1" st x y; DrawImage "Example.png" ix iy iw ih;
               SaveState; ShowPage].
Proof.
  do 8 eexists. split; vm_compute; reflexivity.
Qed.

Lemma new_page_draws_number_then_templates_witness :
  page_number_style_ok numbered_with_two_templates /\
  replay_fits example_png numbered_with_two_templates
    (current_height numbered_with_two_templates)
    (template_images numbered_with_two_templates) /\
  exists d',
    new_page one_word_per_line example_png 1 numbered_with_two_templates = Ok d'
      /\
    page d' = page numbered_with_two_templates
              ++ page_number_ops one_word_per_line numbered_with_two_templates
              ++ map (fun kv => template_op example_png
                numbered_with_two_templates
                                  (snd kv))
                   (template_images numbered_with_two_templates)
              ++ [SaveState; ShowPage].
Proof.
  assert (Hst : page_number_style_ok numbered_with_two_templates)
    by (intros _; discriminate).
  assert (Hfit : replay_fits example_png numbered_with_two_templates
                   (current_height numbered_with_two_templates)
                   (template_images numbered_with_two_templates)).
  { repeat split; try (vm_compute; reflexivity); vm_compute; discriminate. }
  split; [exact Hst |]. split; [exact Hfit |].
  exact (new_page_draws_number_then_templates one_word_per_line example_png 0
           numbered_with_two_templates Hst Hfit).
Defined.

(** C8, counterexample.  A negative height moves the cursor up: from 608 to
    603 with [add_space(-5)]. *)
Lemma add_space_negative_moves_cursor :
  -5 <= 0 /\
  current_height page_with_three_lines_left == 608 /\
  current_height (add_space (-5) page_with_three_lines_left) == 603 /\
  ~ current_height (add_space (-5) page_with_three_lines_left)
    == current_height page_with_three_lines_left.
Proof.
  repeat split; vm_compute; discriminate.
Qed.



Lemma add_table_repeats_header_witness :
  dict_get "table" (table_style_list page_with_two_rows_left)
  = Some default_table_style /\
  (1 < List.length example_table)%nat /\
  (exists ops,
      page (state_of
              (add_table one_word_per_line fixed_row_height example_png
                 plain_repr markup_error empty_table_error 9 example_table
                 WidthsNone "table" "center" true page_with_two_rows_left))
      = page page_with_two_rows_left ++ ops /\
      Forall (table_slice_ok
                (header_row plain_repr default_table_style true example_table))
        ops) /\
  add_table one_word_per_line fixed_row_height example_png plain_repr
    markup_error empty_table_error 9 example_table WidthsNone "table" "center"
    true page_with_two_rows_left
  = add_table one_word_per_line fixed_row_height example_png plain_repr
      markup_error empty_table_error 6
      (firstn 1 example_table ++ skipn 2 example_table) WidthsNone "table"
      "center" true
      (set_current_height
         (current_height page_with_two_rows_left
          + snd (table_size fixed_row_height default_table_style WidthsNone
                   (firstn 2 (table_to_send plain_repr default_table_style true
                                example_table))))
         (draw (table_at fixed_row_height page_with_two_rows_left
                  default_table_style "center" WidthsNone
                  (firstn 2 (table_to_send plain_repr default_table_style true
                               example_table)))
            page_with_two_rows_left)) /\
  (exists d',
      add_table one_word_per_line fixed_row_height example_png plain_repr
        markup_error empty_table_error 10 example_table WidthsNone "table"
        "center" true page_with_two_rows_left = Ok d' /\
      page d'
      = page page_with_two_rows_left
        ++ [table_at fixed_row_height page_with_two_rows_left
              default_table_style "center" WidthsNone
              (firstn 2 (table_to_send plain_repr default_table_style true
                           example_table))]
        ++ finalization one_word_per_line example_png
             (slice_drawn fixed_row_height page_with_two_rows_left
                default_table_style "center" WidthsNone
                (firstn 2 (table_to_send plain_repr default_table_style true
                             example_table)))
        ++ [table_at fixed_row_height
              (set_current_height 0
                 (slice_drawn fixed_row_height page_with_two_rows_left
                    default_table_style "center" WidthsNone
                    (firstn 2 (table_to_send plain_repr default_table_style true
                                 example_table))))
              default_table_style "center" WidthsNone
              (table_to_send plain_repr default_table_style true
                 (firstn 1 example_table ++ skipn 2 example_table))]).
Proof.
  split; [reflexivity |]. split; [simpl; lia |].
  destruct (add_table_repeats_header_never_alone one_word_per_line
              fixed_row_height example_png plain_repr markup_error
              empty_table_error 9 example_table WidthsNone "table" "center" true
              page_with_two_rows_left default_table_style eq_refl eq_refl
              ltac:(simpl; lia)) as [Hsafe _].
  split; [exact Hsafe |].
  destruct (add_table_repeats_header_never_alone one_word_per_line
              fixed_row_height example_png plain_repr markup_error
              empty_table_error 6 example_table WidthsNone "table" "center" true
              page_with_two_rows_left default_table_style eq_refl eq_refl
              ltac:(simpl; lia)) as [_ [_ [Hcut _]]].
  assert (Hov : overflows page_with_two_rows_left = false)
    by (vm_compute; reflexivity).
  assert (Hcells : cells_error plain_repr markup_error default_table_style true
                     example_table = None) by (vm_compute; reflexivity).
  assert (Herr : forall j, (2 <= j <= List.length example_table)%nat ->
                   empty_table_error
                     (firstn j (table_to_send plain_repr default_table_style
                       true
                                  example_table)) WidthsNone = None).
  { intros j Hj. simpl in Hj.
    assert (Hcases : j = 2%nat \/ j = 3%nat \/ j = 4%nat) by lia.
    destruct Hcases as [-> | [-> | ->]]; vm_compute; reflexivity. }
  assert (Hfit : margin_top page_with_two_rows_left
                 + current_height page_with_two_rows_left
                 + snd (table_size fixed_row_height default_table_style
                          WidthsNone
                          (firstn 2 (table_to_send plain_repr
                            default_table_style
                                       true example_table)))
                 <= height page_with_two_rows_left
                    - margin_bottom page_with_two_rows_left)
    by (vm_compute; discriminate).
  assert (Hbig : forall j, (2 < j <= List.length example_table)%nat ->
                   height page_with_two_rows_left
                   - margin_bottom page_with_two_rows_left
                   < margin_top page_with_two_rows_left
                     + current_height page_with_two_rows_left
                     + snd (table_size fixed_row_height default_table_style
                              WidthsNone
                              (firstn j (table_to_send plain_repr
                                           default_table_style true
                                           example_table)))).
  { intros j Hj. simpl in Hj.
    assert (Hcases : j = 3%nat \/ j = 4%nat) by lia.
    destruct Hcases as [-> | ->]; vm_compute; reflexivity. }
  split.
  - apply (Hcut WidthsNone 2%nat Hov Hcells eq_refl ltac:(simpl; lia) Herr Hfit
             Hbig).
  - destruct (add_table_repeats_header_never_alone one_word_per_line
                fixed_row_height example_png plain_repr markup_error
                empty_table_error 7 example_table WidthsNone "table" "center"
                true page_with_two_rows_left default_table_style eq_refl eq_refl
                ltac:(simpl; lia)) as [_ [_ [_ [_ Htwo]]]].
    destruct (Htwo WidthsNone 2%nat Hov Hcells eq_refl ltac:(simpl; lia) Herr
                Hfit Hbig _ _ eq_refl eq_refl) as [d' [E [Hp _]]].
    + intros H. discriminate H.
    + exact I.
    + vm_compute. reflexivity.
    + intros j Hj. simpl in Hj.
      assert (Hcases : j = 1%nat \/ j = 2%nat \/ j = 3%nat) by lia.
      destruct Hcases as [-> | [-> | ->]]; split; vm_compute; reflexivity.
    + vm_compute. discriminate.
    + simpl. lia.
    + exists d'. split; [exact E | exact Hp].
Defined.

Lemma page_number_advances_witness :
  forallb (fun c => negb (is_toggle c)) example_commands = true /\
  page_count
    (state_of (run_commands one_word_per_line fixed_row_height example_png
                 plain_repr markup_error empty_table_error 30 example_commands
                   default_document)) =
  page_count default_document /\
  page_number
    (state_of (run_commands one_word_per_line fixed_row_height example_png
                 plain_repr markup_error empty_table_error 30 example_commands
                   default_document)) =
  page_number default_document.
Proof.
  split; [reflexivity |].
  pose proof (page_number_advances_only_when_numbering one_word_per_line
                fixed_row_height example_png plain_repr markup_error
                  empty_table_error 30 example_commands
                default_document eq_refl) as H.
  cbv zeta in H. destruct H as [Hc [Hoff _]].
  split; [exact Hc | apply Hoff; reflexivity].
Defined.

Lemma add_table_keeps_caller_rows_witness :
  (0 < List.length aliased_store)%nat /\
  row_at
    (fst (add_table_h one_word_per_line fixed_row_height example_png plain_repr
      markup_error empty_table_error 30
            aliased_store aliased_rows WidthsUniform "table" "center" true
            exactly_full_page)) 0%nat =
  row_at aliased_store 0%nat.
Proof.
  split; [simpl; lia |].
  apply (add_table_keeps_caller_rows one_word_per_line fixed_row_height
           example_png plain_repr markup_error empty_table_error 30
             aliased_store aliased_rows WidthsUniform
           "table" "center" true exactly_full_page 0%nat).
  simpl. lia.
Defined.

(** ** Further runs of the engine *)

Lemma add_template_image_keeps_order_witness :
  NoDup (template_names numbered_with_watermark) /\
  NoDup (template_names
           (add_template_image "logo" "Example.png" 1 1 1 0 0 "left" "bottom"
              numbered_with_watermark)) /\
  dict_get "logo"
    (template_images
       (add_template_image "logo" "Example.png" 1 1 1 0 0 "left" "bottom"
          numbered_with_watermark))
  = Some (mkTemplateImage "Example.png" 1 1 1 0 0 "left" "bottom").
Proof.
  assert (Hnd : NoDup (template_names numbered_with_watermark)).
  { vm_compute. constructor; [intros [] | constructor]. }
  split; [exact Hnd |].
  destruct (add_template_image_keeps_order one_word_per_line example_png
              plain_repr markup_error "logo" "Example.png" 1 1 1 0 0 "left"
                "bottom"
              numbered_with_watermark Hnd) as [H1 [_ [H3 _]]].
  split; [exact H1 | exact H3].
Defined.

Lemma remove_template_image_removes_witness :
  NoDup (template_names numbered_with_two_templates) /\
  exists d',
    remove_template_image "watermark" numbered_with_two_templates = Ok d' /\
    dict_get "watermark" (template_images d') = None /\
    template_names d' = ["logo"].
Proof.
  assert (Hnd : NoDup (template_names numbered_with_two_templates)).
  { vm_compute. constructor; [| constructor; [intros [] | constructor]].
    intros [H | []]. discriminate H. }
  split; [exact Hnd |].
  destruct (remove_template_image_removes one_word_per_line example_png
              plain_repr markup_error "watermark" numbered_with_two_templates
                Hnd)
    as [_ [H _]].
  destruct H as [d' [E [Hn [_ Hnames]]]]; [vm_compute; discriminate |].
  exists d'. split; [exact E |]. split; [exact Hn | exact Hnames].
Defined.

Lemma styles_stay_registered_witness :
  has_style "title" default_document /\
  has_style "title"
    (state_of (run_commands one_word_per_line fixed_row_height example_png
                 plain_repr markup_error empty_table_error 30
                 restyling_commands default_document)).
Proof.
  assert (H : has_style "title" default_document) by (vm_compute; discriminate).
  split; [exact H |].
  destruct (styles_stay_registered one_word_per_line fixed_row_height
              example_png plain_repr markup_error empty_table_error 30
              restyling_commands default_document "title") as [Hkeep _].
  exact (Hkeep H).
Defined.

Lemma below_margin_with_template_never_returns_witness :
  overflows watermark_below_margin = true /\
  template_images watermark_below_margin <> [] /\
  (exists d',
      new_page one_word_per_line example_png 7 watermark_below_margin
      = Timeout d') /\
  (exists d',
      add_section one_word_per_line example_png markup_error 7 "A B" "paragraph"
        watermark_below_margin = Timeout d').
Proof.
  assert (Hov : overflows watermark_below_margin = true) by (vm_compute;
    reflexivity).
  assert (Htpl : template_images watermark_below_margin <> [])
    by (vm_compute; discriminate).
  assert (Hst : page_number_style_ok watermark_below_margin)
    by (intros _; vm_compute; discriminate).
  split; [exact Hov |]. split; [exact Htpl |].
  destruct (below_margin_with_template_never_returns one_word_per_line
              fixed_row_height example_png plain_repr markup_error
                empty_table_error 7 watermark_below_margin
              Hov Htpl Hst) as [Hnp [_ [_ Htext]]].
  split; [exact Hnp |]. apply Htext. vm_compute. discriminate.
Defined.

Lemma new_page_two_templates_never_returns_witness :
  overflows two_templates_near_margin = false /\
  exists d',
    new_page one_word_per_line example_png 9 two_templates_near_margin
    = Timeout d'.
Proof.
  split; [vm_compute; reflexivity |].
  eapply (new_page_two_templates_never_returns one_word_per_line example_png 9
            two_templates_near_margin).
  - reflexivity.
  - intros _. vm_compute. discriminate.
  - vm_compute. reflexivity.
  - repeat split; try (vm_compute; reflexivity). vm_compute. discriminate.
  - vm_compute. reflexivity.
Defined.

Lemma save_finalizes_last_page_witness :
  replay_fits example_png numbered_with_watermark
    (current_height numbered_with_watermark)
    (template_images numbered_with_watermark) /\
  exists d',
    save one_word_per_line example_png 3 numbered_with_watermark = Ok d' /\
    page d' = page numbered_with_watermark
              ++ finalization one_word_per_line example_png
                numbered_with_watermark
              ++ [SaveFile] /\
    current_height d' = 0 /\ page_number d' = 2%Z.
Proof.
  assert (Hst : page_number_style_ok numbered_with_watermark)
    by (intros _; vm_compute; discriminate).
  assert (Hfit : replay_fits example_png numbered_with_watermark
                   (current_height numbered_with_watermark)
                   (template_images numbered_with_watermark)).
  { simpl. repeat split; try (vm_compute; reflexivity); vm_compute;
    discriminate. }
  split; [exact Hfit |].
  exact (save_finalizes_last_page one_word_per_line example_png 2
           numbered_with_watermark Hst Hfit).
Defined.

Lemma absolute_position_anchors_witness :
  fst (_set_absolute_positions default_document "right" "top" 100 50 10 20)
  + 100 + 10 == width default_document /\
  snd (_set_absolute_positions default_document "right" "top" 100 50 10 20)
  + 50 + 20 == height default_document.
Proof.
  destruct (absolute_position_anchors default_document "right" "top" 100 50 10
    20)
    as [Hr [_ [_ [_ [_ [Ht _]]]]]].
  split; [apply Hr; reflexivity | apply Ht; discriminate].
Defined.

Lemma add_image_returns_iff_valid_witness :
  overflows default_document = false /\
  (exists d',
      add_image one_word_per_line example_png 1 "Example.png" 1 1 1 "center"
        0 0 "left" "bottom" default_document = Ok d') /\
  add_image one_word_per_line example_png 1 "Missing.png" 0 1 1 "sideways"
    0 0 "left" "bottom" default_document
  = Raise (ValueError
             "Size proportions, width, and height must be positive values.")
      default_document /\
  add_image one_word_per_line example_png 1 "Missing.png" 1 1 1 "sideways"
    0 0 "left" "bottom" default_document
  = Raise (ValueError "Position must be 'center', 'absolute', or 'default'.")
      default_document.
Proof.
  assert (Hov : overflows default_document = false) by (vm_compute;
    reflexivity).
  split; [exact Hov |]. split; [| split].
  - destruct (add_image_returns_iff_valid one_word_per_line example_png 1
                "Example.png" 1 1 1 "center" 0 0 "left" "bottom"
                default_document Hov) as [[H _] _].
    apply H. repeat split; try (vm_compute; reflexivity). vm_compute.
      discriminate.
  - destruct (add_image_returns_iff_valid one_word_per_line example_png 1
                "Missing.png" 0 1 1 "sideways" 0 0 "left" "bottom"
                default_document Hov) as [_ [_ [H _]]].
    apply H. left. vm_compute. discriminate.
  - destruct (add_image_returns_iff_valid one_word_per_line example_png 1
                "Missing.png" 1 1 1 "sideways" 0 0 "left" "bottom"
                default_document Hov) as [_ [_ [_ [H _]]]].
    apply H; reflexivity.
Defined.

Lemma add_image_flow_placement_witness :
  exists d' x y,
    add_image one_word_per_line example_png 1 "Example.png" 1 1 1 "center"
      0 0 "left" "bottom" default_document = Ok d' /\
    page d' = page default_document
              ++ [DrawImage "Example.png" x y (inject_Z 100 * (1 * 1))
                    (inject_Z 50 * (1 * 1))] /\
    y + inject_Z 50 * (1 * 1)
    == height default_document - margin_top default_document
       - current_height default_document /\
    x + inject_Z 100 * (1 * 1) / 2 == width default_document / 2.
Proof.
  assert (E : add_image one_word_per_line example_png 1 "Example.png" 1 1 1
                "center" 0 0 "left" "bottom" default_document
              = Ok (state_of
                      (add_image one_word_per_line example_png 1 "Example.png"
                         1 1 1 "center" 0 0 "left" "bottom" default_document)))
    by (vm_compute; reflexivity).
  destruct (add_image_flow_placement one_word_per_line example_png 1
              "Example.png" 1 1 1 "center" 0 0 "left" "bottom" default_document
              _ eq_refl ltac:(discriminate) E)
    as [iw [ih [x [y [Hs [Hp [Hy [Hc _]]]]]]]].
  vm_compute in Hs. injection Hs as <- <-.
  eexists. exists x, y. split; [exact E |]. split; [| split].
  - exact Hp.
  - exact Hy.
  - exact (Hc eq_refl).
Defined.

Lemma add_sections_places_lines_in_order_witness :
  has_newline "A B" = false /\
  add_sections one_word_per_line example_png markup_error 3 "A B" "paragraph"
    default_document
  = add_section one_word_per_line example_png markup_error 3 "A B" "paragraph"
    default_document.
Proof.
  split; [reflexivity |].
  apply (add_sections_places_lines_in_order one_word_per_line example_png
    markup_error 3
           "A B" "" "paragraph" default_document).
  reflexivity.
Defined.


Lemma add_section_draws_longest_prefix_that_fits_witness :
  overflows page_with_three_lines_left = false /\
  exists ops,
    page (state_of (add_section one_word_per_line example_png markup_error 5
      "A B C D E"
                      "paragraph" page_with_three_lines_left))
    = page page_with_three_lines_left
      ++ paragraph_at one_word_per_line page_with_three_lines_left
           default_paragraph_style (prefix_text "A B C D E" 3) :: ops.
Proof.
  split; [vm_compute; reflexivity |].
  apply (add_section_draws_longest_prefix_that_fits one_word_per_line
           example_png markup_error 5 "A B C D E" "paragraph"
             default_paragraph_style
           page_with_three_lines_left 3).
  - reflexivity.
  - vm_compute. reflexivity.
  - vm_compute. lia.
  - vm_compute. discriminate.
  - intros j Hj. vm_compute in Hj.
    assert (Hcases : j = 4%nat \/ j = 5%nat) by lia.
    destruct Hcases as [-> | ->]; vm_compute; reflexivity.
  - intros j Hj. vm_compute in Hj.
    assert (Hcases : j = 3%nat \/ j = 4%nat \/ j = 5%nat) by lia.
    destruct Hcases as [-> | [-> | ->]]; vm_compute; reflexivity.
  - vm_compute. lia.
Defined.


Lemma add_table_draws_every_row_once_witness :
  exists d' ops,
    add_table one_word_per_line fixed_row_height example_png plain_repr
      markup_error empty_table_error 9
      example_table WidthsNone "table" "center" true page_with_two_rows_left
    = Ok d' /\
    page d' = page page_with_two_rows_left ++ ops /\
    drawn_rows true ops
    = table_body plain_repr default_table_style true example_table.
Proof.
  assert (E : add_table one_word_per_line fixed_row_height example_png
    plain_repr markup_error empty_table_error
                9 example_table WidthsNone "table" "center" true
                page_with_two_rows_left
              = Ok (state_of
                      (add_table one_word_per_line fixed_row_height example_png
                         plain_repr markup_error empty_table_error 9
                           example_table WidthsNone "table" "center"
                         true page_with_two_rows_left)))
    by (vm_compute; reflexivity).
  destruct (add_table_draws_every_row_once one_word_per_line fixed_row_height
              example_png plain_repr markup_error empty_table_error 9
                example_table WidthsNone "table" "center"
              true page_with_two_rows_left _ default_table_style eq_refl E)
    as [ops [Hp Hrows]].
  eexists. exists ops. split; [exact E |]. split; [exact Hp | exact Hrows].
Defined.



Lemma new_pages_are_numbered_consecutively_witness :
  template_images default_document = [] /\
  exists d',
    run_commands one_word_per_line fixed_row_height example_png plain_repr
      markup_error empty_table_error 1
      (repeat CmdNewPage 3)
      (toggle_page_count (Some 5%Z) (Some true) default_document) = Ok d' /\
    page d' = page default_document
              ++ numbered_pages one_word_per_line default_document
                   default_page_number_style 5 3 /\
    page_number d' = 8%Z.
Proof.
  split; [reflexivity |].
  destruct (new_pages_are_numbered_consecutively one_word_per_line
              fixed_row_height example_png plain_repr markup_error
                empty_table_error 0 default_document
              default_page_number_style 5 3 eq_refl eq_refl) as [H _].
  exact H.
Defined.


Lemma add_table_cuts_at_largest_slice_witness :
  overflows page_with_two_rows_left = false /\
  add_table one_word_per_line fixed_row_height example_png plain_repr
    markup_error empty_table_error 6
    example_table WidthsNone "table" "center" true page_with_two_rows_left
  = add_table one_word_per_line fixed_row_height example_png plain_repr
    markup_error empty_table_error 3
      (table_rest default_table_style 2 example_table) WidthsNone "table"
      "center" true
      (set_current_height
         (current_height page_with_two_rows_left
          + snd (table_size fixed_row_height default_table_style WidthsNone
                   (firstn 2 (table_to_send plain_repr default_table_style true
                                example_table))))
         (draw (table_at fixed_row_height page_with_two_rows_left
                  default_table_style "center" WidthsNone
                  (firstn 2 (table_to_send plain_repr default_table_style true
                               example_table)))
            page_with_two_rows_left)).
Proof.
  assert (Hov : overflows page_with_two_rows_left = false)
    by (vm_compute; reflexivity).
  split; [exact Hov |].
  apply (add_table_cuts_at_largest_slice one_word_per_line fixed_row_height
           example_png plain_repr markup_error empty_table_error 3 example_table
           WidthsNone WidthsNone "table" "center" true page_with_two_rows_left
           default_table_style 2 Hov).
  - reflexivity.
  - vm_compute. reflexivity.
  - reflexivity.
  - simpl. lia.
  - intros H. discriminate H.
  - intros j Hj. simpl in Hj.
    assert (Hcases : j = 2%nat \/ j = 3%nat \/ j = 4%nat) by lia.
    destruct Hcases as [-> | [-> | ->]]; vm_compute; reflexivity.
  - vm_compute. discriminate.
  - intros j Hj. simpl in Hj.
    assert (Hcases : j = 3%nat \/ j = 4%nat) by lia.
    destruct Hcases as [-> | ->]; vm_compute; reflexivity.
Defined.

